(** * Porcupine: the main window controller and the installer script

    A shallow embedding of [porcupine/editor.py] (class [Editor]) and of
    [build-exe-installer.py], with the properties of their control flow:
    which errors are caught and which propagate, how menus are created and
    found again, how key bindings dispatch on the current tab, and what the
    installer script does to the working directory.

    Python objects with identity (menus, tabs) are numbered; mutable
    attributes of [self] are fields of a state record that every method
    threads; exceptions are the second constructor of the result type. *)

From Stdlib Require Import ZArith Lia Ascii String Sorted.
From stdpp Require Import base option list strings gmap pretty.

Local Open Scope string_scope.
Local Open Scope list_scope.

(* ===================================================================== *)
(** * Python: exceptions, results, statements *)
(* ===================================================================== *)

Module Py.

(** The exception classes that can occur in the two files, with the base
    class each one has in Python 3. *)
Inductive ExcClass :=
| BaseException | KeyboardInterrupt
| PyException
| OSError | FileNotFoundError | PermissionError
| IsADirectoryError | NotADirectoryError
| ValueError | UnicodeError | UnicodeDecodeError
| LookupError | KeyError
| AttributeError | AssertionError | MemoryError
| CalledProcessError   (* subprocess *)
| TclError.            (* tkinter *)

#[global] Instance ExcClass_eq_dec : EqDecision ExcClass.
Proof. solve_decision. Defined.

Definition base (c : ExcClass) : option ExcClass :=
  match c with
  | BaseException => None
  | KeyboardInterrupt => Some BaseException
  | PyException => Some BaseException
  | OSError => Some PyException
  | FileNotFoundError | PermissionError
  | IsADirectoryError | NotADirectoryError => Some OSError
  | ValueError => Some PyException
  | UnicodeError => Some ValueError
  | UnicodeDecodeError => Some UnicodeError
  | LookupError => Some PyException
  | KeyError => Some LookupError
  | AttributeError | AssertionError | MemoryError => Some PyException
  | CalledProcessError => Some PyException
  | TclError => Some PyException
  end.

(** [c], its base, the base of its base, ... *)
Fixpoint mro_upto (fuel : nat) (c : ExcClass) : list ExcClass :=
  c :: match fuel, base c with
       | S fuel', Some b => mro_upto fuel' b
       | _, _ => []
       end.

(** No chain of bases is longer than five classes. *)
Definition mro : ExcClass -> list ExcClass := mro_upto 5.

Definition issubclass (c d : ExcClass) : bool := bool_decide (d ∈ mro c).

(** An exception object: its class and its message. *)
Record Exc := mkExc { exc_type : ExcClass; exc_msg : string }.

#[global] Instance Exc_eq_dec : EqDecision Exc.
Proof. solve_decision. Defined.

(** [isinstance(e, (c1, c2, ...))] *)
Definition isinstance (e : Exc) (classes : list ExcClass) : bool :=
  existsb (issubclass (exc_type e)) classes.

(** [type(e).__name__] *)
Definition type_name (c : ExcClass) : string :=
  match c with
  | BaseException => "BaseException"
  | KeyboardInterrupt => "KeyboardInterrupt"
  | PyException => "Exception"
  | OSError => "OSError"
  | FileNotFoundError => "FileNotFoundError"
  | PermissionError => "PermissionError"
  | IsADirectoryError => "IsADirectoryError"
  | NotADirectoryError => "NotADirectoryError"
  | ValueError => "ValueError"
  | UnicodeError => "UnicodeError"
  | UnicodeDecodeError => "UnicodeDecodeError"
  | LookupError => "LookupError"
  | KeyError => "KeyError"
  | AttributeError => "AttributeError"
  | AssertionError => "AssertionError"
  | MemoryError => "MemoryError"
  | CalledProcessError => "CalledProcessError"
  | TclError => "TclError"
  end.

(** The outcome of running a piece of Python on a state [S]: it returns a
    value, or an exception leaves it; either way the state is what the
    code made of it until then. *)
Inductive Res (S A : Type) : Type :=
| Returned (a : A) (s : S)
| Raised (e : Exc) (s : S).
Arguments Returned {S A} a s.
Arguments Raised {S A} e s.

Definition M (S A : Type) : Type := S -> Res S A.

Definition ret {S A} (a : A) : M S A := fun s => Returned a s.

Definition raise {S A} (e : Exc) : M S A := fun s => Raised e s.

Definition bind {S A B} (m : M S A) (k : A -> M S B) : M S B :=
  fun s => match m s with
           | Returned a s1 => k a s1
           | Raised e s1 => Raised e s1
           end.

Definition get {S} : M S S := fun s => Returned s s.

Definition modify {S} (f : S -> S) : M S unit := fun s => Returned tt (f s).

(** [try: body  except classes as e: handler e] *)
Definition try_except {S A} (body : M S A) (classes : list ExcClass)
    (handler : Exc -> M S A) : M S A :=
  fun s => match body s with
           | Returned a s1 => Returned a s1
           | Raised e s1 =>
               if isinstance e classes then handler e s1 else Raised e s1
           end.

(** [try: body  finally: cleanup].  The cleanup always runs; an exception
    of the cleanup replaces the outcome of the body. *)
Definition try_finally {S A} (body : M S A) (cleanup : M S unit) : M S A :=
  fun s => match body s with
           | Returned a s1 =>
               match cleanup s1 with
               | Returned _ s2 => Returned a s2
               | Raised e s2 => Raised e s2
               end
           | Raised e s1 =>
               match cleanup s1 with
               | Returned _ s2 => Raised e s2
               | Raised e' s2 => Raised e' s2
               end
           end.

(** [for x in xs: body x] *)
Fixpoint for_each {S A} (xs : list A) (body : A -> M S unit) : M S unit :=
  match xs with
  | [] => ret tt
  | x :: rest => bind (body x) (fun _ => for_each rest body)
  end.

(** [assert cond, msg] *)
Definition assert {S} (cond : bool) (msg : string) : M S unit :=
  if cond then ret tt else raise (mkExc AssertionError msg).

Definition state_of {S A} (r : Res S A) : S :=
  match r with Returned _ s => s | Raised _ s => s end.

Definition returned {S A} (r : Res S A) : bool :=
  match r with Returned _ _ => true | Raised _ _ => false end.

Declare Scope py_scope.
Delimit Scope py_scope with py.
Notation "x <- m ;; k" := (bind m (fun x => k))
  (at level 100, m at level 99, k at level 200, right associativity,
   only parsing) : py_scope.
Notation "m ;; k" := (bind m (fun _ => k))
  (at level 100, k at level 200, right associativity,
   only parsing) : py_scope.

(** ** The string methods the two files use (on ASCII text) *)

(** The line feed, as a string. *)
Definition newline : string := String "010" EmptyString.

(** [s.split(sep)] for a one-character separator: never an empty list. *)
Fixpoint split (sep : ascii) (s : string) : list string :=
  match s with
  | EmptyString => [EmptyString]
  | String c rest =>
      if decide (c = sep) then EmptyString :: split sep rest
      else match split sep rest with
           | [] => [String c EmptyString]
           | w :: ws => String c w :: ws
           end
  end.

(** [sep.join(parts)] *)
Fixpoint join (sep : string) (parts : list string) : string :=
  match parts with
  | [] => EmptyString
  | [p] => p
  | p :: rest => p +:+ sep +:+ join sep rest
  end.

(** [s.rsplit(sep, 1)]: [None] when [sep] does not occur (Python then
    returns a list of one element), else what is before and after the
    last occurrence. *)
Definition rsplit1 (sep : ascii) (s : string) : option (string * string) :=
  match reverse (split sep s) with
  | [] | [_] => None
  | last :: before => Some (join (String sep EmptyString) (reverse before), last)
  end.

Fixpoint startswith (prefix s : string) : bool :=
  match prefix, s with
  | EmptyString, _ => true
  | String p prefix', String c s' =>
      bool_decide (p = c) && startswith prefix' s'
  | String _ _, EmptyString => false
  end.

Definition lower_char (c : ascii) : ascii :=
  let n := nat_of_ascii c in
  if (65 <=? n)%nat && (n <=? 90)%nat then ascii_of_nat (n + 32) else c.

Definition upper_char (c : ascii) : ascii :=
  let n := nat_of_ascii c in
  if (97 <=? n)%nat && (n <=? 122)%nat then ascii_of_nat (n - 32) else c.

Definition is_alpha (c : ascii) : bool :=
  let n := nat_of_ascii c in
  ((65 <=? n)%nat && (n <=? 90)%nat) || ((97 <=? n)%nat && (n <=? 122)%nat).

Fixpoint str_map (f : ascii -> ascii) (s : string) : string :=
  match s with
  | EmptyString => EmptyString
  | String c rest => String (f c) (str_map f rest)
  end.

(** [s.lower()] *)
Definition lower : string -> string := str_map lower_char.

(** [s.replace(a, b)] for single characters *)
Definition replace_char (a b : ascii) : string -> string :=
  str_map (fun c => if decide (c = a) then b else c).

(** [s.title()]: a letter that follows a letter is lowered, any other
    letter is raised. *)
Fixpoint title_from (after_letter : bool) (s : string) : string :=
  match s with
  | EmptyString => EmptyString
  | String c rest =>
      String (if after_letter then lower_char c else upper_char c)
             (title_from (is_alpha c) rest)
  end.

Definition title : string -> string := title_from false.

(** Whitespace of [str.strip()] in the ASCII range. *)
Definition is_space (c : ascii) : bool :=
  let n := nat_of_ascii c in
  ((9 <=? n)%nat && (n <=? 13)%nat) || ((28 <=? n)%nat && (n <=? 32)%nat).

Fixpoint lstrip (s : string) : string :=
  match s with
  | String c rest => if is_space c then lstrip rest else s
  | EmptyString => EmptyString
  end.

Fixpoint rstrip (s : string) : string :=
  match s with
  | EmptyString => EmptyString
  | String c rest =>
      match rstrip rest with
      | EmptyString => if is_space c then EmptyString else String c EmptyString
      | r => String c r
      end
  end.

(** [s.strip()] *)
Definition strip (s : string) : string := rstrip (lstrip s).

(** Line boundaries of [str.splitlines()] in the ASCII range. *)
Definition is_linebreak (c : ascii) : bool :=
  let n := nat_of_ascii c in
  ((10 <=? n)%nat && (n <=? 13)%nat) || ((28 <=? n)%nat && (n <=? 30)%nat).

(** [splitlines_from cur s]: [cur] is the line read so far, reversed. *)
Fixpoint splitlines_from (cur : list ascii) (s : string) : list string :=
  match s with
  | EmptyString =>
      match cur with [] => [] | _ => [string_of_list_ascii (reverse cur)] end
  | String c rest =>
      if is_linebreak c then
        string_of_list_ascii (reverse cur) ::
          match c, rest with
          | "013"%char, String "010"%char rest' => splitlines_from [] rest'
          | _, _ => splitlines_from [] rest
          end
      else splitlines_from (c :: cur) rest
  end.

(** [s.splitlines()] *)
Definition splitlines : string -> list string := splitlines_from [].

(** The lines of a file opened in text mode, as iterating over the file
    gives them: a line ends at a line feed, at a carriage return, or at
    the two in a row, and has one line feed in their place; the last
    line has none when the file does not end with a line end. *)
Fixpoint file_lines (s : string) : list string :=
  match s with
  | EmptyString => []
  | String c rest =>
      if bool_decide (c = "010"%char) then newline :: file_lines rest
      else if bool_decide (c = "013"%char) then
        newline :: match rest with
                   | String c' rest' =>
                       if bool_decide (c' = "010"%char) then file_lines rest'
                       else file_lines rest
                   | EmptyString => []
                   end
      else match file_lines rest with
           | line :: lines => String c line :: lines
           | [] => [String c EmptyString]
           end
  end.

End Py.

(* ===================================================================== *)
(** * build-exe-installer.py *)
(* ===================================================================== *)

Module Installer.
Import Py.
Local Open Scope py_scope.

(** What the script cannot decide by itself: the platform, the interpreter,
    how the processes it starts end, and the functions of Python's own
    library that it calls on the text of a file ([re], [configparser]). *)
Record World := {
  platform_system : string;                 (* platform.system() *)
  sys_executable : string;                  (* sys.executable *)
  sys_version_info : nat * nat * nat;       (* sys.version_info[:3] *)
  venv_exit : Z;          (* exit code of  python -m venv temp_env *)
  pip_install_exit : Z;   (* ... of  pip install -r requirements.txt *)
  pip_freeze_exit : Z;    (* ... of  pip freeze *)
  pip_freeze_output : option string;
        (* what pip freeze prints; None when it is not UTF-8 *)
  nsist_exit : Z;         (* ... of  python -m nsist pynsist.cfg *)
  re_findall_metadata : string -> list (string * string);
        (* re.findall of the  __(author|copyright|license)__  pattern *)
  re_search_version_info : string -> option (string * string * string);
        (* re.search of the  version_info = (a, b, c)  pattern, .groups() *)
  interpolation_ok : string -> bool;
        (* configparser accepts the value (its rule for '%') *)
}.

(** A process the script has started, by its argument list. *)
Inductive Event :=
| Spawn (argv : list string).

#[global] Instance Event_eq_dec : EqDecision Event.
Proof. solve_decision. Defined.

(** The working directory: the directories and the files in it (by path
    relative to it), and the processes started so far. *)
Record Dir := mkDir {
  dirs : gset string;
  files : gmap string string;
  spawned : list Event;
}.

Definition with_dirs (f : gset string -> gset string) (d : Dir) : Dir :=
  mkDir (f (dirs d)) (files d) (spawned d).
Definition with_files (f : gmap string string -> gmap string string)
    (d : Dir) : Dir :=
  mkDir (dirs d) (f (files d)) (spawned d).
Definition with_spawned (f : list Event -> list Event) (d : Dir) : Dir :=
  mkDir (dirs d) (files d) (f (spawned d)).

(** [open(path).read()] *)
Definition read_file (path : string) : M Dir string :=
  fun d => match files d !! path with
           | Some content => Returned content d
           | None =>
               if bool_decide (path ∈ dirs d)
               then Raised (mkExc PermissionError path) d
               else Raised (mkExc FileNotFoundError path) d
           end.

(** [with open(path, 'w') as file: file.write(content)] *)
Definition write_file (path content : string) : M Dir unit :=
  fun d => if bool_decide (path ∈ dirs d)
           then Raised (mkExc PermissionError path) d
           else Returned tt (with_files (insert path content) d).

(** [path] lies inside the directory [dir]. *)
Definition inside (dir path : string) : bool :=
  startswith (dir +:+ "\") path || startswith (dir +:+ "/") path.

(** [shutil.rmtree(path)]: removes the directory and what is in it; a path
    that does not exist is an error. *)
Definition rmtree (path : string) : M Dir unit :=
  fun d =>
    if bool_decide (path ∈ dirs d) then
      Returned tt
        (with_files (filter (fun kv => inside path kv.1 = false))
           (with_dirs (filter (fun p => p ≠ path ∧ inside path p = false)) d))
    else if bool_decide (is_Some (files d !! path))
    then Raised (mkExc NotADirectoryError path) d
    else Raised (mkExc FileNotFoundError path) d.

(** [subprocess.check_call(argv)] for a process that ends with [code] and
    whose effect on the directory is [effect]. *)
Definition check_call (argv : list string) (code : Z)
    (effect : Dir -> Dir) : M Dir unit :=
  fun d =>
    let d1 := with_spawned (fun t => t ++ [Spawn argv]) d in
    if (code =? 0)%Z then Returned tt (effect d1)
    else Raised (mkExc CalledProcessError (join " " argv)) d1.

(** [subprocess.check_output(argv).decode('utf-8')] *)
Definition check_output (argv : list string) (code : Z)
    (output : option string) : M Dir string :=
  check_call argv code id ;;
  match output with
  | Some text => ret text
  | None => raise (mkExc UnicodeDecodeError "utf-8")
  end.

Section Script.
Variable w : World.

(** [get_requirements()], as a list instead of a generator.  Nothing in
    the script calls it. *)
Definition get_requirements : M Dir (list string) :=
  content <- read_file "requirements.txt" ;;
  ret (filter (fun line => startswith "#" line = false ∧ line ≠ EmptyString)
              (strip <$> file_lines content)).

(** [dict(pairs)]: a later pair replaces an earlier one of the same key. *)
Definition dict (pairs : list (string * string)) : gmap string string :=
  foldl (fun m kv => <[kv.1 := kv.2]> m) ∅ pairs.

Definition find_metadata : M Dir (gmap string string) :=
  content <- read_file "porcupine\__init__.py" ;;
  let result := dict (re_findall_metadata w content) in
  assert (bool_decide
            (dom result = ({["author"; "copyright"; "license"]} : gset string)))
         "result" ;;
  match re_search_version_info w content with
  | None => raise (mkExc AttributeError "groups")
  | Some (a, b, c) =>
      ret (<["version" := a +:+ "." +:+ b +:+ "." +:+ c]> result)
  end.

Definition get_frozen_requirements_in_a_crazy_way : M Dir (list string) :=
  check_call [sys_executable w; "-m"; "venv"; "temp_env"] (venv_exit w)
             (with_dirs (fun ds => {["temp_env"]} ∪ ds)) ;;
  frozen <-
    try_finally
      (check_call ["temp_env\Scripts\python.exe"; "-m";
                   "pip"; "install"; "-r"; "requirements.txt"]
                  (pip_install_exit w) id ;;
       out <- check_output ["temp_env\Scripts\python.exe"; "-m";
                            "pip"; "freeze"]
                           (pip_freeze_exit w) (pip_freeze_output w) ;;
       ret (splitlines (strip out)))
      (rmtree "temp_venv") ;;
  ret (filter (fun requirement =>
                 startswith "porcupine==" (lower requirement) = false)
              frozen).

(** A [configparser.ConfigParser]: its sections in the order they were
    set, each with its options. *)
Definition Config : Type := list (string * list (string * string)).

(** [parser[section] = options]: every value passes the parser's check. *)
Definition set_section (section : string) (options : list (string * string))
    (parser : Config) : M Dir Config :=
  for_each options (fun kv =>
    if interpolation_ok w kv.2 then ret tt
    else raise (mkExc ValueError kv.2)) ;;
  let options := (fun kv => (lower kv.1, kv.2)) <$> options in
  ret (if existsb (fun s => bool_decide (s.1 = section)) parser
       then (fun s => if bool_decide (s.1 = section)
                      then (section, options) else s) <$> parser
       else parser ++ [(section, options)]).

(** [parser.write(file)]: the text of the file. *)
Definition render_option (kv : string * string) : string :=
  kv.1 +:+ " = "
       +:+ join (String "010" (String "009" EmptyString)) (split "010" kv.2)
       +:+ newline.

Definition render_section (s : string * list (string * string)) : string :=
  "[" +:+ s.1 +:+ "]" +:+ newline
      +:+ join EmptyString (render_option <$> s.2) +:+ newline.

Definition render (parser : Config) : string :=
  join EmptyString (render_section <$> parser).

Definition version_string (v : nat * nat * nat) : string :=
  pretty v.1.1 +:+ "." +:+ pretty v.1.2 +:+ "." +:+ pretty v.2.

Definition create_pynsist_cfg : M Dir unit :=
  let parser : Config := [] in
  metadata <- find_metadata ;;
  version <- match metadata !! "version" with
             | Some v => ret v
             | None => raise (mkExc KeyError "version")
             end ;;
  parser <- set_section "Application"
              [("name", "Porcupine");
               ("version", version);
               ("entry_point", "porcupine.__main__:main");
               ("license_file", "LICENSE")] parser ;;
  parser <- set_section "Python"
              [("version", version_string (sys_version_info w))] parser ;;
  frozen <- get_frozen_requirements_in_a_crazy_way ;;
  parser <- set_section "Include"
              [("pypi_wheels", join newline frozen);
               ("files", "porcupine/images")] parser ;;
  write_file "pynsist.cfg" (render parser).

Definition nsist_argv : list string :=
  [sys_executable w; "-m"; "nsist"; "pynsist.cfg"].

Definition run_pynsist : M Dir unit :=
  check_call nsist_argv (nsist_exit w) id.

Definition main : M Dir unit :=
  create_pynsist_cfg ;;
  run_pynsist.

(** The file as a script: the assertion at its top, then [main()]. *)
Definition script : M Dir unit :=
  assert (bool_decide (platform_system w = "Windows"))
         "this script must be ran on windows" ;;
  main.

(** The exit status of the interpreter: 0 when the script ran to its end,
    1 when an exception left it. *)
Definition exit_status (r : Res Dir unit) : Z :=
  match r with
  | Returned _ _ => 0
  | Raised _ _ => 1
  end.

End Script.

(** The processes that [get_frozen_requirements_in_a_crazy_way] starts. *)
Definition venv_argv (w : World) : list string :=
  [sys_executable w; "-m"; "venv"; "temp_env"].
Definition pip_install_argv : list string :=
  ["temp_env\Scripts\python.exe"; "-m"; "pip"; "install"; "-r";
   "requirements.txt"].
Definition pip_freeze_argv : list string :=
  ["temp_env\Scripts\python.exe"; "-m"; "pip"; "freeze"].

(** ** A checkout to run the script in *)
Module Sample.

(** *** The two patterns of [find_metadata], on ASCII text

    With [re.MULTILINE] both patterns are matched line by line, the
    lines ending at line feeds; [.] is any character of the line. *)

Definition is_digit (c : ascii) : bool :=
  let n := nat_of_ascii c in (48 <=? n)%nat && (n <=? 57)%nat.

Definition is_quote (c : ascii) : bool :=
  bool_decide (c = "'"%char) || bool_decide (c = "034"%char).

(** [s] without [prefix], if it starts with it. *)
Fixpoint after (prefix s : string) : option string :=
  match prefix, s with
  | EmptyString, _ => Some s
  | String p prefix', String c s' =>
      if bool_decide (p = c) then after prefix' s' else None
  | String _ _, EmptyString => None
  end.

(** The rest of the first pattern: a quote character (single or
    double), any characters (the group), a quote character, the end of
    the line. *)
Definition quoted (s : string) : option string :=
  match list_ascii_of_string s with
  | q :: body =>
      match reverse body with
      | q' :: middle =>
          if is_quote q && is_quote q'
          then Some (string_of_list_ascii (reverse middle))
          else None
      | [] => None
      end
  | [] => None
  end.

(** A line that matches the first pattern: [__KEY__ = ] for one of the
    three keys, then a quoted text.  The groups are the key and the
    text. *)
Definition metadata_of_line (line : string) : option (string * string) :=
  head (omap (fun key =>
                match after ("__" +:+ key +:+ "__ = ") line with
                | Some value =>
                    match quoted value with
                    | Some text => Some (key, text)
                    | None => None
                    end
                | None => None
                end)
             ["author"; "copyright"; "license"]).

(** [re.findall(pattern, content, re.MULTILINE)] *)
Definition findall_metadata (content : string) : list (string * string) :=
  omap metadata_of_line (split "010" content).

(** The digits at the start of [s], one at least, and what follows. *)
Fixpoint digits (s : string) : string * string :=
  match s with
  | String c rest =>
      if is_digit c then (String c (digits rest).1, (digits rest).2)
      else (EmptyString, s)
  | EmptyString => (EmptyString, EmptyString)
  end.

Definition number_then (next : string) (s : string)
  : option (string * string) :=
  match digits s with
  | (EmptyString, _) => None
  | (number, rest) =>
      match after next rest with
      | Some rest' => Some (number, rest')
      | None => None
      end
  end.

(** A line that starts as the second pattern says: [version_info = (],
    three numbers with a comma and a space between them, [)]. *)
Definition version_info_of_line (line : string)
  : option (string * string * string) :=
  match after "version_info = (" line with
  | Some rest =>
      match number_then ", " rest with
      | Some (a, rest) =>
          match number_then ", " rest with
          | Some (b, rest) =>
              match number_then ")" rest with
              | Some (c, _) => Some (a, b, c)
              | None => None
              end
          | None => None
          end
      | None => None
      end
  | None => None
  end.

(** [re.search(pattern, content, re.MULTILINE)], and [.groups()] of the
    match. *)
Definition search_version_info (content : string)
  : option (string * string * string) :=
  head (omap version_info_of_line (split "010" content)).

(** Windows, every process succeeds except the packaging tool, which ends
    with exit code 2. *)
Definition world : World := {|
  platform_system := "Windows";
  sys_executable := "python.exe";
  sys_version_info := (3, 6, 1)%nat;
  venv_exit := 0;
  pip_install_exit := 0;
  pip_freeze_exit := 0;
  pip_freeze_output :=
    Some ("Pygments==2.2.0" +:+ String "013" newline
          +:+ "porcupine==0.3.0" +:+ String "013" newline);
  nsist_exit := 2;
  re_findall_metadata := findall_metadata;
  re_search_version_info := search_version_info;
  interpolation_ok := fun _ => true;
|}.

(** The lines of [porcupine/__init__.py] that the script looks at. *)
Definition init_py : string :=
  "version_info = (0, 3, 0)" +:+ newline
  +:+ "__version__ = '%d.%d.%d' % version_info" +:+ newline
  +:+ "__author__ = 'Akuli'" +:+ newline
  +:+ "__copyright__ = 'Copyright (c) 2017 Akuli'" +:+ newline
  +:+ "__license__ = 'MIT'" +:+ newline.

Definition checkout_files : gmap string string :=
  {[ "requirements.txt" := "pygments" +:+ newline;
     "porcupine\__init__.py" := init_py ]}.

(** A checkout as it comes from the repository. *)
Definition checkout : Dir := mkDir ∅ checkout_files [].

(** The same with a directory [temp_venv], which the repository does not
    have. *)
Definition checkout_with_temp_venv : Dir :=
  mkDir {["temp_venv"]} checkout_files [].

End Sample.

(** ** More vocabulary and samples *)

(** The parser of [create_pynsist_cfg] when its three sections are set. *)
Definition pynsist_config (w : World) (version : string)
    (frozen : list string) : Config :=
  [("Application", [("name", "Porcupine");
                    ("version", version);
                    ("entry_point", "porcupine.__main__:main");
                    ("license_file", "LICENSE")]);
   ("Python", [("version", version_string (sys_version_info w))]);
   ("Include", [("pypi_wheels", join newline frozen);
                ("files", "porcupine/images")])].

(** The last value that [pairs] gives for [key]. *)
Definition last_value (key : string) (pairs : list (string * string))
  : option string :=
  snd <$> last (filter (fun kv => kv.1 = key) pairs).

(** The sample world with a [pip install] that fails. *)
Definition world_pip_fails : World := {|
  platform_system := platform_system Sample.world;
  sys_executable := sys_executable Sample.world;
  sys_version_info := sys_version_info Sample.world;
  venv_exit := 0;
  pip_install_exit := 1;
  pip_freeze_exit := 0;
  pip_freeze_output := pip_freeze_output Sample.world;
  nsist_exit := 0;
  re_findall_metadata := re_findall_metadata Sample.world;
  re_search_version_info := re_search_version_info Sample.world;
  interpolation_ok := interpolation_ok Sample.world;
|}.

(** A checkout whose requirements file has a comment, a blank line,
    spaces around a name, a name twice, and lines that end in a carriage
    return, with and without a line feed. *)
Definition checkout_with_comments : Dir :=
  mkDir ∅
    {[ "requirements.txt" :=
         "# what porcupine needs" +:+ newline +:+ newline
         +:+ "  pygments " +:+ newline
         +:+ "docutils" +:+ String "013" newline
         +:+ "  # later" +:+ String "013" "pygments" ]}
    [].


(** The processes of [get_frozen_requirements_in_a_crazy_way], by the
    exit codes: each one starts when the one before has exited with 0. *)
Definition pip_processes (w : World) : list Event :=
  Spawn (venv_argv w)
  :: (if (venv_exit w =? 0)%Z then
        Spawn pip_install_argv
        :: (if (pip_install_exit w =? 0)%Z then [Spawn pip_freeze_argv]
            else [])
      else []).

End Installer.

(* ===================================================================== *)
(** * porcupine/editor.py *)
(* ===================================================================== *)

Module Editor.
Import Py.
Local Open Scope py_scope.

(** ** Tabs and the tab manager

    [porcupine.tabs] is not part of these sources.  Of a tab the editor
    uses its class, its [path], its [textwidget] and the methods
    [can_be_closed], [close], [save], [save_as] and [find]; of the tab
    manager the attributes [tabs], [current_tab] and [bindings] and the
    method [add_tab].  What these methods do to the tab manager is a
    parameter of the model ([World] below). *)

(** The class of a tab: [tabs.Tab], [tabs.FileTab], which derives from
    it, or a class that another module defines, with its base classes
    among the tab classes.  It has one base at least: every tab class
    derives from [Tab]. *)
#[warnings="-register-all"] Inductive TabClass :=
| Tab
| FileTab
| Subclass (name : string) (base : TabClass) (more_bases : list TabClass).

#[global] Instance TabClass_eq_dec : EqDecision TabClass.
Proof.
  unfold EqDecision, Decision. fix IH 1. intros x y.
  decide equality; [apply (List.list_eq_dec IH)|apply string_dec].
Defined.

(** [issubclass(c, d)]: [d] is [c] or one of the classes that [c]
    derives from, directly or through its bases. *)
Fixpoint tab_issubclass (c d : TabClass) : bool :=
  bool_decide (c = d)
  || match c with
     | Tab => false
     | FileTab => bool_decide (d = Tab)
     | Subclass _ base more_bases =>
         tab_issubclass base d
         || existsb (fun b => tab_issubclass b d) more_bases
     end.

Record TabObj := mkTab {
  tab_id : nat;                      (* the identity of the object *)
  tab_class : TabClass;
  tab_content : option string;       (* as given to the constructor *)
  tab_path : option string;
  tab_textwidget : option nat;       (* the text widget, when it has one *)
}.

#[global] Instance TabObj_eq_dec : EqDecision TabObj.
Proof. solve_decision. Defined.

Record TabManager := mkTabManager {
  tabs : list TabObj;
  current_tab : option TabObj;
}.

#[global] Instance TabManager_eq_dec : EqDecision TabManager.
Proof. solve_decision. Defined.

(** The second argument of [isinstance] in [add_action]: [type(None)] or a
    tab class. *)
Inductive PyType :=
| NoneType
| TabType (cls : TabClass).

#[global] Instance PyType_eq_dec : EqDecision PyType.
Proof. solve_decision. Defined.

(** [isinstance(value, tabtypes)] for [value] a tab or [None]. *)
Definition isinstance_tab (value : option TabObj) (tabtypes : list PyType)
  : bool :=
  existsb (fun ty =>
             match value, ty with
             | None, NoneType => true
             | Some t, TabType cls => tab_issubclass (tab_class t) cls
             | _, _ => false
             end) tabtypes.

(** ** Callables

    The functions that [_setup_menus] hands to [add_action], by what they
    are in the source. *)
Inductive Callback :=
| CbNewFile                         (* self.new_file *)
| CbOpenFiles                       (* self.open_files *)
| CbTabMethod (name : string)       (* lambda: self.tabmanager.current_tab.NAME() *)
| CbCloseTabOrQuit                  (* self._close_tab_or_quit *)
| CbTextMethod (attribute : string) (* textmethod(attribute) *)
| CbOnWheel (direction : string)
    (* lambda: self.tabmanager.current_tab.textwidget.on_wheel(direction) *)
| CbSettingDialogShow               (* settingdialog.show *)
| CbWebbrowserOpen (url : string)   (* functools.partial(webbrowser.open, url) *)
| CbConfigSet (section key value : string)
    (* functools.partial(config.__setitem__, (section, key), value) *)
| CbForeign (name : string).        (* a callable of another module *)

#[global] Instance Callback_eq_dec : EqDecision Callback.
Proof. solve_decision. Defined.

(** ** Calls into other modules

    Each call the editor makes into a module that is not its own is an
    event; the events of a run, in order, are its trace. *)
Inductive Event :=
| EvOpenFilesDialog (defaultdir : option string)  (* dialogs.open_files *)
| EvConfigGet (section key : string)              (* config[section, key] *)
| EvOpen (path encoding : string)                 (* open(...) and f.read() *)
| EvNewFileTab (content path : option string)     (* tabs.FileTab(...) *)
| EvLogException (msg : string)                   (* log.exception *)
| EvErrorDialog (title msg details : string)      (* utils.errordialog *)
| EvCopyBindings (textwidget : option nat)        (* utils.copy_bindings *)
| EvAddTab (tab : TabObj) (make_current : option bool)
| EvTabMethod (tab : TabObj) (name : string)      (* tab.NAME() *)
| EvTextMethod (textwidget : nat) (name : string) (args : list string)
| EvSettingDialogShow
| EvWebbrowserOpen (url : string)
| EvConfigSet (section key value : string)
| EvConfigConnect (section key : string)
| EvGetStyle (name : string)          (* pygments.styles.get_style_by_name *)
| EvHookRun (new_tab : option TabObj) (* self.tab_changed_hook.run(new_tab) *)
| EvContextEnter (new_tab : option TabObj)
| EvContextExit (new_tab : option TabObj)
| EvDestroy                           (* tk.Frame.destroy *)
| EvCall (name : string).             (* a callable of another module *)

#[global] Instance Event_eq_dec : EqDecision Event.
Proof. solve_decision. Defined.

(** A pygments style, as far as [_setup_menus] looks at it. *)
Record Style := mkStyle {
  background_color : string;
  string_color : option string;   (* style_infos[String]['color'] *)
  text_color : option string;     (* style_infos[Text]['color'] *)
  default_style : string;         (* getattr(style, 'default_style', '') *)
}.

(** ** Menus *)

Inductive EntryState := Normal | Disabled.

#[global] Instance EntryState_eq_dec : EqDecision EntryState.
Proof. solve_decision. Defined.

(** The entries of a [tk.Menu]; a menu is a number, the entries of the
    menus are in the state. *)
Inductive Entry :=
| Cascade (label : string) (menu : nat)
| Command (label : string) (command : Callback)
          (accelerator : option string) (state : EntryState)
| Separator
| Radiobutton (label value : string) (command : Callback)
              (foreground background : string).

#[global] Instance Entry_eq_dec : EqDecision Entry.
Proof. solve_decision. Defined.

(** The function that [add_action] binds to a key: [bind_callback], a
    closure over [callback] and [tabtypes]. *)
Record BindCallback := mkBind {
  bound_callback : Callback;
  bound_tabtypes : list PyType;
}.

(** The functions connected to [tabmanager.tab_changed_hook]. *)
Inductive HookCallback :=
| HookEntryState (menu menuindex : nat) (tabtypes : list PyType)
    (* tab_changed of add_action, a closure over these three *)
| HookTabChanged.   (* self._tab_changed *)

(** ** The world around the editor *)

(** The outcome of a call that returns a value or raises. *)
Inductive Try (A : Type) : Type :=
| Done (a : A)
| Fails (e : Exc).
Arguments Done {A} a.
Arguments Fails {A} e.

Record World := {
  fails : Event -> option Exc;
      (* the exception with which a call into another module ends, if any *)
  config_files_encoding : string;             (* config["Files", "encoding"] *)
  open_read : string -> string -> Try string; (* open(path, encoding).read() *)
  chosen_files : option string -> list string; (* dialogs.open_files *)
  dirname : string -> string;                 (* os.path.dirname *)
  format_exc : Exc -> string;                 (* traceback.format_exc() *)
  can_be_closed : TabObj -> bool;             (* tab.can_be_closed() *)
  tm_bindings : list (string * string);
      (* tabmanager.bindings: key sequences and the names of callables *)
  tm_add_tab : TabObj -> option bool -> TabManager -> TabManager;
  tm_tab_method : string -> TabObj -> TabManager -> TabManager;
      (* what tab.NAME() leaves of the tab manager *)
  tm_destroy : TabManager -> TabManager;
  all_styles : list string;                   (* pygments.styles.get_all_styles() *)
  get_style_by_name : string -> Style;
  invert_color : string -> string;            (* utils.invert_color *)
}.

(** ** The editor's state *)

Record State := mkState {
  tabmanager : TabManager;
  menus : gmap nat (list Entry);        (* the entries of every menu *)
  next_menu : nat;                      (* the number of the next tk.Menu *)
  next_tab : nat;                       (* the number of the next tab *)
  _submenus : gmap (nat * string) nat;  (* {(parentmenu, label): submenu} *)
  key_bindings : gmap string BindCallback;   (* self.bind *)
  tab_changed_hook : list HookCallback; (* tabmanager.tab_changed_hook *)
  _tab_context_manager : option (option TabObj);
  destroy_callback : option string;
  destroyed : bool;
  trace : list Event;
}.

(** [self.menubar], the first menu that [__init__] makes. *)
Definition menubar : nat := 0.

Definition with_tabmanager (f : TabManager -> TabManager) (s : State) :=
  mkState (f (tabmanager s)) (menus s) (next_menu s) (next_tab s)
          (_submenus s) (key_bindings s) (tab_changed_hook s)
          (_tab_context_manager s) (destroy_callback s) (destroyed s)
          (trace s).
Definition with_menus (f : gmap nat (list Entry) -> gmap nat (list Entry))
    (s : State) :=
  mkState (tabmanager s) (f (menus s)) (next_menu s) (next_tab s)
          (_submenus s) (key_bindings s) (tab_changed_hook s)
          (_tab_context_manager s) (destroy_callback s) (destroyed s)
          (trace s).
Definition with_next_menu (f : nat -> nat) (s : State) :=
  mkState (tabmanager s) (menus s) (f (next_menu s)) (next_tab s)
          (_submenus s) (key_bindings s) (tab_changed_hook s)
          (_tab_context_manager s) (destroy_callback s) (destroyed s)
          (trace s).
Definition with_next_tab (f : nat -> nat) (s : State) :=
  mkState (tabmanager s) (menus s) (next_menu s) (f (next_tab s))
          (_submenus s) (key_bindings s) (tab_changed_hook s)
          (_tab_context_manager s) (destroy_callback s) (destroyed s)
          (trace s).
Definition with_submenus
    (f : gmap (nat * string) nat -> gmap (nat * string) nat) (s : State) :=
  mkState (tabmanager s) (menus s) (next_menu s) (next_tab s)
          (f (_submenus s)) (key_bindings s) (tab_changed_hook s)
          (_tab_context_manager s) (destroy_callback s) (destroyed s)
          (trace s).
Definition with_key_bindings
    (f : gmap string BindCallback -> gmap string BindCallback) (s : State) :=
  mkState (tabmanager s) (menus s) (next_menu s) (next_tab s)
          (_submenus s) (f (key_bindings s)) (tab_changed_hook s)
          (_tab_context_manager s) (destroy_callback s) (destroyed s)
          (trace s).
Definition with_tab_changed_hook
    (f : list HookCallback -> list HookCallback) (s : State) :=
  mkState (tabmanager s) (menus s) (next_menu s) (next_tab s)
          (_submenus s) (key_bindings s) (f (tab_changed_hook s))
          (_tab_context_manager s) (destroy_callback s) (destroyed s)
          (trace s).
Definition with_tab_context_manager
    (f : option (option TabObj) -> option (option TabObj)) (s : State) :=
  mkState (tabmanager s) (menus s) (next_menu s) (next_tab s)
          (_submenus s) (key_bindings s) (tab_changed_hook s)
          (f (_tab_context_manager s)) (destroy_callback s) (destroyed s)
          (trace s).
Definition with_destroyed (f : bool -> bool) (s : State) :=
  mkState (tabmanager s) (menus s) (next_menu s) (next_tab s)
          (_submenus s) (key_bindings s) (tab_changed_hook s)
          (_tab_context_manager s) (destroy_callback s) (f (destroyed s))
          (trace s).
Definition with_trace (f : list Event -> list Event) (s : State) :=
  mkState (tabmanager s) (menus s) (next_menu s) (next_tab s)
          (_submenus s) (key_bindings s) (tab_changed_hook s)
          (_tab_context_manager s) (destroy_callback s) (destroyed s)
          (f (trace s)).

Section Methods.
Variable w : World.

(** A call into another module: it is made, and it returns or raises. *)
Definition foreign (ev : Event) : M State unit :=
  fun s =>
    let s1 := with_trace (fun t => t ++ [ev]) s in
    match fails w ev with
    | Some e => Raised e s1
    | None => Returned tt s1
    end.

(** [with open(path, encoding=encoding) as f: ... f.read()] *)
Definition open_and_read (path encoding : string) : M State string :=
  fun s =>
    let s1 := with_trace (fun t => t ++ [EvOpen path encoding]) s in
    match open_read w path encoding with
    | Done content => Returned content s1
    | Fails e => Raised e s1
    end.

(** [tabs.FileTab(self.tabmanager, content, path=path)]: a new object. *)
Definition new_FileTab (content path : option string) : M State TabObj :=
  foreign (EvNewFileTab content path) ;;
  s <- get ;;
  modify (with_next_tab S) ;;
  ret (mkTab (next_tab s) FileTab content path (Some (next_tab s))).

(** [self.tabmanager.add_tab(tab, ...)] *)
Definition add_tab (tab : TabObj) (make_current : option bool)
  : M State unit :=
  foreign (EvAddTab tab make_current) ;;
  modify (with_tabmanager (tm_add_tab w tab make_current)).

(** [tab.NAME()] *)
Definition tab_method (tab : TabObj) (name : string) : M State unit :=
  foreign (EvTabMethod tab name) ;;
  modify (with_tabmanager (tm_tab_method w name tab)).

(** *** Menus of tkinter *)

(** [tk.Menu(tearoff=False)]: a new, empty menu. *)
Definition new_menu : M State nat :=
  fun s => Returned (next_menu s)
             (with_next_menu S (with_menus (insert (next_menu s) []) s)).

Definition entries (menu : nat) (s : State) : list Entry :=
  default [] (menus s !! menu).

(** [menu.index('end')]: [None] for a menu without entries. *)
Definition index_end (menu : nat) (s : State) : option nat :=
  match entries menu s with
  | [] => None
  | l => Some (length l - 1)
  end.

(** [menu.insert_cascade(index, label=label, menu=submenu)]: the new entry
    comes before the entry that is at [index]. *)
Definition insert_cascade (menu index : nat) (label : string) (submenu : nat)
  : M State unit :=
  modify (fun s =>
    with_menus (insert menu (take index (entries menu s)
                               ++ Cascade label submenu
                               :: drop index (entries menu s))) s).

(** [menu.add_cascade], [add_command], [add_separator], [add_radiobutton]:
    the new entry comes last. *)
Definition add_entry (menu : nat) (e : Entry) : M State unit :=
  modify (fun s => with_menus (insert menu (entries menu s ++ [e])) s).

Definition set_state (state : EntryState) (e : Entry) : Entry :=
  match e with
  | Command label command accelerator _ =>
      Command label command accelerator state
  | _ => e
  end.

(** [menu.entryconfig(menuindex, state=state)] *)
Definition entryconfig_state (menu menuindex : nat) (state : EntryState)
  : M State unit :=
  modify (fun s =>
    with_menus (insert menu (alter (set_state state) menuindex
                                   (entries menu s))) s).

(** *** Editor.get_menu *)

Fixpoint get_menu_from (labels : list string) (current_menu : nat)
  : M State nat :=
  match labels with
  | [] => ret current_menu
  | label :: rest =>
      s <- get ;;
      match _submenus s !! (current_menu, label) with
      | Some submenu => get_menu_from rest submenu
      | None =>
          submenu <- new_menu ;;
          (if bool_decide (current_menu = menubar) then
             s <- get ;;
             let index := default 0 (index_end current_menu s) in
             insert_cascade current_menu index label submenu
           else
             add_entry current_menu (Cascade label submenu)) ;;
          modify (with_submenus (insert (current_menu, label) submenu)) ;;
          get_menu_from rest submenu
      end
  end.

Definition get_menu (label_path : string) : M State nat :=
  get_menu_from (split "/" label_path) menubar.

(** *** Editor.add_action *)

(** The inner function [tab_changed] of [add_action]. *)
Definition tab_changed (menu menuindex : nat) (tabtypes : list PyType)
    (new_tab : option TabObj) : M State unit :=
  if isinstance_tab new_tab tabtypes
  then entryconfig_state menu menuindex Normal
  else entryconfig_state menu menuindex Disabled.

(** [type(None) if cls is None else cls] *)
Definition to_type (cls : option TabClass) : PyType :=
  match cls with
  | None => NoneType
  | Some c => TabType c
  end.

(** The default of the parameter [tabtypes]. *)
Definition default_tabtypes : list (option TabClass) := [None; Some Tab].

Definition add_action (callback : Callback)
    (menupath accelerator binding : option string)
    (tabtypes : list (option TabClass)) : M State unit :=
  let tabtypes := to_type <$> tabtypes in
  match menupath with
  | Some menupath =>
      match rsplit1 "/" menupath with
      | None => raise (mkExc ValueError "not enough values to unpack")
      | Some (menupath, menulabel) =>
          menu <- get_menu menupath ;;
          add_entry menu (Command menulabel callback accelerator Normal) ;;
          s <- get ;;
          match index_end menu s with
          | None => raise (mkExc TclError "bad menu entry index")
          | Some menuindex =>
              tab_changed menu menuindex tabtypes
                          (current_tab (tabmanager s)) ;;
              modify (with_tab_changed_hook
                        (fun h => h ++ [HookEntryState menu menuindex tabtypes]))
          end
      end
  | None => ret tt
  end ;;
  match binding with
  | Some binding =>
      (* self.bind(binding, bind_callback): replaces what was bound.
         The bindings are taken to be key sequences that Tk accepts; for
         one that it cannot parse, bind raises TclError here. *)
      modify (with_key_bindings (insert binding (mkBind callback tabtypes)))
  | None => ret tt
  end.

(** *** Editor._tab_changed *)

Definition _tab_changed (new_tab : option TabObj) : M State unit :=
  s <- get ;;
  match _tab_context_manager s with
  | Some previous => foreign (EvContextExit previous)
  | None => ret tt
  end ;;
  foreign (EvHookRun new_tab) ;;
  modify (with_tab_context_manager (fun _ => Some new_tab)) ;;
  foreign (EvContextEnter new_tab).

(** *** Editor.new_file *)

Definition new_file : M State unit :=
  tab <- new_FileTab None None ;;
  foreign (EvCopyBindings (tab_textwidget tab)) ;;
  add_tab tab None.

(** *** Editor.open_files *)

(** The body of the [try] statement. *)
Definition open_one (path : string) : M State TabObj :=
  foreign (EvConfigGet "Files" "encoding") ;;
  let encoding := config_files_encoding w in
  content <- open_and_read path encoding ;;
  new_FileTab (Some content) (Some path).

(** The [except (OSError, UnicodeError) as e] clause. *)
Definition opening_failed (path : string) (e : Exc) : M State unit :=
  foreign (EvLogException ("opening '" +:+ path +:+ "' failed")) ;;
  foreign (EvErrorDialog (type_name (exc_type e)) "Opening failed!"
                         (format_exc w e)).

(** One round of the [for] loop; [None] from the handler is its
    [continue]. *)
Definition open_path (path : string) : M State unit :=
  opened <- try_except (tab <- open_one path ;; ret (Some tab))
                       [OSError; UnicodeError]
                       (fun e => opening_failed path e ;; ret None) ;;
  match opened with
  | None => ret tt
  | Some tab =>
      foreign (EvCopyBindings (tab_textwidget tab)) ;;
      add_tab tab (Some true)
  end.

(** The value of [defaultdir] when the dialog opens. *)
Definition default_directory (s : State) : option string :=
  if isinstance_tab (current_tab (tabmanager s)) [TabType FileTab] then
    match current_tab (tabmanager s) with
    | Some tab =>
        match tab_path tab with
        | Some path => Some (dirname w path)
        | None => None
        end
    | None => None
    end
  else None.

Definition open_files : M State unit :=
  s <- get ;;
  let defaultdir := default_directory s in
  foreign (EvOpenFilesDialog defaultdir) ;;
  for_each (chosen_files w defaultdir) open_path.

(** *** Editor.do_quit *)

(** The [for] loop of [do_quit]: [false] is its [return]. *)
Fixpoint all_can_be_closed (ts : list TabObj) : M State bool :=
  match ts with
  | [] => ret true
  | tab :: rest =>
      foreign (EvTabMethod tab "can_be_closed") ;;
      if can_be_closed w tab then all_can_be_closed rest else ret false
  end.

(** [self.destroy()]; it destroys the tab manager with it. *)
Definition destroy : M State unit :=
  foreign EvDestroy ;;
  modify (with_destroyed (fun _ => true)) ;;
  modify (with_tabmanager (tm_destroy w)).

Definition do_quit : M State unit :=
  s <- get ;;
  closable <- all_can_be_closed (tabs (tabmanager s)) ;;
  if closable then
    destroy ;;
    match destroy_callback s with
    | Some callback => foreign (EvCall callback)
    | None => ret tt
    end
  else ret tt.

(** *** Editor._close_tab_or_quit *)

Definition _close_tab_or_quit : M State unit :=
  s <- get ;;
  match current_tab (tabmanager s) with
  | None => do_quit
  | Some tab =>
      foreign (EvTabMethod tab "can_be_closed") ;;
      if can_be_closed w tab then tab_method tab "close" else ret tt
  end.

(** *** Calling a callable *)

(** [self.tabmanager.current_tab.textwidget] *)
Definition current_textwidget : M State nat :=
  s <- get ;;
  match current_tab (tabmanager s) with
  | None => raise (mkExc AttributeError "textwidget")
  | Some tab =>
      match tab_textwidget tab with
      | None => raise (mkExc AttributeError "textwidget")
      | Some textwidget => ret textwidget
      end
  end.

(** The function that [textmethod(attribute)] returns. *)
Definition textmethod (attribute : string) : M State unit :=
  textwidget <- current_textwidget ;;
  foreign (EvTextMethod textwidget attribute []).

Definition call (callback : Callback) : M State unit :=
  match callback with
  | CbNewFile => new_file
  | CbOpenFiles => open_files
  | CbTabMethod name =>
      s <- get ;;
      match current_tab (tabmanager s) with
      | None => raise (mkExc AttributeError name)
      | Some tab => tab_method tab name
      end
  | CbCloseTabOrQuit => _close_tab_or_quit
  | CbTextMethod attribute => textmethod attribute
  | CbOnWheel direction =>
      textwidget <- current_textwidget ;;
      foreign (EvTextMethod textwidget "on_wheel" [direction])
  | CbSettingDialogShow => foreign EvSettingDialogShow
  | CbWebbrowserOpen url => foreign (EvWebbrowserOpen url)
  | CbConfigSet section key value => foreign (EvConfigSet section key value)
  | CbForeign name => foreign (EvCall name)
  end.

(** The inner function [bind_callback] of [add_action]: what tkinter runs
    for the key.  It returns ['break'] or [None]. *)
Definition bind_callback (b : BindCallback) : M State (option string) :=
  s <- get ;;
  if isinstance_tab (current_tab (tabmanager s)) (bound_tabtypes b) then
    call (bound_callback b) ;;
    ret (Some "break")
  else ret None.

(** The key sequence [binding] arrives at the editor. *)
Definition trigger (binding : string) : M State (option string) :=
  s <- get ;;
  match key_bindings s !! binding with
  | Some b => bind_callback b
  | None => ret None
  end.

(** The user chooses entry [index] of [menu]: tkinter runs the command of
    an entry that is not disabled. *)
Definition invoke (menu index : nat) : M State unit :=
  s <- get ;;
  match entries menu s !! index with
  | Some (Command _ command _ Normal) => call command
  | Some (Radiobutton _ _ command _ _) => call command
  | _ => ret tt
  end.

(** The tab manager runs [tab_changed_hook] with the new current tab. *)
Definition run_hook (h : HookCallback) (new_tab : option TabObj)
  : M State unit :=
  match h with
  | HookEntryState menu menuindex tabtypes =>
      tab_changed menu menuindex tabtypes new_tab
  | HookTabChanged => _tab_changed new_tab
  end.

Definition run_tab_changed_hook (new_tab : option TabObj) : M State unit :=
  s <- get ;;
  for_each (tab_changed_hook s) (fun h => run_hook h new_tab).

(** *** Editor._setup_menus *)

(** [sorted(names)] *)
Fixpoint insort (x : string) (l : list string) : list string :=
  match l with
  | [] => [x]
  | y :: rest => if String.leb x y then x :: l else y :: insort x rest
  end.

Definition sorted (names : list string) : list string :=
  foldr insort [] names.

(** The foreground colour of a theme's menu entry. *)
Definition theme_foreground (style : Style) : string :=
  match string_color style, text_color style with
  | Some color, _ => "#" +:+ color
  | None, Some color => "#" +:+ color
  | None, None =>
      if bool_decide (default_style style = EmptyString)
      then invert_color w (background_color style)
      else default_style style
  end.

(** One round of the loop over the pygments styles. *)
Definition add_theme (name : string) : M State unit :=
  let label := title (replace_char "_" " " (replace_char "-" " " name)) in
  let command := CbConfigSet "Editing" "pygments_style" name in
  foreign (EvGetStyle name) ;;
  let style := get_style_by_name w name in
  let bg := background_color style in
  let fg := theme_foreground style in
  menu <- get_menu "Color Themes" ;;
  add_entry menu (Radiobutton label name command fg bg).

(** [link(menupath, url)] *)
Definition link (menupath url : string) : M State unit :=
  add_action (CbWebbrowserOpen url) (Some menupath) None None
             default_tabtypes.

(** [self.get_menu(label_path).add_separator()] *)
Definition add_separator (label_path : string) : M State unit :=
  menu <- get_menu label_path ;;
  add_entry menu Separator.

(** The part of [_setup_menus] that adds the actions of the File, Edit,
    View and Help menus. *)
Definition setup_actions : M State unit :=
  let add callback menupath accelerator binding tabtypes :=
    add_action callback (Some menupath) (Some accelerator) binding tabtypes in
  add CbNewFile "File/New File" "Ctrl+N" (Some "<Control-n>")
      default_tabtypes ;;
  add CbOpenFiles "File/Open" "Ctrl+O" (Some "<Control-o>")
      default_tabtypes ;;
  add (CbTabMethod "save") "File/Save" "Ctrl+S" (Some "<Control-s>")
      [Some FileTab] ;;
  add (CbTabMethod "save_as") "File/Save As..." "Ctrl+Shift+S"
      (Some "<Control-S>") [Some FileTab] ;;
  add_separator "File" ;;
  add CbCloseTabOrQuit "File/Close" "Ctrl+W" (Some "<Control-w>")
      default_tabtypes ;;
  add (CbTextMethod "undo") "Edit/Undo" "Ctrl+Z" (Some "<Control-z>")
      [Some FileTab] ;;
  add (CbTextMethod "redo") "Edit/Redo" "Ctrl+Y" (Some "<Control-y>")
      [Some FileTab] ;;
  add (CbTextMethod "cut") "Edit/Cut" "Ctrl+X" (Some "<Control-x>")
      [Some FileTab] ;;
  add (CbTextMethod "copy") "Edit/Copy" "Ctrl+C" (Some "<Control-c>")
      [Some FileTab] ;;
  add (CbTextMethod "paste") "Edit/Paste" "Ctrl+V" (Some "<Control-v>")
      [Some FileTab] ;;
  add (CbTextMethod "select_all") "Edit/Select All" "Ctrl+A"
      (Some "<Control-a>") [Some FileTab] ;;
  add_separator "Edit" ;;
  add (CbTabMethod "find") "Edit/Find and Replace" "Ctrl+F"
      (Some "<Control-f>") [Some FileTab] ;;
  add_separator "Edit" ;;
  add_action CbSettingDialogShow (Some "Edit/Porcupine Settings...")
             None None default_tabtypes ;;
  get_menu "Color Themes" ;;
  add (CbOnWheel "up") "View/Bigger Font" "Ctrl+Plus" None [Some FileTab] ;;
  add (CbOnWheel "down") "View/Smaller Font" "Ctrl+Minus" None
      [Some FileTab] ;;
  add (CbOnWheel "reset") "View/Reset Font Size" "Ctrl+Zero" None
      [Some FileTab] ;;
  add_separator "View" ;;
  link "Help/Free help chat"
       "http://webchat.freenode.net/?channels=%23%23learnpython" ;;
  link "Help/My Python tutorial"
       "https://github.com/Akuli/python-tutorial/blob/master/README.md" ;;
  link "Help/Official Python documentation" "https://docs.python.org/" ;;
  add_separator "Help" ;;
  link "Help/Porcupine Wiki" "https://github.com/Akuli/porcupine/wiki" ;;
  link "Help/Report a problem or request a feature"
       "https://github.com/Akuli/porcupine/issues/new" ;;
  link "Help/Read Porcupine's code"
       "https://github.com/Akuli/porcupine/tree/master/porcupine".

(** The rest of [_setup_menus]: the Color Themes menu. *)
Definition setup_themes : M State unit :=
  for_each (sorted (all_styles w)) add_theme ;;
  foreign (EvConfigConnect "Editing" "pygments_style").

Definition _setup_menus : M State unit :=
  setup_actions ;;
  setup_themes.

(** *** Editor.__init__ *)

(** The attributes as [__init__] first sets them: a new tab manager, which
    has no tabs and no current tab ([__init__] goes on with
    [_tab_changed(None)]), the menu bar without entries, no submenus.  The
    widgets that [__init__] packs and the welcome message have no part in
    what the methods do. *)
Definition fresh (destroy_callback : option string) : State :=
  mkState (mkTabManager [] None) {[menubar := []]} 1 0 ∅ ∅ [] None
          destroy_callback false [].

Definition __init__ : M State unit :=
  get_menu "Help" ;;
  _setup_menus ;;
  modify (with_tab_changed_hook (fun h => h ++ [HookTabChanged])) ;;
  _tab_changed None ;;
  for_each (tm_bindings w) (fun bc =>
    add_action (CbForeign bc.2) None None (Some bc.1) default_tabtypes).

(** [Editor(destroy_callback=...)] *)
Definition Editor (destroy_callback : option string) : Res State unit :=
  __init__ (fresh destroy_callback).

End Methods.

(** ** The vocabulary of the properties *)

(** The [except KeyError] branch of [get_menu], for a label that is not
    in [_submenus], as a function on states: the new menu and the state
    with it. *)
Definition make_submenu (current_menu : nat) (label : string) (s : State)
  : nat * State :=
  let submenu := next_menu s in
  let s1 := with_next_menu S (with_menus (insert submenu []) s) in
  let s2 :=
    if bool_decide (current_menu = menubar) then
      with_menus
        (insert current_menu
           (take (default 0 (index_end current_menu s1))
                 (entries current_menu s1)
              ++ Cascade label submenu
              :: drop (default 0 (index_end current_menu s1))
                      (entries current_menu s1))) s1
    else
      with_menus
        (insert current_menu
           (entries current_menu s1 ++ [Cascade label submenu])) s1 in
  (submenu, with_submenus (insert (current_menu, label) submenu) s2).

(** The call [tab.can_be_closed()]. *)
Definition ask (tab : TabObj) : Event := EvTabMethod tab "can_be_closed".

(** The current tab is of one of the listed tab types; [None] in the list
    stands for no tab at all. *)
Definition compatible (current : option TabObj)
    (tabtypes : list (option TabClass)) : Prop :=
  match current with
  | None => None ∈ tabtypes
  | Some tab =>
      exists cls, Some cls ∈ tabtypes
                  /\ tab_issubclass (tab_class tab) cls = true
  end.

(** The call is one of [utils.errordialog]. *)
Definition is_error_dialog (ev : Event) : bool :=
  match ev with
  | EvErrorDialog _ _ _ => true
  | _ => false
  end.

(** The commands of the entries of a menu that have the label [label]. *)
Definition commands_labelled (label : string) (es : list Entry)
  : list Callback :=
  omap (fun entry =>
          match entry with
          | Command l command _ _ =>
              if bool_decide (l = label) then Some command else None
          | _ => None
          end) es.

(** The text operations of the Edit menu: the label of the entry and the
    method of the text widget. *)
Definition text_actions : list (string * string) :=
  [("Undo", "undo"); ("Redo", "redo"); ("Cut", "cut"); ("Copy", "copy");
   ("Paste", "paste")].

(** The Edit menu and the Color Themes menu of a new editor: the fourth
    and the fifth menu that [__init__] makes (after the menu bar, Help
    and File). *)
Definition edit_menu : nat := 3.

Definition color_themes_menu : nat := 4.

(** The entries of the Edit menu of a new editor; without a tab the text
    operations are disabled. *)
Definition edit_menu_entries : list Entry :=
  [Command "Undo" (CbTextMethod "undo") (Some "Ctrl+Z") Disabled;
   Command "Redo" (CbTextMethod "redo") (Some "Ctrl+Y") Disabled;
   Command "Cut" (CbTextMethod "cut") (Some "Ctrl+X") Disabled;
   Command "Copy" (CbTextMethod "copy") (Some "Ctrl+C") Disabled;
   Command "Paste" (CbTextMethod "paste") (Some "Ctrl+V") Disabled;
   Command "Select All" (CbTextMethod "select_all") (Some "Ctrl+A") Disabled;
   Separator;
   Command "Find and Replace" (CbTabMethod "find") (Some "Ctrl+F") Disabled;
   Separator;
   Command "Porcupine Settings..." CbSettingDialogShow None Normal].

(** What the rest of the constructor keeps of the menus. *)
Definition keeps_edit_menu (s : State) : Prop :=
  _submenus s !! (menubar, "Edit") = Some edit_menu
  /\ _submenus s !! (menubar, "Color Themes") = Some color_themes_menu
  /\ menus s !! edit_menu = Some edit_menu_entries.

(** [m] keeps the property [P] of the state, whether it returns or
    raises. *)
Definition preserves (P : State -> Prop) {A} (m : M State A) : Prop :=
  forall s, P s -> P (state_of (m s)).

(** Up to the Color Themes menu the constructor does not depend on the
    world: the state it has reached then. *)
Definition with_actions (destroy_callback : option string) : State :=
  state_of ((get_menu "Help" ;; setup_actions) (fresh destroy_callback)).

Section Calls.
Variable w : World.

(** The exception with which the call [ev] ends, if it raises. *)
Definition raises (ev : Event) : option Exc :=
  match ev with
  | EvOpen path encoding =>
      match open_read w path encoding with
      | Fails e => Some e
      | Done _ => None
      end
  | _ => fails w ev
  end.

(** The calls of the [try] block of [open_files]. *)
Definition in_try (ev : Event) : bool :=
  match ev with
  | EvConfigGet _ _ | EvOpen _ _ | EvNewFileTab _ _ => true
  | _ => false
  end.

(** The exception [e] of the call [ev] is one that the [except] clause
    of [open_files] takes. *)
Definition caught (ev : Event) (e : Exc) : bool :=
  in_try ev && isinstance e [OSError; UnicodeError].

(** No call of [evs] raised. *)
Definition quiet (evs : list Event) : Prop :=
  forall ev, ev ∈ evs -> raises ev = None.

(** Every exception that a call of [evs] raised was caught. *)
Definition all_caught (evs : list Event) : Prop :=
  forall ev e, ev ∈ evs -> raises ev = Some e -> caught ev e = true.

(** A piece of the [try] block: it makes calls until one raises. *)
Definition in_try_block {A} (m : M State A) : Prop :=
  forall s,
    match m s with
    | Returned _ s' => exists evs, trace s' = trace s ++ evs /\ quiet evs
    | Raised e s' =>
        exists evs ev, trace s' = trace s ++ evs ++ [ev] /\ quiet evs
                       /\ raises ev = Some e /\ in_try ev = true
    end.

(** A piece of [open_files]: an exception that leaves it is the one of
    the last call made and was not caught; the exceptions of all calls
    before were. *)
Definition propagating {A} (m : M State A) : Prop :=
  forall s,
    match m s with
    | Returned _ s' => exists evs, trace s' = trace s ++ evs /\ all_caught evs
    | Raised e s' =>
        exists evs ev, trace s' = trace s ++ evs ++ [ev] /\ all_caught evs
                       /\ raises ev = Some e /\ caught ev e = false
    end.

(** The [try] block of [open_files] for [path], by what its three calls
    do: the calls it makes until one raises, with the exception; [None]
    when none of them raises. *)
Definition try_block_raises (path : string) : option (list Event * Exc) :=
  let lookup := EvConfigGet "Files" "encoding" in
  let encoding := config_files_encoding w in
  match fails w lookup with
  | Some e => Some ([lookup], e)
  | None =>
      match open_read w path encoding with
      | Fails e => Some ([lookup; EvOpen path encoding], e)
      | Done content =>
          let new_tab := EvNewFileTab (Some content) (Some path) in
          match fails w new_tab with
          | Some e => Some ([lookup; EvOpen path encoding; new_tab], e)
          | None => None
          end
      end
  end.


End Calls.

(** ** A world to run the editor in

    Three files can be chosen: one that opens, one that does not exist and
    one that is not text in the configured encoding. *)
Module Sample.

Definition tab_manager_add (tab : TabObj) (make_current : option bool)
    (tm : TabManager) : TabManager :=
  mkTabManager (tabs tm ++ [tab])
    (match make_current, current_tab tm with
     | Some false, Some t => Some t
     | _, _ => Some tab
     end).

Definition tab_manager_method (name : string) (tab : TabObj)
    (tm : TabManager) : TabManager :=
  if bool_decide (name = "close") then
    mkTabManager (filter (fun t => t ≠ tab) (tabs tm))
      (if bool_decide (current_tab tm = Some tab)
       then head (filter (fun t => t ≠ tab) (tabs tm))
       else current_tab tm)
  else tm.

Definition world : World := {|
  fails := fun _ => None;
  config_files_encoding := "utf-8";
  open_read := fun path _ =>
    if bool_decide (path = "hello.py") then Done "print('hello')"
    else if bool_decide (path = "binary.dat")
    then Fails (mkExc UnicodeDecodeError "invalid start byte")
    else Fails (mkExc FileNotFoundError path);
  chosen_files := fun _ => ["missing.txt"; "hello.py"; "binary.dat"];
  dirname := fun _ => EmptyString;
  format_exc := fun e => "Traceback: " +:+ exc_msg e;
  can_be_closed := fun t => bool_decide (tab_path t ≠ Some "unsaved.txt");
  tm_bindings := [("<Control-Next>", "select_right")];
  tm_add_tab := tab_manager_add;
  tm_tab_method := tab_manager_method;
  tm_destroy := fun _ => mkTabManager [] None;
  all_styles := ["monokai"; "default"];
  get_style_by_name := fun name =>
    if bool_decide (name = "monokai")
    then mkStyle "#272822" (Some "e6db74") (Some "f8f8f2") EmptyString
    else mkStyle "#f8f8f8" None None EmptyString;
  invert_color := fun _ => "#070707";
|}.

(** The same world with an encoding that Python does not know: [open]
    then raises LookupError for a file that is there (for the missing
    file it raises FileNotFoundError as before: it looks for the file
    first). *)
Definition world_bad_encoding : World := {|
  fails := fails world;
  config_files_encoding := "utf-9";
  open_read := fun path _ =>
    if bool_decide (path = "hello.py") || bool_decide (path = "binary.dat")
    then Fails (mkExc LookupError "unknown encoding: utf-9")
    else Fails (mkExc FileNotFoundError path);
  chosen_files := chosen_files world;
  dirname := dirname world;
  format_exc := format_exc world;
  can_be_closed := can_be_closed world;
  tm_bindings := tm_bindings world;
  tm_add_tab := tm_add_tab world;
  tm_tab_method := tm_tab_method world;
  tm_destroy := tm_destroy world;
  all_styles := all_styles world;
  get_style_by_name := get_style_by_name world;
  invert_color := invert_color world;
|}.

Definition a_file_tab : TabObj :=
  mkTab 7 FileTab (Some "text") (Some "notes.txt") (Some 7).

Definition an_unsaved_tab : TabObj :=
  mkTab 8 FileTab (Some "draft") (Some "unsaved.txt") (Some 8).

Definition a_plugin_tab : TabObj :=
  mkTab 9 (Subclass "HelpTab" Tab []) None None None.

(** A tab of a class that derives from [FileTab]. *)
Definition a_subclass_tab : TabObj :=
  mkTab 10 (Subclass "MarkdownTab" FileTab []) (Some "# notes")
        (Some "notes.md") (Some 10).

End Sample.

(** The Undo action as [_setup_menus] registers it, on a new editor; then
    a file tab becomes the current tab. *)
Definition after_undo_action : State :=
  state_of (add_action (CbTextMethod "undo") (Some "Edit/Undo")
                       (Some "Ctrl+Z") (Some "<Control-z>") [Some FileTab]
                       (fresh None)).

Definition with_file_tab (s : State) : State :=
  with_tabmanager
    (fun _ => mkTabManager [Sample.a_plugin_tab; Sample.a_file_tab]
                           (Some Sample.a_file_tab)) s.

Definition with_plugin_tab (s : State) : State :=
  with_tabmanager
    (fun _ => mkTabManager [Sample.a_plugin_tab; Sample.a_file_tab]
                           (Some Sample.a_plugin_tab)) s.

Definition with_subclass_tab (s : State) : State :=
  with_tabmanager
    (fun _ => mkTabManager [Sample.a_plugin_tab; Sample.a_subclass_tab]
                           (Some Sample.a_subclass_tab)) s.

(** ** More vocabulary *)

(** The table [_submenus] and the menus agree: the menus that exist have
    numbers below the next one, the table lists exactly the cascade
    entries of the menus, and no submenu is the menu bar. *)
Definition menus_agree (s : State) : Prop :=
  menubar < next_menu s
  /\ (forall menu, is_Some (menus s !! menu) -> menu < next_menu s)
  /\ (forall parent label submenu,
        _submenus s !! (parent, label) = Some submenu
        <-> Cascade label submenu ∈ entries parent s)
  /\ (forall parent label submenu,
        _submenus s !! (parent, label) = Some submenu ->
        parent < next_menu s /\ menubar < submenu < next_menu s).

(** The character occurs in the string. *)
Fixpoint occurs (c : ascii) (s : string) : bool :=
  match s with
  | EmptyString => false
  | String c' rest => bool_decide (c' = c) || occurs c rest
  end.

(** The entries of the parent menu after [get_menu] has made a submenu
    of it: in the menu bar the new cascade comes before the last entry,
    in any other menu it comes last. *)
Definition with_cascade (current_menu : nat) (label : string) (submenu : nat)
    (es : list Entry) : list Entry :=
  if bool_decide (current_menu = menubar)
  then take (length es - 1) es
         ++ Cascade label submenu :: drop (length es - 1) es
  else es ++ [Cascade label submenu].

(** From [s] to [s'] the menus have only grown: every menu keeps its
    entries, in their order; the last entry of the menu bar stays the
    last; the table keeps what it had; and nothing but the menus and the
    table has changed. *)
Definition menus_grown (s s' : State) : Prop :=
  (forall menu, entries menu s `sublist_of` entries menu s')
  /\ (forall e, last (entries menubar s) = Some e ->
                last (entries menubar s') = Some e)
  /\ _submenus s ⊆ _submenus s'
  /\ tabmanager s' = tabmanager s
  /\ key_bindings s' = key_bindings s
  /\ tab_changed_hook s' = tab_changed_hook s
  /\ destroyed s' = destroyed s
  /\ trace s' = trace s.

(** The state after the menu part of [add_action], from the state [s] in
    which [get_menu] has returned [menu]: the command is the last entry
    of the menu, enabled if the current tab is of one of the tab types,
    and [tab_changed] is connected to the hook. *)
Definition item_added (menu : nat) (label : string) (callback : Callback)
    (accelerator : option string) (tabtypes : list PyType) (s : State)
  : State :=
  with_tab_changed_hook
    (fun h => h ++ [HookEntryState menu (length (entries menu s)) tabtypes])
    (with_menus
       (insert menu
          (entries menu s
           ++ [Command label callback accelerator
                 (if isinstance_tab (current_tab (tabmanager s)) tabtypes
                  then Normal else Disabled)]))
       s).

(** The state after the binding part of [add_action]. *)
Definition binding_added (binding : option string) (callback : Callback)
    (tabtypes : list PyType) (s : State) : State :=
  match binding with
  | Some binding =>
      with_key_bindings (insert binding (mkBind callback tabtypes)) s
  | None => s
  end.


(** The entry is not a cascade. *)
Definition is_item (e : Entry) : bool :=
  match e with
  | Cascade _ _ => false
  | _ => true
  end.

(** The key bindings that [_setup_menus] makes. *)
Definition setup_bindings : gmap string BindCallback :=
  list_to_map
    [("<Control-n>", mkBind CbNewFile [NoneType; TabType Tab]);
     ("<Control-o>", mkBind CbOpenFiles [NoneType; TabType Tab]);
     ("<Control-s>", mkBind (CbTabMethod "save") [TabType FileTab]);
     ("<Control-S>", mkBind (CbTabMethod "save_as") [TabType FileTab]);
     ("<Control-w>", mkBind CbCloseTabOrQuit [NoneType; TabType Tab]);
     ("<Control-z>", mkBind (CbTextMethod "undo") [TabType FileTab]);
     ("<Control-y>", mkBind (CbTextMethod "redo") [TabType FileTab]);
     ("<Control-x>", mkBind (CbTextMethod "cut") [TabType FileTab]);
     ("<Control-c>", mkBind (CbTextMethod "copy") [TabType FileTab]);
     ("<Control-v>", mkBind (CbTextMethod "paste") [TabType FileTab]);
     ("<Control-a>", mkBind (CbTextMethod "select_all") [TabType FileTab]);
     ("<Control-f>", mkBind (CbTabMethod "find") [TabType FileTab])].

(** The binding that [__init__] makes for a binding of the tab manager. *)
Definition tab_manager_binding (bc : string * string) : BindCallback :=
  mkBind (CbForeign bc.2) [NoneType; TabType Tab].

(** The last pair of [bindings] for the key. *)
Definition last_binding (key : string) (bindings : list (string * string))
  : option (string * string) :=
  last (filter (fun bc => bc.1 = key) bindings).

Section Rounds.
Variable w : World.

(** A round of the loop of [open_files] gets as far as a tab: the
    encoding is found, the file is read and the tab is made. *)
Definition opens (path : string) : bool :=
  match fails w (EvConfigGet "Files" "encoding"),
        open_read w path (config_files_encoding w) with
  | None, Done content =>
      bool_decide (fails w (EvNewFileTab (Some content) (Some path)) = None)
  | _, _ => false
  end.

End Rounds.

(** The paths of the tabs given to [add_tab], in the order of the
    calls. *)
Definition added_paths (evs : list Event) : list (option string) :=
  omap (fun ev => match ev with
                  | EvAddTab tab _ => Some (tab_path tab)
                  | _ => None
                  end) evs.

(** The number of error dialogs among the calls. *)
Definition dialogs (evs : list Event) : nat :=
  length (filter (fun ev => is_error_dialog ev = true) evs).


(** The entry that a function connected to the hook of the tab manager
    configures: the [tab_changed] of [add_action] has its menu and its
    index, [_tab_changed] has none. *)
Definition hook_target (h : HookCallback) : option (nat * nat) :=
  match h with
  | HookEntryState menu menuindex _ => Some (menu, menuindex)
  | HookTabChanged => None
  end.

Definition targets (s : State) : list (nat * nat) :=
  omap hook_target (tab_changed_hook s).

(** The state that [tab_changed] gives its entry. *)
Definition state_for (new_tab : option TabObj) (tabtypes : list PyType)
  : EntryState :=
  if isinstance_tab new_tab tabtypes then Normal else Disabled.

Definition is_command (e : option Entry) : bool :=
  match e with
  | Some (Command _ _ _ _) => true
  | _ => false
  end.

(** Entry [index] of [menu] is a command. *)
Definition command_at (s : State) (menu index : nat) : bool :=
  is_command (entries menu s !! index).

(** Every command of the menus has its [tab_changed] connected, once, and
    the menu bar has no command. *)
Definition commands_connected (s : State) : Prop :=
  NoDup (targets s)
  /\ (forall menu index,
        (menu, index) ∈ targets s <-> command_at s menu index = true)
  /\ (forall index, command_at s menubar index = false).

(** The invariant of the menus of an editor. *)
Definition menus_connected (s : State) : Prop :=
  menus_agree s /\ commands_connected s.


(** The commands of [_setup_menus] that use the current tab: those that
    it adds with [[tabs.FileTab]] as the tab types. *)
Definition needs_file_tab (command : Callback) : bool :=
  match command with
  | CbTabMethod _ | CbTextMethod _ | CbOnWheel _ => true
  | _ => false
  end.

Definition tabtypes_of (command : Callback) : list PyType :=
  if needs_file_tab command then [TabType FileTab]
  else to_type <$> default_tabtypes.

(** The [tab_changed] function configures a command, with the tab types
    of [tabtypes_of]. *)
Definition hook_matches (s : State) (h : HookCallback) : bool :=
  match h with
  | HookEntryState menu menuindex tabtypes =>
      match entries menu s !! menuindex with
      | Some (Command _ command _ _) =>
          bool_decide (tabtypes = tabtypes_of command)
      | _ => false
      end
  | HookTabChanged => true
  end.

(** What the constructor keeps after the actions of [_setup_menus]: the
    Color Themes menu in the table, the commands of the menus and the
    [tab_changed] functions of the hook. *)
Definition keeps_actions (s0 s : State) : Prop :=
  _submenus s !! (menubar, "Color Themes") = Some color_themes_menu
  /\ (forall menu index e,
        is_command (Some e) = true ->
        entries menu s !! index = Some e <-> entries menu s0 !! index = Some e)
  /\ (forall menu index tabtypes,
        HookEntryState menu index tabtypes ∈ tab_changed_hook s
        <-> HookEntryState menu index tabtypes ∈ tab_changed_hook s0).


(** The contexts of the editor's own [tab_changed_hook] in a list of
    calls are entered and exited in turn: [open] is the context that has
    been entered and not exited, if any.  A context is entered and the
    hook is run only when none is open, and the one exited is the open
    one.  The result is the context open after the calls, and [None] if
    the calls are not in turn. *)
Fixpoint paired (open : option (option TabObj)) (evs : list Event)
  : option (option (option TabObj)) :=
  match evs with
  | [] => Some open
  | EvHookRun _ :: rest =>
      match open with
      | None => paired None rest
      | Some _ => None
      end
  | EvContextEnter new_tab :: rest =>
      match open with
      | None => paired (Some new_tab) rest
      | Some _ => None
      end
  | EvContextExit new_tab :: rest =>
      if decide (open = Some new_tab) then paired None rest else None
  | _ :: rest => paired open rest
  end.

(** The sample world, but the call [ev] raises [e]. *)
Definition world_failing (ev : Event) (e : Exc) : World := {|
  fails := fun ev' => if decide (ev' = ev) then Some e else None;
  config_files_encoding := config_files_encoding Sample.world;
  open_read := open_read Sample.world;
  chosen_files := chosen_files Sample.world;
  dirname := dirname Sample.world;
  format_exc := format_exc Sample.world;
  can_be_closed := can_be_closed Sample.world;
  tm_bindings := tm_bindings Sample.world;
  tm_add_tab := tm_add_tab Sample.world;
  tm_tab_method := tm_tab_method Sample.world;
  tm_destroy := tm_destroy Sample.world;
  all_styles := all_styles Sample.world;
  get_style_by_name := get_style_by_name Sample.world;
  invert_color := invert_color Sample.world;
|}.


(** The radio button of a pygments style in the Color Themes menu. *)
Definition theme_entry (w : World) (name : string) : Entry :=
  Radiobutton (title (replace_char "_" " " (replace_char "-" " " name)))
              name (CbConfigSet "Editing" "pygments_style" name)
              (theme_foreground w (get_style_by_name w name))
              (background_color (get_style_by_name w name)).


(** ** [_create_welcome_msg]: the text of the description

    Of the function only the text of the second label is modelled; the
    widgets are tkinter's. *)

(** [s.split()]: the words between runs of white space. *)
Fixpoint words (s : string) : list string :=
  match s with
  | EmptyString => []
  | String c rest =>
      if is_space c then words rest
      else match rest with
           | EmptyString => [String c EmptyString]
           | String c' _ =>
               if is_space c' then String c EmptyString :: words rest
               else match words rest with
                    | w :: ws => String c w :: ws
                    | [] => [String c EmptyString]
                    end
           end
  end.

(** [s.split('\n\n')]: the pieces between two line feeds in a row, found
    from the left. *)
Fixpoint paragraphs (s : string) : list string :=
  match s with
  | EmptyString => [EmptyString]
  | String c rest =>
      let go_on :=
        match paragraphs rest with
        | p :: ps => String c p :: ps
        | [] => [String c EmptyString]
        end in
      match rest with
      | String c' rest' =>
          if bool_decide (c = "010"%char) && bool_decide (c' = "010"%char)
          then EmptyString :: paragraphs rest'
          else go_on
      | EmptyString => go_on
      end
  end.

(** The list [description_lines] after the loop. *)
Definition description_lines (init_docstring : string) : list string :=
  (fun line => join " " (words line)) <$> paragraphs init_docstring.

(** The text of [desclabel]. *)
Definition desclabel_text (init_docstring : string) : string :=
  join (newline +:+ newline) (description_lines init_docstring).

(** No character of the string is white space. *)
Fixpoint spaceless (s : string) : bool :=
  match s with
  | EmptyString => true
  | String c rest => negb (is_space c) && spaceless rest
  end.


(** Every [add_tab] in the list of calls comes right after the
    [copy_bindings] for the text widget of its tab. *)
Definition bound_before_added (evs : list Event) : Prop :=
  forall i tab make_current,
    evs !! i = Some (EvAddTab tab make_current) ->
    exists j, i = S j
              /\ evs !! j = Some (EvCopyBindings (tab_textwidget tab)).

(** Whether [m] returns or raises, the calls it has made have the
    property [Q]. *)
Definition emits (Q : list Event -> Prop) {A} (m : M State A) : Prop :=
  forall s, exists evs,
    trace (state_of (m s)) = trace s ++ evs /\ Q evs.

End Editor.

(* ===================================================================== *)
(** * Properties of the installer script *)
(* ===================================================================== *)

Module InstallerFacts.
Import Py Installer.

(** Reading a file changes nothing. *)
Lemma read_file_state path d r d' :
  read_file path d = Returned r d' -> d' = d.
Proof.
  unfold read_file. repeat case_match; congruence.
Qed.

Lemma read_file_raised path d e d' :
  read_file path d = Raised e d' -> d' = d.
Proof.
  unfold read_file. repeat case_match; congruence.
Qed.

(** [find_metadata] changes nothing, whether it returns or raises. *)
Lemma find_metadata_state w d : state_of (find_metadata w d) = d.
Proof.
  unfold find_metadata, bind, assert, ret, raise.
  destruct (read_file _ d) as [content d1|e d1] eqn:Hread; simpl.
  - apply read_file_state in Hread as ->.
    repeat case_match; simpl; congruence.
  - by apply read_file_raised in Hread.
Qed.

(** [parser[section] = options] does not touch the directory. *)
Lemma set_section_state w section options parser d :
  state_of (set_section w section options parser d) = d.
Proof.
  unfold set_section, bind, ret.
  assert (Hloop : forall l,
    state_of (for_each l (fun kv : string * string =>
        if interpolation_ok w kv.2 then Py.ret tt
        else raise (mkExc ValueError kv.2)) d) = d).
  { induction l as [|kv l IH]; simpl; [done|].
    unfold bind, ret, raise. destruct (interpolation_ok w kv.2); simpl; [|done].
    apply IH. }
  specialize (Hloop options).
  destruct (for_each options _ d); simpl in *; congruence.
Qed.

(** Without a directory [temp_venv], the cleanup of
    [get_frozen_requirements_in_a_crazy_way] raises: the function never
    returns, and it leaves the files as they were. *)
Lemma frozen_requirements_raise w d :
  "temp_venv" ∉ dirs d ->
  exists e d' evs,
    get_frozen_requirements_in_a_crazy_way w d = Raised e d'
    /\ files d' = files d
    /\ spawned d' = spawned d ++ evs
    /\ evs `prefix_of`
         [Spawn (venv_argv w); Spawn pip_install_argv; Spawn pip_freeze_argv].
Proof.
  intros Hno.
  unfold get_frozen_requirements_in_a_crazy_way, bind, try_finally,
    check_output, check_call, rmtree, bind, ret, raise.
  destruct (venv_exit w =? 0)%Z; simpl.
  2: { eexists _, _, [_]. split_and!; try done. by eexists. }
  assert (Hno' : "temp_venv" ∉ ({["temp_env"]} ∪ dirs d : gset string)).
  { intros [Heq%elem_of_singleton|Hin]%elem_of_union;
      [discriminate Heq | done]. }
  destruct (pip_install_exit w =? 0)%Z; simpl.
  - destruct (pip_freeze_exit w =? 0)%Z; simpl.
    + destruct (pip_freeze_output w); simpl;
        rewrite bool_decide_eq_false_2 by done;
        (case_bool_decide;
         (eexists _, _, [_; _; _]; split_and!;
          [done | done | simpl; by rewrite <- !app_assoc | done])).
    + rewrite bool_decide_eq_false_2 by done.
      case_bool_decide;
        (eexists _, _, [_; _; _]; split_and!;
         [done | done | simpl; by rewrite <- !app_assoc | done]).
  - rewrite bool_decide_eq_false_2 by done.
    case_bool_decide;
      (eexists _, _, [_; _]; split_and!;
       [done | done | simpl; by rewrite <- !app_assoc | by eexists [_]]).
Qed.

(** Up to the call of [get_frozen_requirements_in_a_crazy_way],
    [create_pynsist_cfg] has changed nothing. *)
Lemma create_pynsist_cfg_raises w d :
  "temp_venv" ∉ dirs d ->
  exists e d' evs,
    create_pynsist_cfg w d = Raised e d'
    /\ files d' = files d
    /\ spawned d' = spawned d ++ evs
    /\ evs `prefix_of`
         [Spawn (venv_argv w); Spawn pip_install_argv; Spawn pip_freeze_argv].
Proof.
  intros Hno.
  assert (Hstop : forall e, exists (e0 : Exc) (d' : Dir) evs,
    @Raised Dir unit e d = Raised e0 d' /\ files d' = files d
    /\ spawned d' = spawned d ++ evs
    /\ evs `prefix_of`
         [Spawn (venv_argv w); Spawn pip_install_argv; Spawn pip_freeze_argv]).
  { intros e. exists e, d, []. split_and!; try done.
    - by rewrite app_nil_r.
    - apply prefix_nil. }
  unfold create_pynsist_cfg. unfold bind at 1.
  pose proof (find_metadata_state w d) as Hmeta.
  destruct (find_metadata w d) as [metadata d1|e d1]; simpl in Hmeta; subst d1;
    [|apply Hstop].
  unfold bind at 1.
  destruct (metadata !! "version") as [version|]; [|apply Hstop].
  unfold ret at 1. unfold bind at 1.
  match goal with |- context [set_section w ?a ?b ?c d] =>
    pose proof (set_section_state w a b c d) as Hset;
    destruct (set_section w a b c d) as [parser1 d1|e d1];
    simpl in Hset; subst d1; [|apply Hstop] end.
  unfold bind at 1.
  match goal with |- context [set_section w ?a ?b ?c d] =>
    pose proof (set_section_state w a b c d) as Hset;
    destruct (set_section w a b c d) as [parser2 d1|e d1];
    simpl in Hset; subst d1; [|apply Hstop] end.
  unfold bind at 1.
  destruct (frozen_requirements_raise w d Hno) as (e & d' & evs & -> & H).
  by exists e, d', evs.
Qed.

(** C3, on the code as it is: in a working directory without a directory
    named [temp_venv] (the script has made [temp_env], and removes
    [temp_venv]), the script ends with an exception before it writes
    [pynsist.cfg] and before it starts the packaging command, whatever
    the platform, the files and the processes do. *)
Theorem script_stops_before_pynsist_cfg (w : World) (d : Dir) :
  "temp_venv" ∉ dirs d ->
  exists e d' evs,
    script w d = Raised e d'
    /\ files d' = files d
    /\ spawned d' = spawned d ++ evs
    /\ Spawn (nsist_argv w) ∉ evs.
Proof.
  intros Hno.
  unfold script, bind, assert.
  case_bool_decide; unfold ret, raise.
  - unfold main, bind.
    destruct (create_pynsist_cfg_raises w d Hno)
      as (e & d' & evs & -> & Hfiles & Hspawned & Hprefix).
    exists e, d', evs. split_and!; try done.
    intros Hin. eapply elem_of_prefix in Hin; [|exact Hprefix].
    rewrite !elem_of_cons in Hin. unfold nsist_argv, venv_argv in Hin.
    destruct Hin as [Heq|[Heq|[Heq|Hin]]]; try discriminate Heq.
    by apply elem_of_nil in Hin.
  - eexists _, d, []. split_and!; try done.
    + by rewrite app_nil_r.
    + apply not_elem_of_nil.
Qed.

(** The script in the sample checkout: the three processes of the virtual
    environment, then FileNotFoundError for [temp_venv]. *)
Lemma script_stops_in_checkout :
  ("temp_venv" ∉ dirs Sample.checkout)
  /\ exists e d' evs,
       script Sample.world Sample.checkout = Raised e d'
       /\ files d' = files Sample.checkout
       /\ spawned d' = spawned Sample.checkout ++ evs
       /\ Spawn (nsist_argv Sample.world) ∉ evs.
Proof.
  assert (Hno : "temp_venv" ∉ dirs Sample.checkout).
  { apply (bool_decide_unpack _). vm_compute. exact I. }
  split; [exact Hno|].
  exact (script_stops_before_pynsist_cfg Sample.world Sample.checkout Hno).
Defined.

(** What the exception of that run is. *)
Example script_in_checkout_raises :
  exists d',
    script Sample.world Sample.checkout
    = Raised (mkExc FileNotFoundError "temp_venv") d'
    /\ files d' !! "pynsist.cfg" = None
    /\ spawned d' = [Spawn (venv_argv Sample.world); Spawn pip_install_argv;
                     Spawn pip_freeze_argv].
Proof. eexists. split_and!; vm_compute; reflexivity. Qed.

(** With a directory [temp_venv] in the way the script gets through:
    it writes [pynsist.cfg] and starts the packaging command on it. *)
Example script_in_checkout_with_temp_venv :
  let d' := state_of (script Sample.world Sample.checkout_with_temp_venv) in
  is_Some (files d' !! "pynsist.cfg")
  /\ last (spawned d') = Some (Spawn (nsist_argv Sample.world))
  /\ "temp_venv" ∉ dirs d'.
Proof.
  split_and!.
  - vm_compute. eexists. reflexivity.
  - vm_compute. reflexivity.
  - apply (bool_decide_eq_false_1 _). vm_compute. reflexivity.
Qed.

(** [check_call] returns for exit code 0 and raises for every other. *)
Lemma run_pynsist_outcome w d :
  run_pynsist w d
  = if (nsist_exit w =? 0)%Z
    then Returned tt (with_spawned (fun t => t ++ [Spawn (nsist_argv w)]) d)
    else Raised (mkExc CalledProcessError (join " " (nsist_argv w)))
                (with_spawned (fun t => t ++ [Spawn (nsist_argv w)]) d).
Proof. unfold run_pynsist, check_call. by destruct (_ =? _)%Z. Qed.

(** C4, as the code has it: once [pynsist.cfg] is written and the
    packaging command runs, the script ends with status 0 if the command
    ended with exit code 0 and with status 1 (the uncaught
    CalledProcessError of [check_call]) for every other exit code. *)
Theorem exit_status_after_pynsist (w : World) (d d1 : Dir) :
  platform_system w = "Windows" ->
  create_pynsist_cfg w d = Returned tt d1 ->
  Spawn (nsist_argv w) ∈ spawned (state_of (script w d))
  /\ exit_status (script w d) = (if (nsist_exit w =? 0)%Z then 0 else 1)%Z.
Proof.
  intros Hwin Hcfg.
  unfold script, bind, assert. rewrite bool_decide_eq_true_2 by done.
  unfold ret, main, bind. rewrite Hcfg, run_pynsist_outcome.
  destruct (nsist_exit w =? 0)%Z; simpl; (split; [|done]);
    apply elem_of_app; right; constructor.
Qed.

Lemma exit_status_after_pynsist_in_sample :
  platform_system Sample.world = "Windows"
  /\ (exists d1, create_pynsist_cfg Sample.world Sample.checkout_with_temp_venv
                 = Returned tt d1)
  /\ Spawn (nsist_argv Sample.world)
       ∈ spawned (state_of (script Sample.world Sample.checkout_with_temp_venv))
  /\ exit_status (script Sample.world Sample.checkout_with_temp_venv)
     = (if (nsist_exit Sample.world =? 0)%Z then 0 else 1)%Z.
Proof.
  assert (Hcfg : exists d1,
    create_pynsist_cfg Sample.world Sample.checkout_with_temp_venv
    = Returned tt d1).
  { vm_compute. eexists. reflexivity. }
  split; [reflexivity|]. split; [exact Hcfg|].
  destruct Hcfg as [d1 Hcfg].
  exact (exit_status_after_pynsist Sample.world
           Sample.checkout_with_temp_venv d1 eq_refl Hcfg).
Defined.

(** C4 as it is stated fails: the packaging command ends with exit code
    2, the script with status 1. *)
Lemma exit_status_is_not_the_exit_code :
  let r := script Sample.world Sample.checkout_with_temp_venv in
  last (spawned (state_of r)) = Some (Spawn (nsist_argv Sample.world))
  /\ nsist_exit Sample.world = 2%Z
  /\ exit_status r = 1%Z
  /\ exit_status r <> nsist_exit Sample.world.
Proof. split_and!; vm_compute; done. Qed.

End InstallerFacts.

(* ===================================================================== *)
(** * Properties of the editor *)
(* ===================================================================== *)

Module EditorFacts.
Import Py Editor.
Local Open Scope py_scope.

(** ** Menus: [get_menu] *)


Lemma get_menu_from_cons label rest current_menu s :
  get_menu_from (label :: rest) current_menu s
  = match _submenus s !! (current_menu, label) with
    | Some submenu => get_menu_from rest submenu s
    | None =>
        get_menu_from rest (make_submenu current_menu label s).1
                      (make_submenu current_menu label s).2
    end.
Proof.
  simpl. unfold bind at 1, get.
  destruct (_submenus s !! (current_menu, label)) as [submenu|]; [done|].
  unfold make_submenu, bind, new_menu, insert_cascade, add_entry, modify, get.
  by case_bool_decide.
Qed.

Lemma make_submenu_submenus current_menu label s :
  _submenus (make_submenu current_menu label s).2
  = <[(current_menu, label) := next_menu s]> (_submenus s).
Proof. unfold make_submenu. by case_bool_decide. Qed.

(** [get_menu] always returns a menu. *)
Lemma get_menu_from_returns labels :
  forall current_menu s,
    exists menu s1, get_menu_from labels current_menu s = Returned menu s1.
Proof.
  induction labels as [|label rest IH]; intros current_menu s.
  - by exists current_menu, s.
  - rewrite get_menu_from_cons.
    destruct (_submenus s !! (current_menu, label)); apply IH.
Qed.

(** [get_menu] only adds to [_submenus]: what was there stays. *)
Lemma get_menu_from_grows labels :
  forall current_menu s menu s1,
    get_menu_from labels current_menu s = Returned menu s1 ->
    _submenus s ⊆ _submenus s1.
Proof.
  induction labels as [|label rest IH]; intros current_menu s menu s1 Hrun.
  - simpl in Hrun. by injection Hrun as _ ->.
  - rewrite get_menu_from_cons in Hrun.
    destruct (_submenus s !! (current_menu, label)) as [submenu|] eqn:Hlook.
    + by eapply IH.
    + apply IH in Hrun. rewrite make_submenu_submenus in Hrun.
      etrans; [|exact Hrun]. by apply insert_subseteq.
Qed.

(** Where every label of the path is known, [get_menu] changes nothing;
    and after a first call every label of the path is known. *)
Lemma get_menu_from_again labels :
  forall current_menu s menu s1,
    get_menu_from labels current_menu s = Returned menu s1 ->
    forall s2, _submenus s1 ⊆ _submenus s2 ->
               get_menu_from labels current_menu s2 = Returned menu s2.
Proof.
  induction labels as [|label rest IH];
    intros current_menu s menu s1 Hrun s2 Hsub.
  - simpl in *. by injection Hrun as -> _.
  - rewrite get_menu_from_cons in Hrun. rewrite get_menu_from_cons.
    destruct (_submenus s !! (current_menu, label)) as [submenu|] eqn:Hlook.
    + pose proof (get_menu_from_grows _ _ _ _ _ Hrun) as Hgrow.
      assert (_submenus s2 !! (current_menu, label) = Some submenu) as ->.
      { eapply lookup_weaken; [|exact Hsub].
        eapply lookup_weaken; [exact Hlook|exact Hgrow]. }
      by eapply IH.
    + pose proof (get_menu_from_grows _ _ _ _ _ Hrun) as Hgrow.
      rewrite make_submenu_submenus in Hgrow.
      assert (_submenus s2 !! (current_menu, label)
              = Some (make_submenu current_menu label s).1) as ->.
      { eapply lookup_weaken; [|exact Hsub].
        eapply lookup_weaken; [|exact Hgrow]. apply lookup_insert_eq. }
      by eapply IH.
Qed.

(** C7: [get_menu] is idempotent.  For every [label_path] and every state
    of the editor the call returns a menu, and a second call with the same
    [label_path] returns the same menu and leaves the whole state (the
    table [_submenus], the entries of every menu) as the first call left
    it. *)
Theorem get_menu_idempotent (label_path : string) (s : State) :
  exists menu s1,
    get_menu label_path s = Returned menu s1
    /\ get_menu label_path s1 = Returned menu s1.
Proof.
  unfold get_menu.
  destruct (get_menu_from_returns (split "/" label_path) menubar s)
    as (menu & s1 & Hrun).
  exists menu, s1. split; [exact Hrun|].
  by eapply get_menu_from_again.
Qed.

(** ** Quitting: [do_quit] *)

Lemma with_trace_nil s : with_trace (fun t => t ++ []) s = s.
Proof. destruct s. unfold with_trace. simpl. by rewrite app_nil_r. Qed.

Lemma with_trace_app evs1 evs2 s :
  with_trace (fun t => t ++ evs2) (with_trace (fun t => t ++ evs1) s)
  = with_trace (fun t => t ++ (evs1 ++ evs2)) s.
Proof. destruct s. unfold with_trace. simpl. by rewrite app_assoc. Qed.

Section Quit.
Variable w : World.


Lemma all_can_be_closed_cons tab rest s :
  all_can_be_closed w (tab :: rest) s
  = let s1 := with_trace (fun t => t ++ [ask tab]) s in
    match fails w (ask tab) with
    | Some e => Raised e s1
    | None =>
        if can_be_closed w tab then all_can_be_closed w rest s1
        else Returned false s1
    end.
Proof.
  simpl. unfold bind, foreign. fold (ask tab).
  destruct (fails w (ask tab)); [done|]. by destruct (can_be_closed w tab).
Qed.

(** The loop of [do_quit] asks the tabs in order and stops at the first
    that cannot be closed (or whose answer is an exception); it does
    nothing else. *)
Lemma all_can_be_closed_asks ts :
  forall s, exists asked,
    asked `prefix_of` ts
    /\ state_of (all_can_be_closed w ts s)
       = with_trace (fun t => t ++ (ask <$> asked)) s
    /\ match all_can_be_closed w ts s with
       | Returned closable _ =>
           closable = forallb (can_be_closed w) ts
       | Raised e _ =>
           exists tab, tab ∈ asked /\ fails w (ask tab) = Some e
       end.
Proof.
  induction ts as [|tab rest IH]; intros s.
  - exists []. split_and!; [done| |done]. simpl. by rewrite with_trace_nil.
  - rewrite all_can_be_closed_cons. cbv zeta.
    destruct (fails w (ask tab)) as [e|] eqn:Hfails.
    + exists [tab]. split_and!.
      * by apply prefix_cons, prefix_nil.
      * done.
      * exists tab. split; [constructor|done].
    + simpl forallb. destruct (can_be_closed w tab) eqn:Hcan.
      * destruct (IH (with_trace (fun t => t ++ [ask tab]) s))
          as (asked & Hprefix & Hstate & Hres).
        exists (tab :: asked). split_and!.
        -- by apply prefix_cons.
        -- rewrite Hstate, with_trace_app. done.
        -- destruct (all_can_be_closed w rest _) as [closable s1|e s1].
           ++ done.
           ++ destruct Hres as (tab' & Hin & Hf). exists tab'.
              split; [by constructor|done].
      * exists [tab]. split_and!.
        -- by apply prefix_cons, prefix_nil.
        -- done.
        -- done.
Qed.

(** Where every tab can be closed, the loop has asked each of them. *)
Lemma all_can_be_closed_true ts :
  forallb (can_be_closed w) ts = true ->
  forall s,
    all_can_be_closed w ts s
    = (for_each ts (fun tab => foreign w (ask tab)) ;; ret true) s.
Proof.
  induction ts as [|tab rest IH]; intros Hall s; [done|].
  simpl in Hall. apply andb_prop in Hall as [Htab Hrest].
  rewrite all_can_be_closed_cons. cbv zeta.
  simpl for_each. unfold bind at 1 2, foreign.
  destruct (fails w (ask tab)); [done|].
  rewrite Htab, (IH Hrest). done.
Qed.

Lemma do_quit_unfold s :
  do_quit w s
  = match all_can_be_closed w (tabs (tabmanager s)) s with
    | Returned true s1 =>
        (destroy w ;;
         match destroy_callback s with
         | Some callback => foreign w (EvCall callback)
         | None => ret tt
         end) s1
    | Returned false s1 => Returned tt s1
    | Raised e s1 => Raised e s1
    end.
Proof.
  unfold do_quit. unfold bind at 1, get. unfold bind at 1.
  destruct (all_can_be_closed w _ s) as [[] s1|e s1]; done.
Qed.

(** C6: [do_quit] is all or nothing.  If some open tab cannot be closed,
    all that [do_quit] has done is to ask tabs whether they can be closed
    (a first part of the list of tabs): the tab manager and its tabs are
    as before, the editor is not destroyed, [destroy_callback] is not
    called, and [do_quit] returns unless one of the tabs asked raised.
    If every open tab can be closed, [do_quit] asks all of them and then
    destroys the editor and calls [destroy_callback] (when it is not
    None).  So the editor is destroyed and the callback called only when
    every open tab can be closed. *)
Theorem do_quit_all_or_nothing (s : State) :
  let open_tabs := tabs (tabmanager s) in
  if forallb (can_be_closed w) open_tabs then
    do_quit w s
    = (for_each open_tabs (fun tab => foreign w (ask tab)) ;;
       destroy w ;;
       match destroy_callback s with
       | Some callback => foreign w (EvCall callback)
       | None => ret tt
       end) s
  else
    exists asked,
      asked `prefix_of` open_tabs
      /\ state_of (do_quit w s) = with_trace (fun t => t ++ (ask <$> asked)) s
      /\ (returned (do_quit w s) = false ->
          exists tab, tab ∈ asked /\ is_Some (fails w (ask tab))).
Proof.
  intros open_tabs. rewrite do_quit_unfold. fold open_tabs.
  destruct (forallb (can_be_closed w) open_tabs) eqn:Hall.
  - rewrite (all_can_be_closed_true _ Hall).
    unfold bind.
    destruct (for_each open_tabs _ s) as [[] s1|e s1]; done.
  - destruct (all_can_be_closed_asks open_tabs s)
      as (asked & Hprefix & Hstate & Hres).
    exists asked. split; [done|].
    destruct (all_can_be_closed w open_tabs s) as [closable s1|e s1];
      simpl in Hstate; subst s1.
    + rewrite Hres, Hall. simpl. split; [done|]. discriminate.
    + simpl. split; [done|]. intros _.
      destruct Hres as (tab & Hin & Hf). exists tab. split; [done|].
      by rewrite Hf.
Qed.

End Quit.

(** With an unsaved tab open nothing is destroyed; with every tab saved
    the editor is destroyed and the callback called. *)
Example do_quit_with_unsaved_tab :
  let s := with_tabmanager
             (fun _ => mkTabManager [Sample.a_file_tab; Sample.an_unsaved_tab;
                                     Sample.a_plugin_tab]
                                    (Some Sample.a_file_tab))
             (fresh (Some "root.destroy")) in
  do_quit Sample.world s
  = Returned tt (with_trace (fun _ => [ask Sample.a_file_tab;
                                       ask Sample.an_unsaved_tab]) s).
Proof. vm_compute. reflexivity. Qed.

Example do_quit_with_saved_tabs :
  let s := with_tabmanager
             (fun _ => mkTabManager [Sample.a_file_tab; Sample.a_plugin_tab]
                                    (Some Sample.a_file_tab))
             (fresh (Some "root.destroy")) in
  exists s',
    do_quit Sample.world s = Returned tt s'
    /\ destroyed s' = true
    /\ trace s' = [ask Sample.a_file_tab; ask Sample.a_plugin_tab;
                   EvDestroy; EvCall "root.destroy"].
Proof. eexists. split_and!; vm_compute; reflexivity. Qed.

(** ** Key bindings: [add_action] *)


Lemma isinstance_tab_compatible current tabtypes :
  isinstance_tab current (to_type <$> tabtypes) = true
  <-> compatible current tabtypes.
Proof.
  unfold isinstance_tab, compatible. rewrite existsb_exists. split.
  - intros (ty & Hin & Hty). apply list_elem_of_In in Hin.
    apply list_elem_of_fmap in Hin as (cls & -> & Hin).
    destruct current as [tab|], cls as [cls|]; simpl in Hty; try done.
    by exists cls.
  - destruct current as [tab|].
    + intros (cls & Hin & Hsub). exists (TabType cls). split; [|done].
      apply list_elem_of_In, list_elem_of_fmap. by exists (Some cls).
    + intros Hin. exists NoneType. split; [|done].
      apply list_elem_of_In, list_elem_of_fmap. by exists None.
Qed.

(** The menu part of [add_action] leaves the key bindings alone. *)
Lemma get_menu_from_key_bindings labels :
  forall current_menu s,
    key_bindings (state_of (get_menu_from labels current_menu s))
    = key_bindings s.
Proof.
  induction labels as [|label rest IH]; intros current_menu s; [done|].
  rewrite get_menu_from_cons.
  destruct (_submenus s !! (current_menu, label)); rewrite IH; [done|].
  unfold make_submenu. by case_bool_decide.
Qed.

(** [add_action] with a binding, when it returns, has bound the key to
    its [bind_callback]; a key that it was not given is bound as
    before. *)
Lemma add_action_key_bindings callback menupath accelerator binding tabtypes
    s s1 :
  add_action callback menupath accelerator binding tabtypes s
  = Returned tt s1 ->
  key_bindings s1
  = match binding with
    | Some binding =>
        <[binding := mkBind callback (to_type <$> tabtypes)]> (key_bindings s)
    | None => key_bindings s
    end.
Proof.
  unfold add_action. unfold bind at 1.
  set (menu_part := match menupath with Some _ => _ | None => _ end).
  assert (Hmenu : key_bindings (state_of (menu_part s)) = key_bindings s).
  { subst menu_part. destruct menupath as [menupath|]; [|done].
    destruct (rsplit1 "/" menupath) as [[path label]|]; [|done].
    unfold get_menu. unfold bind at 1.
    pose proof (get_menu_from_key_bindings (split "/" path) menubar s) as Hk.
    destruct (get_menu_from _ menubar s) as [menu s2|e s2]; [|done].
    simpl in Hk. unfold bind, add_entry, modify, get, tab_changed,
      entryconfig_state, modify, raise.
    destruct (index_end menu _); [|done].
    destruct (isinstance_tab _ _); done. }
  destruct (menu_part s) as [[] s2|e s2]; [|done]. simpl in Hmenu.
  destruct binding as [binding|]; unfold modify, ret;
    intros [= <-]; simpl; by rewrite Hmenu.
Qed.

(** An [add_action] for another key, or for no key, leaves the binding of
    [binding] as it is. *)
Lemma add_action_other_key callback menupath accelerator other tabtypes
    binding s s1 :
  add_action callback menupath accelerator other tabtypes s
  = Returned tt s1 ->
  other <> Some binding ->
  key_bindings s1 !! binding = key_bindings s !! binding.
Proof.
  intros Hadd Hother. apply add_action_key_bindings in Hadd. rewrite Hadd.
  destruct other as [key|]; [|done].
  apply lookup_insert_ne. congruence.
Qed.

Section Bindings.
Variable w : World.

Lemma trigger_unfold binding s :
  trigger w binding s
  = match key_bindings s !! binding with
    | Some b =>
        if isinstance_tab (current_tab (tabmanager s)) (bound_tabtypes b)
        then (call w (bound_callback b) ;; ret (Some "break")) s
        else Returned None s
    | None => Returned None s
    end.
Proof.
  unfold trigger. unfold bind at 1, get.
  destruct (key_bindings s !! binding) as [b|]; [|done].
  unfold bind_callback. unfold bind at 1, get.
  by destruct (isinstance_tab _ _).
Qed.

(** C8: the binding of an action runs the callback exactly when the
    current tab is compatible.  After [add_action] has registered
    [callback] for the key [binding] with [tabtypes], then in every state
    in which the key is still bound as this call bound it, whatever the
    tab manager holds by then: if the current tab is an instance of one of
    the tab types (no tab at all counting as an instance of None), the
    key runs the callback and returns 'break'; if not, it returns None
    without running anything, and the state is unchanged. *)
Theorem binding_runs_callback_iff_compatible
    (callback : Callback) (menupath accelerator : option string)
    (binding : string) (tabtypes : list (option TabClass)) (s s1 s2 : State) :
  add_action callback menupath accelerator (Some binding) tabtypes s
  = Returned tt s1 ->
  key_bindings s2 !! binding = key_bindings s1 !! binding ->
  (compatible (current_tab (tabmanager s2)) tabtypes ->
     trigger w binding s2 = (call w callback ;; ret (Some "break")) s2)
  /\ (~ compatible (current_tab (tabmanager s2)) tabtypes ->
       trigger w binding s2 = Returned None s2).
Proof.
  intros Hadd Hbound.
  apply add_action_key_bindings in Hadd.
  rewrite Hadd, lookup_insert_eq in Hbound.
  rewrite trigger_unfold, Hbound. simpl.
  pose proof (isinstance_tab_compatible (current_tab (tabmanager s2)) tabtypes)
    as Hiff.
  destruct (isinstance_tab _ _).
  - split; [done|]. intros Hno. destruct Hno. by apply Hiff.
  - split; [|done]. intros Hyes. apply Hiff in Hyes. discriminate.
Qed.

End Bindings.


Lemma binding_of_undo_on_a_file_tab :
  add_action (CbTextMethod "undo") (Some "Edit/Undo") (Some "Ctrl+Z")
             (Some "<Control-z>") [Some FileTab] (fresh None)
  = Returned tt after_undo_action
  /\ compatible (current_tab (tabmanager (with_file_tab after_undo_action)))
                [Some FileTab]
  /\ trigger Sample.world "<Control-z>" (with_file_tab after_undo_action)
     = (call Sample.world (CbTextMethod "undo") ;; ret (Some "break"))
         (with_file_tab after_undo_action)
  /\ (call Sample.world (CbTextMethod "undo") ;; ret (Some "break"))
       (with_file_tab after_undo_action)
     = Returned (Some "break")
         (with_trace (fun t => t ++ [EvTextMethod 7 "undo" []])
                     (with_file_tab after_undo_action)).
Proof.
  assert (Hadd : add_action (CbTextMethod "undo") (Some "Edit/Undo")
                   (Some "Ctrl+Z") (Some "<Control-z>") [Some FileTab]
                   (fresh None) = Returned tt after_undo_action).
  { vm_compute. reflexivity. }
  assert (Hcompatible :
            compatible (current_tab (tabmanager (with_file_tab after_undo_action)))
                       [Some FileTab]).
  { exists FileTab. split; [constructor|reflexivity]. }
  destruct (binding_runs_callback_iff_compatible Sample.world _ _ _ _ _ _ _
              (with_file_tab after_undo_action) Hadd eq_refl) as [Hrun _].
  split_and!; [exact Hadd|exact Hcompatible|exact (Hrun Hcompatible)|].
  vm_compute. reflexivity.
Defined.

(** On a tab of another class, and with no tab, the same key does
    nothing. *)
Example binding_of_undo_elsewhere :
  trigger Sample.world "<Control-z>" (with_plugin_tab after_undo_action)
  = Returned None (with_plugin_tab after_undo_action)
  /\ trigger Sample.world "<Control-z>" after_undo_action
     = Returned None after_undo_action.
Proof. split; vm_compute; reflexivity. Qed.

(** A tab of a class that derives from [FileTab] is an instance of
    [FileTab]: the key runs the callback there too. *)
Example binding_of_undo_on_a_subclass_tab :
  compatible (current_tab (tabmanager (with_subclass_tab after_undo_action)))
             [Some FileTab]
  /\ trigger Sample.world "<Control-z>" (with_subclass_tab after_undo_action)
     = Returned (Some "break")
         (with_trace (fun t => t ++ [EvTextMethod 10 "undo" []])
                     (with_subclass_tab after_undo_action)).
Proof.
  split; [|vm_compute; reflexivity].
  exists FileTab. split; [constructor|reflexivity].
Qed.

(** A later [add_action] for the same key replaces the binding (the
    source notes: TODO: check if it's already bound). *)
Example binding_is_replaced :
  let s := state_of (add_action (CbForeign "other") None None
                                (Some "<Control-z>") default_tabtypes
                                after_undo_action) in
  trigger Sample.world "<Control-z>" (with_file_tab s)
  = Returned (Some "break")
      (with_trace (fun t => t ++ [EvCall "other"]) (with_file_tab s)).
Proof. vm_compute. reflexivity. Qed.

(** ** Opening files: [open_files] *)

Section Opening.
Variable w : World.


Lemma quiet_nil : quiet w [].
Proof. intros ev Hin. by apply elem_of_nil in Hin. Qed.

Lemma quiet_app evs1 evs2 : quiet w evs1 -> quiet w evs2 -> quiet w (evs1 ++ evs2).
Proof.
  intros H1 H2 ev [Hin|Hin]%elem_of_app; [by apply H1|by apply H2].
Qed.

Lemma quiet_singleton ev : raises w ev = None -> quiet w [ev].
Proof.
  intros Hev ev' Hin. apply list_elem_of_singleton in Hin. by subst.
Qed.

Lemma quiet_all_caught evs : quiet w evs -> all_caught w evs.
Proof. intros Hq ev e Hin Hr. rewrite (Hq ev Hin) in Hr. discriminate. Qed.

Lemma all_caught_app evs1 evs2 :
  all_caught w evs1 -> all_caught w evs2 -> all_caught w (evs1 ++ evs2).
Proof.
  intros H1 H2 ev e [Hin|Hin]%elem_of_app; [by apply H1|by apply H2].
Qed.

Lemma all_caught_singleton ev e :
  raises w ev = Some e -> caught ev e = true -> all_caught w [ev].
Proof.
  intros Hev Hc ev' e' Hin Hr. apply list_elem_of_singleton in Hin. subst.
  rewrite Hev in Hr. by injection Hr as <-.
Qed.

Lemma in_try_block_ret {A} (a : A) : in_try_block w (ret a).
Proof.
  intros s. exists []. split; [by rewrite app_nil_r|apply quiet_nil].
Qed.

Lemma in_try_block_bind {A B} (m : M State A) (k : A -> M State B) :
  in_try_block w m -> (forall a, in_try_block w (k a)) -> in_try_block w (bind m k).
Proof.
  intros Hm Hk s. unfold bind. specialize (Hm s).
  destruct (m s) as [a s1|e s1]; [|done].
  destruct Hm as (evs1 & Ht1 & Hq1). specialize (Hk a s1).
  destruct (k a s1) as [b s2|e s2].
  - destruct Hk as (evs2 & Ht2 & Hq2). exists (evs1 ++ evs2).
    split; [by rewrite Ht2, Ht1, app_assoc|by apply quiet_app].
  - destruct Hk as (evs2 & ev & Ht2 & Hq2 & Hr & Hin).
    exists (evs1 ++ evs2), ev.
    split_and!; [by rewrite Ht2, Ht1, !app_assoc|by apply quiet_app|done..].
Qed.

Lemma in_try_block_foreign ev :
  in_try ev = true -> raises w ev = fails w ev -> in_try_block w (foreign w ev).
Proof.
  intros Hin Hr s. unfold foreign. rewrite <- Hr.
  destruct (raises w ev) as [e|] eqn:Hev.
  - exists [], ev. split_and!; [done|apply quiet_nil|done..].
  - exists [ev]. split; [done|by apply quiet_singleton].
Qed.

Lemma in_try_block_open path encoding :
  in_try_block w (open_and_read w path encoding).
Proof.
  intros s. unfold open_and_read.
  destruct (open_read w path encoding) as [content|e] eqn:Hopen.
  - exists [EvOpen path encoding]. split; [done|].
    apply quiet_singleton. simpl. by rewrite Hopen.
  - exists [], (EvOpen path encoding).
    split_and!; [done|apply quiet_nil| |done]. simpl. by rewrite Hopen.
Qed.

Lemma in_try_block_silent {A} (f : State -> A * State) :
  (forall s, trace (f s).2 = trace s) ->
  in_try_block w (fun s => Returned (f s).1 (f s).2).
Proof.
  intros Hf s. exists []. split; [by rewrite Hf, app_nil_r|apply quiet_nil].
Qed.

Lemma open_one_in_try_block path : in_try_block w (open_one w path).
Proof.
  unfold open_one, new_FileTab.
  apply in_try_block_bind; [by apply in_try_block_foreign|intros _].
  apply in_try_block_bind; [apply in_try_block_open|intros content].
  apply in_try_block_bind; [by apply in_try_block_foreign|intros _].
  apply in_try_block_bind;
    [apply (in_try_block_silent (fun s => (s, s))); done|intros s0].
  apply in_try_block_bind;
    [apply (in_try_block_silent (fun s => (tt, with_next_tab S s))); done|].
  intros _. apply in_try_block_ret.
Qed.

Lemma propagating_ret {A} (a : A) : propagating w (ret a).
Proof.
  intros s. exists []. split; [by rewrite app_nil_r|].
  apply quiet_all_caught, quiet_nil.
Qed.

Lemma propagating_bind {A B} (m : M State A) (k : A -> M State B) :
  propagating w m -> (forall a, propagating w (k a)) -> propagating w (bind m k).
Proof.
  intros Hm Hk s. unfold bind. specialize (Hm s).
  destruct (m s) as [a s1|e s1]; [|done].
  destruct Hm as (evs1 & Ht1 & Hq1). specialize (Hk a s1).
  destruct (k a s1) as [b s2|e s2].
  - destruct Hk as (evs2 & Ht2 & Hq2). exists (evs1 ++ evs2).
    split; [by rewrite Ht2, Ht1, app_assoc|by apply all_caught_app].
  - destruct Hk as (evs2 & ev & Ht2 & Hq2 & Hr & Hin).
    exists (evs1 ++ evs2), ev.
    split_and!;
      [by rewrite Ht2, Ht1, !app_assoc|by apply all_caught_app|done..].
Qed.

Lemma propagating_foreign ev :
  in_try ev = false -> raises w ev = fails w ev -> propagating w (foreign w ev).
Proof.
  intros Hin Hr s. unfold foreign. rewrite <- Hr.
  destruct (raises w ev) as [e|] eqn:Hev.
  - exists [], ev. split_and!; [done| |done|].
    + apply quiet_all_caught, quiet_nil.
    + unfold caught. by rewrite Hin.
  - exists [ev]. split; [done|]. by apply quiet_all_caught, quiet_singleton.
Qed.

Lemma propagating_modify (f : State -> State) :
  (forall s, trace (f s) = trace s) -> propagating w (modify f).
Proof.
  intros Hf s. exists []. split; [by rewrite Hf, app_nil_r|].
  apply quiet_all_caught, quiet_nil.
Qed.

Lemma propagating_get : propagating w get.
Proof.
  intros s. exists []. split; [by rewrite app_nil_r|].
  apply quiet_all_caught, quiet_nil.
Qed.

Lemma propagating_for_each {A} (xs : list A) (body : A -> M State unit) :
  (forall x, propagating w (body x)) -> propagating w (for_each xs body).
Proof.
  intros Hbody. induction xs as [|x rest IH]; simpl.
  - apply propagating_ret.
  - apply propagating_bind; [apply Hbody|by intros _].
Qed.

(** The [try] statement: an exception of its block that the [except]
    clause takes is followed by the handler; any other one leaves. *)
Lemma propagating_try {A} (body : M State A) (handler : Exc -> M State A) :
  in_try_block w body -> (forall e, propagating w (handler e)) ->
  propagating w (try_except body [OSError; UnicodeError] handler).
Proof.
  intros Hbody Hhandler s. unfold try_except. specialize (Hbody s).
  destruct (body s) as [a s1|e s1].
  - destruct Hbody as (evs & Ht & Hq). exists evs.
    split; [done|by apply quiet_all_caught].
  - destruct Hbody as (evs & ev & Ht & Hq & Hr & Hin).
    destruct (isinstance e [OSError; UnicodeError]) eqn:Hinst.
    + assert (Hseen : all_caught w (evs ++ [ev])).
      { apply all_caught_app; [by apply quiet_all_caught|].
        apply (all_caught_singleton ev e Hr). unfold caught.
        by rewrite Hin, Hinst. }
      specialize (Hhandler e s1).
      destruct (handler e s1) as [a s2|e2 s2].
      * destruct Hhandler as (evs2 & Ht2 & Hq2).
        exists ((evs ++ [ev]) ++ evs2).
        split; [by rewrite Ht2, Ht, !app_assoc|by apply all_caught_app].
      * destruct Hhandler as (evs2 & ev2 & Ht2 & Hq2 & Hr2 & Hc2).
        exists ((evs ++ [ev]) ++ evs2), ev2.
        split_and!;
          [by rewrite Ht2, Ht, !app_assoc|by apply all_caught_app|done..].
    + exists evs, ev. split_and!; [done|by apply quiet_all_caught|done|].
      unfold caught. by rewrite Hinst, andb_false_r.
Qed.

Lemma open_path_propagating path : propagating w (open_path w path).
Proof.
  unfold open_path.
  apply propagating_bind.
  - apply propagating_try.
    + apply in_try_block_bind; [apply open_one_in_try_block|].
      intros tab. apply in_try_block_ret.
    + intros e. unfold opening_failed.
      apply propagating_bind; [|intros _; apply propagating_ret].
      apply propagating_bind; [by apply propagating_foreign|intros _].
      by apply propagating_foreign.
  - intros [tab|]; [|apply propagating_ret].
    apply propagating_bind; [by apply propagating_foreign|intros _].
    unfold add_tab.
    apply propagating_bind; [by apply propagating_foreign|intros _].
    by apply propagating_modify.
Qed.

Lemma open_files_propagating : propagating w (open_files w).
Proof.
  unfold open_files.
  apply propagating_bind; [apply propagating_get|intros s0].
  apply propagating_bind; [by apply propagating_foreign|intros _].
  apply propagating_for_each. apply open_path_propagating.
Qed.

Lemma for_each_app {A} (xs ys : list A) (body : A -> M State unit) s :
  for_each (xs ++ ys) body s
  = (for_each xs body ;; for_each ys body) s.
Proof.
  revert s. induction xs as [|x xs IH]; intros s; [done|].
  simpl. unfold bind.
  destruct (body x s) as [[] s1|e s1]; [|done]. by rewrite IH.
Qed.






(** The round of the loop for a path whose [try] block raises. *)
Lemma open_path_raises path s evs e :
  try_block_raises w path = Some (evs, e) ->
  open_path w path s
  = if isinstance e [OSError; UnicodeError] then
      (foreign w (EvLogException ("opening '" +:+ path +:+ "' failed")) ;;
       foreign w (EvErrorDialog (type_name (exc_type e)) "Opening failed!"
                                (format_exc w e)))
        (with_trace (fun t => t ++ evs) s)
    else Raised e (with_trace (fun t => t ++ evs) s).
Proof.
  intros Htry.
  assert (Hbody : open_one w path s
                  = Raised e (with_trace (fun t => t ++ evs) s)).
  { unfold try_block_raises in Htry.
    unfold open_one, open_and_read, new_FileTab, bind, foreign.
    destruct (fails w (EvConfigGet "Files" "encoding")) as [e0|].
    { by injection Htry as <- <-. }
    cbv beta iota.
    destruct (open_read w path (config_files_encoding w)) as [content|e0].
    2: { injection Htry as <- <-. f_equal.
         destruct s. unfold with_trace. simpl. by rewrite <- app_assoc. }
    cbv beta iota.
    destruct (fails w (EvNewFileTab (Some content) (Some path))) as [e0|];
      [|done].
    injection Htry as <- <-. f_equal.
    destruct s. unfold with_trace. simpl. by rewrite <- !app_assoc. }
  unfold open_path, try_except. unfold bind at 1. unfold bind at 1.
  rewrite Hbody. cbv beta iota.
  destruct (isinstance e [OSError; UnicodeError]); [|done].
  unfold opening_failed, bind.
  destruct (foreign w (EvLogException _) _) as [[] s2|e2 s2]; [|done].
  destruct (foreign w (EvErrorDialog _ _ _) s2) as [[] s3|e3 s3]; done.
Qed.

(** C2: the [except] clause of [open_files] takes exactly the OSError and
    UnicodeError instances raised in its [try] block (the lookup of the
    encoding, [open] and [read], the making of the tab) and shows each in
    the error dialog; every other exception leaves [open_files].

    First part, on the calls of a whole run: when [open_files] returns,
    every exception that one of its calls raised came from the [try]
    block and was an OSError or UnicodeError; when an exception leaves
    [open_files], it is the exception of the last call made, and it was
    not such a one (raised outside the block, or of another class).

    Second part, on what [open_files] does with an exception: let the
    user have chosen the files [before ++ path :: rest], let the loop
    have arrived at [path] in the state [s1], and let one of the three
    calls of the [try] block for [path] raise [e].  If [e] is an OSError
    or a UnicodeError, [open_files] goes on with [log.exception], then
    [utils.errordialog] with the name of the class of [e] and the
    traceback, then the files of [rest].  If [e] is of any other class,
    [open_files] ends with [e] there: no dialog, and the files of [rest]
    are not looked at. *)
Theorem open_files_catches_exactly (s : State) :
  match open_files w s with
  | Returned _ s' =>
      exists evs, trace s' = trace s ++ evs
        /\ forall ev e, ev ∈ evs -> raises w ev = Some e ->
                        in_try ev = true
                        /\ isinstance e [OSError; UnicodeError] = true
  | Raised e s' =>
      exists evs ev, trace s' = trace s ++ evs ++ [ev]
        /\ raises w ev = Some e
        /\ (in_try ev = false \/ isinstance e [OSError; UnicodeError] = false)
  end
  /\ forall before path rest s1 evs e,
       chosen_files w (default_directory w s) = before ++ path :: rest ->
       (foreign w (EvOpenFilesDialog (default_directory w s)) ;;
        for_each before (open_path w)) s = Returned tt s1 ->
       try_block_raises w path = Some (evs, e) ->
       open_files w s
       = if isinstance e [OSError; UnicodeError] then
           (foreign w (EvLogException ("opening '" +:+ path +:+ "' failed")) ;;
            foreign w (EvErrorDialog (type_name (exc_type e))
                                     "Opening failed!" (format_exc w e)) ;;
            for_each rest (open_path w))
             (with_trace (fun t => t ++ evs) s1)
         else Raised e (with_trace (fun t => t ++ evs) s1).
Proof.
  split.
  - pose proof (open_files_propagating s) as H.
    destruct (open_files w s) as [[] s'|e s'].
    + destruct H as (evs & Ht & Hc). exists evs. split; [done|].
      intros ev e Hin Hr. specialize (Hc ev e Hin Hr).
      by apply andb_prop in Hc.
    + destruct H as (evs & ev & Ht & _ & Hr & Hc). exists evs, ev.
      split_and!; [done..|]. by apply andb_false_iff in Hc.
  - intros before path rest s1 evs e Hchosen Hbefore Htry.
    unfold open_files. unfold bind at 1, get. rewrite Hchosen.
    unfold bind at 1. unfold bind at 1 in Hbefore.
    destruct (foreign w _ s) as [[] s0|e0 s0]; [|done].
    rewrite for_each_app. unfold bind at 1. rewrite Hbefore.
    simpl for_each. unfold bind at 1.
    rewrite (open_path_raises path s1 evs e Htry).
    destruct (isinstance e [OSError; UnicodeError]); [|done].
    unfold bind.
    destruct (foreign w (EvLogException _) _) as [[] s2|e2 s2]; [|done].
    destruct (foreign w (EvErrorDialog _ _ _) s2) as [[] s3|e3 s3]; done.
Qed.


End Opening.



(** The whole run: two dialogs, one tab. *)
Example open_files_in_sample_world :
  exists s',
    open_files Sample.world (fresh None) = Returned tt s'
    /\ tab_path <$> tabs (tabmanager s') = [Some "hello.py"]
    /\ filter (fun ev => is_error_dialog ev = true) (trace s')
       = [EvErrorDialog "FileNotFoundError" "Opening failed!"
                        "Traceback: missing.txt";
          EvErrorDialog "UnicodeDecodeError" "Opening failed!"
                        "Traceback: invalid start byte"].
Proof. eexists. split_and!; vm_compute; reflexivity. Qed.

Lemma open_files_catches_exactly_in_sample_world :
  let s := fresh None in
  let s1 := with_trace (fun t => t ++ [EvOpenFilesDialog None]) s in
  let missing := mkExc FileNotFoundError "missing.txt" in
  let unknown := mkExc LookupError "unknown encoding: utf-9" in
  let s2 :=
    with_trace
      (fun t => t ++ [EvOpenFilesDialog None;
                      EvConfigGet "Files" "encoding";
                      EvOpen "missing.txt" "utf-9";
                      EvLogException "opening 'missing.txt' failed";
                      EvErrorDialog "FileNotFoundError" "Opening failed!"
                                    "Traceback: missing.txt"]) s in
  (* a missing file: caught, shown, and the loop goes on *)
  try_block_raises Sample.world "missing.txt"
  = Some ([EvConfigGet "Files" "encoding"; EvOpen "missing.txt" "utf-8"],
          missing)
  /\ open_files Sample.world s
     = (foreign Sample.world
          (EvLogException "opening 'missing.txt' failed") ;;
        foreign Sample.world
          (EvErrorDialog "FileNotFoundError" "Opening failed!"
                         "Traceback: missing.txt") ;;
        for_each ["hello.py"; "binary.dat"] (open_path Sample.world))
         (with_trace (fun t => t ++ [EvConfigGet "Files" "encoding";
                                     EvOpen "missing.txt" "utf-8"]) s1)
  (* an encoding that Python does not know, for the second file: not
     caught *)
  /\ try_block_raises Sample.world_bad_encoding "hello.py"
     = Some ([EvConfigGet "Files" "encoding"; EvOpen "hello.py" "utf-9"],
             unknown)
  /\ open_files Sample.world_bad_encoding s
     = Raised unknown
         (with_trace (fun t => t ++ [EvConfigGet "Files" "encoding";
                                     EvOpen "hello.py" "utf-9"]) s2)
  (* the calls of the whole run *)
  /\ exists s',
       open_files Sample.world s = Returned tt s'
       /\ exists evs, trace s' = trace s ++ evs
            /\ forall ev e, ev ∈ evs -> raises Sample.world ev = Some e ->
                 in_try ev = true
                 /\ isinstance e [OSError; UnicodeError] = true.
Proof.
  intros s s1 missing unknown s2.
  pose proof (open_files_catches_exactly Sample.world s) as [Hcalls Hcaught].
  pose proof (open_files_catches_exactly Sample.world_bad_encoding s)
    as [_ Hother].
  split; [reflexivity|]. split.
  { exact (Hcaught [] "missing.txt" ["hello.py"; "binary.dat"] s1 _ missing
             eq_refl eq_refl eq_refl). }
  split; [reflexivity|]. split.
  { exact (Hother ["missing.txt"] "hello.py" ["binary.dat"] s2 _ unknown
             eq_refl eq_refl eq_refl). }
  destruct (open_files Sample.world s) as [[] s'|e s'] eqn:Hrun.
  - exists s'. split; [reflexivity|exact Hcalls].
  - exfalso. vm_compute in Hrun. discriminate Hrun.
Defined.


(** An exception of another class in the [try] block, here the
    LookupError of [open] for an encoding that Python does not know: the
    missing file before has had its dialog, this file gets none, the
    exception leaves [open_files], and the last file is not looked
    at. *)
Example open_files_with_unknown_encoding :
  open_files Sample.world_bad_encoding (fresh None)
  = Raised (mkExc LookupError "unknown encoding: utf-9")
           (with_trace (fun _ => [EvOpenFilesDialog None;
                                  EvConfigGet "Files" "encoding";
                                  EvOpen "missing.txt" "utf-9";
                                  EvLogException "opening 'missing.txt' failed";
                                  EvErrorDialog "FileNotFoundError"
                                    "Opening failed!" "Traceback: missing.txt";
                                  EvConfigGet "Files" "encoding";
                                  EvOpen "hello.py" "utf-9"])
                       (fresh None)).
Proof. vm_compute. reflexivity. Qed.

(** ** The Edit menu: [_setup_menus] *)


Lemma preserves_ret P {A} (a : A) : preserves P (ret a).
Proof. by intros s. Qed.

Lemma preserves_bind P {A B} (m : M State A) (k : A -> M State B) :
  preserves P m -> (forall a, preserves P (k a)) -> preserves P (bind m k).
Proof.
  intros Hm Hk s HP. unfold bind. specialize (Hm s HP).
  destruct (m s) as [a s1|e s1]; [by apply Hk|done].
Qed.

Lemma preserves_for_each P {A} (xs : list A) (body : A -> M State unit) :
  (forall x, preserves P (body x)) -> preserves P (for_each xs body).
Proof.
  intros Hbody. induction xs as [|x rest IH]; simpl.
  - apply preserves_ret.
  - apply preserves_bind; [apply Hbody|by intros _].
Qed.

Lemma preserves_modify P (f : State -> State) :
  (forall s, P s -> P (f s)) -> preserves P (modify f).
Proof. intros Hf s HP. by apply Hf. Qed.

Lemma preserves_get P : preserves P get.
Proof. by intros s. Qed.

Lemma preserves_foreign P w ev :
  (forall f s, P s -> P (with_trace f s)) -> preserves P (foreign w ev).
Proof.
  intros Hf s HP. unfold foreign. destruct (fails w ev); by apply Hf.
Qed.

Lemma keeps_edit_menu_trace f s :
  keeps_edit_menu s -> keeps_edit_menu (with_trace f s).
Proof. done. Qed.

(** A round of the loop over the styles adds its entry to the Color
    Themes menu. *)
Lemma add_theme_keeps w name : preserves keeps_edit_menu (add_theme w name).
Proof.
  unfold add_theme.
  apply preserves_bind;
    [apply preserves_foreign, keeps_edit_menu_trace|intros _].
  intros s (Hedit & Hthemes & Hentries).
  unfold bind, get_menu.
  change (split "/" "Color Themes") with ["Color Themes"].
  rewrite get_menu_from_cons, Hthemes. simpl.
  unfold keeps_edit_menu, with_menus. simpl. split_and!; [done..|].
  rewrite lookup_insert_ne; [done|]. unfold color_themes_menu, edit_menu. lia.
Qed.

(** [add_action] without a menu path leaves the menus alone. *)
Lemma add_action_binding_keeps callback accelerator binding tabtypes :
  preserves keeps_edit_menu
    (add_action callback None accelerator binding tabtypes).
Proof.
  intros s Hs. unfold add_action, bind, ret, modify.
  by destruct binding.
Qed.


Lemma with_actions_returned destroy_callback :
  (get_menu "Help" ;; setup_actions) (fresh destroy_callback)
  = Returned tt (with_actions destroy_callback).
Proof. vm_compute. reflexivity. Qed.

Lemma with_actions_keeps destroy_callback :
  keeps_edit_menu (with_actions destroy_callback).
Proof. split_and!; vm_compute; reflexivity. Qed.

Lemma init_split w s :
  __init__ w s
  = ((get_menu "Help" ;; setup_actions) ;;
     setup_themes w ;;
     modify (with_tab_changed_hook (fun h => h ++ [HookTabChanged])) ;;
     _tab_changed w None ;;
     for_each (tm_bindings w) (fun bc =>
       add_action (CbForeign bc.2) None None (Some bc.1) default_tabtypes)) s.
Proof.
  unfold __init__, _setup_menus, bind.
  destruct (get_menu "Help" s) as [menu s1|e s1]; [|done].
  destruct (setup_actions s1) as [[] s2|e s2]; done.
Qed.

(** The editor, once built, has the Edit menu of [edit_menu_entries]. *)
Lemma Editor_keeps_edit_menu w destroy_callback :
  keeps_edit_menu (state_of (Editor w destroy_callback)).
Proof.
  unfold Editor. rewrite init_split. unfold bind at 1.
  rewrite with_actions_returned.
  revert destroy_callback.
  assert (Hrest : preserves keeps_edit_menu
    (setup_themes w ;;
     modify (with_tab_changed_hook (fun h => h ++ [HookTabChanged])) ;;
     _tab_changed w None ;;
     for_each (tm_bindings w) (fun bc =>
       add_action (CbForeign bc.2) None None (Some bc.1) default_tabtypes))).
  { apply preserves_bind; [|intros _].
    { unfold setup_themes. apply preserves_bind; [|intros _].
      - apply preserves_for_each, add_theme_keeps.
      - apply preserves_foreign, keeps_edit_menu_trace. }
    apply preserves_bind; [by apply preserves_modify|intros _].
    apply preserves_bind; [|intros _].
    { unfold _tab_changed.
      apply preserves_bind; [apply preserves_get|intros s0].
      apply preserves_bind; [|intros _].
      { destruct (_tab_context_manager s0);
          [apply preserves_foreign, keeps_edit_menu_trace
          |apply preserves_ret]. }
      apply preserves_bind;
        [apply preserves_foreign, keeps_edit_menu_trace|intros _].
      apply preserves_bind; [by apply preserves_modify|intros _].
      apply preserves_foreign, keeps_edit_menu_trace. }
    apply preserves_for_each. intros bc. apply add_action_binding_keeps. }
  intros destroy_callback. apply Hrest, with_actions_keeps.
Qed.

Section EditMenu.
Variable w : World.

(** Choosing an entry that is not disabled runs its command. *)
Lemma invoke_runs_command menu index label command accelerator s :
  entries menu s !! index = Some (Command label command accelerator Normal) ->
  invoke w menu index s = call w command s.
Proof. intros Hentry. unfold invoke, bind, get. by rewrite Hentry. Qed.

(** C5: the text operations of the Edit menu only delegate.  In an editor
    that [__init__] has built, the Edit menu has for each of Undo, Redo,
    Cut, Copy and Paste exactly one entry of that label; its command is
    [textmethod] of the method of the same name (the label is the name
    with a capital), and whenever the current tab has a text widget,
    running the command is the call of that one method on that text
    widget and nothing else.  The entry Find and Replace has the command
    that calls [find] on the current tab itself. *)
Theorem edit_actions_delegate (destroy_callback : option string) (s : State) :
  Editor w destroy_callback = Returned tt s ->
  exists edit,
    get_menu "Edit" s = Returned edit s
    /\ (forall label method, (label, method) ∈ text_actions ->
          label = title method
          /\ commands_labelled label (entries edit s) = [CbTextMethod method]
          /\ forall s' tab textwidget,
               current_tab (tabmanager s') = Some tab ->
               tab_textwidget tab = Some textwidget ->
               call w (CbTextMethod method) s'
               = foreign w (EvTextMethod textwidget method []) s')
    /\ commands_labelled "Find and Replace" (entries edit s)
       = [CbTabMethod "find"]
    /\ forall s' tab,
         current_tab (tabmanager s') = Some tab ->
         call w (CbTabMethod "find") s' = tab_method w tab "find" s'.
Proof.
  intros Hbuilt.
  pose proof (Editor_keeps_edit_menu w destroy_callback) as Hkeeps.
  rewrite Hbuilt in Hkeeps. simpl in Hkeeps.
  destruct Hkeeps as (Hedit & _ & Hentries).
  exists edit_menu. split_and!.
  - unfold get_menu. change (split "/" "Edit") with ["Edit"].
    by rewrite get_menu_from_cons, Hedit.
  - intros label method Hin. unfold entries. rewrite Hentries.
    assert (Hcall : forall s' tab textwidget,
      current_tab (tabmanager s') = Some tab ->
      tab_textwidget tab = Some textwidget ->
      call w (CbTextMethod method) s'
      = foreign w (EvTextMethod textwidget method []) s').
    { intros s' tab textwidget Htab Hwidget.
      unfold call, textmethod, current_textwidget, bind, get.
      by rewrite Htab, Hwidget. }
    unfold text_actions in Hin. rewrite !elem_of_cons in Hin.
    destruct Hin as [Heq|[Heq|[Heq|[Heq|[Heq|Hin]]]]];
      [injection Heq as Hlabel Hmethod; subst label method;
       split_and!; [vm_compute; reflexivity..|exact Hcall] ..|].
    destruct (not_elem_of_nil _ Hin).
  - unfold entries. rewrite Hentries. vm_compute. reflexivity.
  - intros s' tab Htab. unfold call, bind, get. by rewrite Htab.
Qed.

End EditMenu.

(** The editor of the sample world, and Undo in it on a file tab. *)
Lemma edit_actions_in_sample_world :
  exists s edit,
    Editor Sample.world None = Returned tt s
    /\ get_menu "Edit" s = Returned edit s
    /\ commands_labelled "Undo" (entries edit s) = [CbTextMethod "undo"]
    /\ call Sample.world (CbTextMethod "undo") (with_file_tab s)
       = foreign Sample.world (EvTextMethod 7 "undo" []) (with_file_tab s).
Proof.
  assert (Hbuilt : exists s, Editor Sample.world None = Returned tt s).
  { vm_compute. eexists. reflexivity. }
  destruct Hbuilt as [s Hbuilt].
  destruct (edit_actions_delegate Sample.world None s Hbuilt)
    as (edit & Hmenu & Htext & _ & _).
  assert (Hin : ("Undo", "undo") ∈ text_actions).
  { unfold text_actions. constructor. }
  destruct (Htext "Undo" "undo" Hin) as (_ & Hcommand & Hcall).
  exists s, edit. split_and!; [exact Hbuilt|exact Hmenu|exact Hcommand|].
  apply (Hcall (with_file_tab s) Sample.a_file_tab 7); reflexivity.
Defined.

(** From the menu: a file tab is the current tab and the tab manager has
    run its hook, so the entries are enabled; the first entry of the Edit
    menu then calls [undo] on the text widget of the tab. *)
Example undo_from_the_menu :
  let s := with_file_tab (state_of (Editor Sample.world None)) in
  let s1 := state_of (run_tab_changed_hook Sample.world
                        (Some Sample.a_file_tab) s) in
  entries edit_menu s1 !! 0
  = Some (Command "Undo" (CbTextMethod "undo") (Some "Ctrl+Z") Normal)
  /\ invoke Sample.world edit_menu 0 s1
     = Returned tt (with_trace (fun t => t ++ [EvTextMethod 7 "undo" []]) s1)
  /\ invoke Sample.world edit_menu 0 s = Returned tt s.
Proof. split_and!; vm_compute; reflexivity. Qed.

End EditorFacts.

(* ===================================================================== *)
(** * More properties of the installer script *)
(* ===================================================================== *)

Module InstallerExtras.
Import Py Installer InstallerFacts.

(** ** [find_metadata] *)

(** [dict(pairs)[key]] is the value of the last pair with that key. *)
Lemma dict_lookup_last key pairs : dict pairs !! key = last_value key pairs.
Proof.
  unfold dict, last_value.
  induction pairs as [|[k v] pairs IH] using rev_ind; [done|].
  rewrite foldl_app, filter_app. simpl.
  destruct (decide (k = key)) as [->|Hne].
  - rewrite lookup_insert_eq. rewrite filter_cons_True by done.
    rewrite filter_nil, last_snoc. done.
  - rewrite lookup_insert_ne by done. rewrite filter_cons_False by done.
    rewrite filter_nil, app_nil_r. exact IH.
Qed.

(** X1: what [find_metadata] returns.  When it returns, the file
    [porcupine\__init__.py] is there, the directory is as before, the
    result has exactly the keys author, copyright, license and version,
    the version is the three numbers of [version_info] joined by dots,
    and each of the other three values is that of the last line that
    defines it. *)
Theorem find_metadata_result (w : World) (d d' : Dir)
    (metadata : gmap string string) :
  find_metadata w d = Returned metadata d' ->
  d' = d
  /\ dom metadata
     = ({["author"; "copyright"; "license"; "version"]} : gset string)
  /\ exists content a b c,
       files d !! "porcupine\__init__.py" = Some content
       /\ re_search_version_info w content = Some (a, b, c)
       /\ metadata !! "version" = Some (a +:+ "." +:+ b +:+ "." +:+ c)
       /\ forall key, key <> "version" ->
            metadata !! key = last_value key (re_findall_metadata w content).
Proof.
  intros Hrun.
  pose proof (find_metadata_state w d) as Hstate.
  rewrite Hrun in Hstate. simpl in Hstate. subst d'. split; [done|].
  unfold find_metadata, bind, assert, ret, raise, read_file in Hrun.
  destruct (files d !! "porcupine\__init__.py") as [content|] eqn:Hfile;
    [|by case_bool_decide].
  case_bool_decide as Hdom; [|done].
  destruct (re_search_version_info w content) as [[[a b] c]|] eqn:Hsearch;
    [|done].
  injection Hrun as <-. split.
  - rewrite dom_insert_L, Hdom. apply set_eq. intros x.
    rewrite !elem_of_union, !elem_of_singleton. tauto.
  - exists content, a, b, c. split_and!; [done..| |].
    + apply lookup_insert_eq.
    + intros key Hkey. rewrite lookup_insert_ne by done.
      apply dict_lookup_last.
Qed.

Lemma find_metadata_in_checkout :
  exists metadata,
    find_metadata Sample.world Sample.checkout
    = Returned metadata Sample.checkout
    /\ dom metadata
       = ({["author"; "copyright"; "license"; "version"]} : gset string)
    /\ metadata !! "version" = Some "0.3.0".
Proof.
  assert (Hrun : exists metadata,
    find_metadata Sample.world Sample.checkout
    = Returned metadata Sample.checkout).
  { vm_compute. eexists. reflexivity. }
  destruct Hrun as [metadata Hrun]. exists metadata.
  destruct (find_metadata_result _ _ _ _ Hrun)
    as (_ & Hdom & content & a & b & c & Hcontent & Hsearch & Hversion & _).
  split_and!; [exact Hrun|exact Hdom|].
  rewrite Hversion. vm_compute in Hcontent. injection Hcontent as <-.
  vm_compute in Hsearch. by injection Hsearch as <- <- <-.
Defined.

(** ** [get_frozen_requirements_in_a_crazy_way] *)

(** The outcome of the function once the virtual environment is made, by
    the outcome of its [try] block. *)
Lemma frozen_requirements_unfold w d :
  get_frozen_requirements_in_a_crazy_way w d
  = let d1 := with_spawned (fun t => t ++ [Spawn (venv_argv w)]) d in
    if (venv_exit w =? 0)%Z then
      let d2 := with_dirs (fun ds => {["temp_env"]} ∪ ds) d1 in
      let d3 := with_spawned (fun t => t ++ [Spawn pip_install_argv]) d2 in
      let d4 := with_spawned (fun t => t ++ [Spawn pip_freeze_argv]) d3 in
      let after body :=
        match body, rmtree "temp_venv" (state_of body) with
        | Returned frozen _, Returned _ d' =>
            Returned (filter (fun requirement =>
                                startswith "porcupine==" (lower requirement)
                                = false) frozen) d'
        | Raised e _, Returned _ d' => Raised e d'
        | _, Raised e d' => Raised e d'
        end in
      if (pip_install_exit w =? 0)%Z then
        if (pip_freeze_exit w =? 0)%Z then
          match pip_freeze_output w with
          | Some out => after (Returned (splitlines (strip out)) d4)
          | None => after (Raised (mkExc UnicodeDecodeError "utf-8") d4)
          end
        else after (Raised (mkExc CalledProcessError
                                  (join " " pip_freeze_argv)) d4)
      else after (Raised (mkExc CalledProcessError
                                (join " " pip_install_argv)) d3)
    else Raised (mkExc CalledProcessError (join " " (venv_argv w))) d1.
Proof.
  unfold get_frozen_requirements_in_a_crazy_way, bind, try_finally,
    check_output, check_call, bind, ret, raise.
  fold (venv_argv w). fold pip_install_argv. fold pip_freeze_argv.
  cbv zeta.
  destruct (venv_exit w =? 0)%Z; [|done].
  destruct (pip_install_exit w =? 0)%Z.
  - destruct (pip_freeze_exit w =? 0)%Z.
    + destruct (pip_freeze_output w); simpl;
        by destruct (rmtree "temp_venv" _).
    + simpl. by destruct (rmtree "temp_venv" _).
  - simpl. by destruct (rmtree "temp_venv" _).
Qed.

Lemma rmtree_returned path d d' :
  rmtree path d = Returned tt d' ->
  (path ∈ dirs d)
  /\ dirs d' = filter (fun p => p ≠ path ∧ inside path p = false) (dirs d)
  /\ files d' = filter (fun kv => inside path kv.1 = false) (files d)
  /\ spawned d' = spawned d.
Proof.
  unfold rmtree. case_bool_decide as Hin.
  - by intros [= <-].
  - by case_bool_decide.
Qed.

Lemma rmtree_raised path d e d' :
  rmtree path d = Raised e d' ->
  (path ∉ dirs d) /\ d' = d
  /\ (exc_type e = FileNotFoundError \/ exc_type e = NotADirectoryError).
Proof.
  unfold rmtree. case_bool_decide as Hin; [done|].
  case_bool_decide; intros [= <- <-]; auto.
Qed.

(** What has happened when the function returns. *)
Lemma frozen_requirements_outcome w d d' frozen :
  get_frozen_requirements_in_a_crazy_way w d = Returned frozen d' ->
  (venv_exit w = 0 /\ pip_install_exit w = 0 /\ pip_freeze_exit w = 0)%Z
  /\ ("temp_venv" ∈ dirs d)
  /\ spawned d' = spawned d ++ [Spawn (venv_argv w); Spawn pip_install_argv;
                                Spawn pip_freeze_argv].
Proof.
  rewrite frozen_requirements_unfold. cbv zeta.
  destruct (venv_exit w =? 0)%Z eqn:Hvenv; [|done].
  destruct (pip_install_exit w =? 0)%Z eqn:Hinstall.
  2: { simpl. by destruct (rmtree "temp_venv" _). }
  destruct (pip_freeze_exit w =? 0)%Z eqn:Hfreeze.
  2: { simpl. by destruct (rmtree "temp_venv" _). }
  destruct (pip_freeze_output w) as [out|].
  2: { simpl. by destruct (rmtree "temp_venv" _). }
  simpl. destruct (rmtree "temp_venv" _) as [[] d2|e d2] eqn:Hrm; [|done].
  intros [= <- <-].
  apply rmtree_returned in Hrm as (Hin & _ & _ & Hspawned).
  simpl in Hin, Hspawned.
  apply Z.eqb_eq in Hvenv, Hinstall, Hfreeze.
  split; [done|]. split.
  - apply elem_of_union in Hin as [Heq%elem_of_singleton|Hin];
      [discriminate Heq|done].
  - rewrite Hspawned. by rewrite <- !app_assoc.
Qed.

(** X2: when [get_frozen_requirements_in_a_crazy_way] returns.  Then the
    three processes (venv, pip install, pip freeze) have all ended with
    exit code 0, a directory [temp_venv] was there before and has been
    removed, the virtual environment [temp_env] that the function made is
    still there, and no requirement of the result starts with
    [porcupine==], in whatever case. *)
Theorem frozen_requirements_returned (w : World) (d d' : Dir)
    (frozen : list string) :
  get_frozen_requirements_in_a_crazy_way w d = Returned frozen d' ->
  (venv_exit w = 0 /\ pip_install_exit w = 0 /\ pip_freeze_exit w = 0)%Z
  /\ ("temp_venv" ∈ dirs d)
  /\ ("temp_venv" ∉ dirs d')
  /\ ("temp_env" ∈ dirs d')
  /\ spawned d' = spawned d ++ [Spawn (venv_argv w); Spawn pip_install_argv;
                                Spawn pip_freeze_argv]
  /\ forall requirement, requirement ∈ frozen ->
       startswith "porcupine==" (lower requirement) = false.
Proof.
  rewrite frozen_requirements_unfold. cbv zeta.
  destruct (venv_exit w =? 0)%Z eqn:Hvenv; [|done].
  destruct (pip_install_exit w =? 0)%Z eqn:Hinstall.
  2: { simpl. by destruct (rmtree "temp_venv" _). }
  destruct (pip_freeze_exit w =? 0)%Z eqn:Hfreeze.
  2: { simpl. by destruct (rmtree "temp_venv" _). }
  destruct (pip_freeze_output w) as [out|].
  2: { simpl. by destruct (rmtree "temp_venv" _). }
  simpl. destruct (rmtree "temp_venv" _) as [[] d2|e d2] eqn:Hrm; [|done].
  intros [= <- <-].
  apply rmtree_returned in Hrm as (Hin & Hdirs & Hfiles & Hspawned).
  simpl in Hin, Hdirs, Hspawned.
  apply Z.eqb_eq in Hvenv, Hinstall, Hfreeze.
  split_and!; [done..| | | | |].
  - apply elem_of_union in Hin as [Heq%elem_of_singleton|Hin];
      [discriminate Heq|done].
  - rewrite Hdirs. intros [[Hne _] _]%elem_of_filter. done.
  - rewrite Hdirs. apply elem_of_filter. split_and!.
    + discriminate.
    + vm_compute. reflexivity.
    + apply elem_of_union. left. by apply elem_of_singleton.
  - rewrite Hspawned. by rewrite <- !app_assoc.
  - intros requirement Hreq. by apply list_elem_of_filter in Hreq as [? _].
Qed.

Lemma frozen_requirements_with_temp_venv :
  exists frozen d',
    get_frozen_requirements_in_a_crazy_way Sample.world
      Sample.checkout_with_temp_venv = Returned frozen d'
    /\ frozen = ["Pygments==2.2.0"]
    /\ ("temp_venv" ∉ dirs d')
    /\ ("temp_env" ∈ dirs d').
Proof.
  assert (Hrun : exists d',
    get_frozen_requirements_in_a_crazy_way Sample.world
      Sample.checkout_with_temp_venv = Returned ["Pygments==2.2.0"] d').
  { vm_compute. eexists. reflexivity. }
  destruct Hrun as [d' Hrun]. exists ["Pygments==2.2.0"], d'.
  destruct (frozen_requirements_returned _ _ _ _ Hrun)
    as (_ & _ & Hgone & Hkept & _).
  by split_and!.
Defined.

(** X3: the error of the cleanup hides the error of pip.  Once the
    virtual environment is made, in a directory without [temp_venv] the
    function raises the error of [shutil.rmtree] (FileNotFoundError, or
    NotADirectoryError when [temp_venv] is a file), also when
    [pip install] or [pip freeze] has failed: the CalledProcessError of
    pip never reaches the caller. *)
Theorem cleanup_error_hides_pip_error (w : World) (d : Dir) :
  venv_exit w = 0%Z ->
  "temp_venv" ∉ dirs d ->
  exists e d',
    get_frozen_requirements_in_a_crazy_way w d = Raised e d'
    /\ (exc_type e = FileNotFoundError \/ exc_type e = NotADirectoryError)
    /\ (Spawn pip_install_argv ∈ spawned d').
Proof.
  intros Hvenv Hno.
  rewrite frozen_requirements_unfold. cbv zeta.
  rewrite Hvenv. simpl (0 =? 0)%Z. cbv iota.
  set (d2 := with_dirs _ _).
  assert (Hno2 : forall t, "temp_venv" ∉ dirs (with_spawned t d2)).
  { intros t. simpl.
    intros [Heq%elem_of_singleton|Hin]%elem_of_union;
      [discriminate Heq|done]. }
  assert (Hclean : forall t,
    exists e, rmtree "temp_venv" (with_spawned t d2)
              = Raised e (with_spawned t d2)
              /\ (exc_type e = FileNotFoundError
                  \/ exc_type e = NotADirectoryError)).
  { intros t. destruct (rmtree "temp_venv" (with_spawned t d2))
      as [[] d3|e d3] eqn:Hrm.
    - apply rmtree_returned in Hrm as [Hin _]. by destruct (Hno2 t).
    - apply rmtree_raised in Hrm as (_ & -> & Htype). by exists e. }
  destruct (pip_install_exit w =? 0)%Z.
  - destruct (pip_freeze_exit w =? 0)%Z; [destruct (pip_freeze_output w)|];
      simpl state_of;
      match goal with
      | |- context [rmtree "temp_venv" ?d3] =>
          change d3 with
            (with_spawned (fun t => (t ++ [Spawn pip_install_argv])
                                    ++ [Spawn pip_freeze_argv]) d2);
          destruct (Hclean (fun t => (t ++ [Spawn pip_install_argv])
                                     ++ [Spawn pip_freeze_argv]))
            as (e & -> & Htype)
      end;
      (eexists _, _; split_and!; [reflexivity|exact Htype|]);
      simpl; rewrite !elem_of_app; left; right; constructor.
  - simpl state_of.
    match goal with
    | |- context [rmtree "temp_venv" ?d3] =>
        change d3 with
          (with_spawned (fun t => t ++ [Spawn pip_install_argv]) d2);
        destruct (Hclean (fun t => t ++ [Spawn pip_install_argv]))
          as (e & -> & Htype)
    end.
    eexists _, _; split_and!; [reflexivity|exact Htype|].
    simpl. rewrite !elem_of_app. right. constructor.
Qed.

Lemma cleanup_error_when_pip_fails :
  venv_exit world_pip_fails = 0%Z
  /\ ("temp_venv" ∉ dirs Sample.checkout)
  /\ pip_install_exit world_pip_fails = 1%Z
  /\ exists e d',
       get_frozen_requirements_in_a_crazy_way world_pip_fails Sample.checkout
       = Raised e d'
       /\ (exc_type e = FileNotFoundError
           \/ exc_type e = NotADirectoryError)
       /\ (Spawn pip_install_argv ∈ spawned d').
Proof.
  assert (Hno : "temp_venv" ∉ dirs Sample.checkout).
  { apply (bool_decide_unpack _). vm_compute. exact I. }
  split_and!; [reflexivity|exact Hno|reflexivity|].
  exact (cleanup_error_hides_pip_error world_pip_fails Sample.checkout
           eq_refl Hno).
Defined.

(** ** [create_pynsist_cfg] and [main] *)

(** The processes of [get_frozen_requirements_in_a_crazy_way], however it
    ends. *)
Lemma frozen_requirements_spawned w d :
  exists evs,
    spawned (state_of (get_frozen_requirements_in_a_crazy_way w d))
    = spawned d ++ evs
    /\ evs `prefix_of`
         [Spawn (venv_argv w); Spawn pip_install_argv; Spawn pip_freeze_argv].
Proof.
  assert (Hrm : forall d0, spawned (state_of (rmtree "temp_venv" d0))
                           = spawned d0).
  { intros d0. destruct (rmtree "temp_venv" d0) as [[] d1|e d1] eqn:Hrm.
    - by apply rmtree_returned in Hrm as (_ & _ & _ & Hs).
    - by apply rmtree_raised in Hrm as (_ & -> & _). }
  rewrite frozen_requirements_unfold. cbv zeta.
  destruct (venv_exit w =? 0)%Z.
  2: { exists [Spawn (venv_argv w)]. split; [done|]. by eexists [_; _]. }
  destruct (pip_install_exit w =? 0)%Z.
  - exists [Spawn (venv_argv w); Spawn pip_install_argv;
            Spawn pip_freeze_argv].
    split; [|done].
    destruct (pip_freeze_exit w =? 0)%Z; [destruct (pip_freeze_output w)|];
      simpl state_of;
      match goal with |- context [rmtree "temp_venv" ?d0] =>
        specialize (Hrm d0); destruct (rmtree "temp_venv" d0) end;
      simpl in *; rewrite Hrm; by rewrite <- !app_assoc.
  - exists [Spawn (venv_argv w); Spawn pip_install_argv].
    split; [|by eexists [_]].
    simpl state_of.
    match goal with |- context [rmtree "temp_venv" ?d0] =>
      specialize (Hrm d0); destruct (rmtree "temp_venv" d0) end;
    simpl in *; rewrite Hrm; by rewrite <- !app_assoc.
Qed.

(** [parser[section] = options] on a parser without that section. *)
Lemma set_section_returned w section options parser parser' d d' :
  set_section w section options parser d = Returned parser' d' ->
  d' = d
  /\ parser'
     = (if existsb (fun s => bool_decide (s.1 = section)) parser
        then (fun s => if bool_decide (s.1 = section)
                       then (section, (fun kv => (lower kv.1, kv.2)) <$> options)
                       else s) <$> parser
        else parser ++ [(section, (fun kv => (lower kv.1, kv.2)) <$> options)]).
Proof.
  intros Hrun. pose proof (set_section_state w section options parser d) as Hd.
  rewrite Hrun in Hd. simpl in Hd. subst d'. split; [done|].
  unfold set_section, bind, ret in Hrun.
  destruct (for_each options _ d) as [[] d1|e d1]; [|done].
  by injection Hrun as <- _.
Qed.

(** What [create_pynsist_cfg] has done when it returns: the metadata
    read, the requirements frozen, the three sections written. *)
Lemma create_pynsist_cfg_returned w d d' :
  create_pynsist_cfg w d = Returned tt d' ->
  exists metadata version frozen d1,
    find_metadata w d = Returned metadata d
    /\ metadata !! "version" = Some version
    /\ get_frozen_requirements_in_a_crazy_way w d = Returned frozen d1
    /\ d' = with_files
              (insert "pynsist.cfg" (render (pynsist_config w version frozen)))
              d1.
Proof.
  unfold create_pynsist_cfg. unfold bind at 1.
  pose proof (find_metadata_state w d) as Hmeta.
  destruct (find_metadata w d) as [metadata d0|e d0]; [|done].
  simpl in Hmeta. subst d0. unfold bind at 1.
  destruct (metadata !! "version") as [version|] eqn:Hversion; [|done].
  unfold ret at 1. unfold bind at 1.
  destruct (set_section w "Application" _ [] d) as [parser1 d0|e d0] eqn:H1;
    [|done].
  apply set_section_returned in H1 as [-> ->].
  unfold bind at 1.
  destruct (set_section w "Python" _ _ d) as [parser2 d0|e d0] eqn:H2;
    [|done].
  apply set_section_returned in H2 as [-> ->].
  unfold bind at 1.
  destruct (get_frozen_requirements_in_a_crazy_way w d)
    as [frozen d1|e d1] eqn:Hfrozen; [|done].
  unfold bind at 1.
  destruct (set_section w "Include" _ _ d1) as [parser3 d0|e d0] eqn:H3;
    [|done].
  apply set_section_returned in H3 as [-> ->].
  unfold write_file. case_bool_decide; [done|]. intros [= <-].
  exists metadata, version, frozen, d1. split_and!; [done..|].
  reflexivity.
Qed.

(** What [get_frozen_requirements_in_a_crazy_way] returns: the lines
    that [pip freeze] has printed, without those of porcupine. *)
Lemma frozen_requirements_value w d frozen d' :
  get_frozen_requirements_in_a_crazy_way w d = Returned frozen d' ->
  exists out,
    pip_freeze_output w = Some out
    /\ frozen = filter (fun requirement =>
                          startswith "porcupine==" (lower requirement) = false)
                       (splitlines (strip out)).
Proof.
  rewrite frozen_requirements_unfold. cbv zeta.
  destruct (venv_exit w =? 0)%Z; [|done].
  destruct (pip_install_exit w =? 0)%Z.
  - destruct (pip_freeze_exit w =? 0)%Z.
    + destruct (pip_freeze_output w) as [out|].
      * simpl state_of.
        match goal with |- context [rmtree "temp_venv" ?d0] =>
          destruct (rmtree "temp_venv" d0) end; [|done].
        intros [= <- _]. by exists out.
      * simpl state_of.
        match goal with |- context [rmtree "temp_venv" ?d0] =>
          destruct (rmtree "temp_venv" d0) end; done.
    + simpl state_of.
      match goal with |- context [rmtree "temp_venv" ?d0] =>
        destruct (rmtree "temp_venv" d0) end; done.
  - simpl state_of.
    match goal with |- context [rmtree "temp_venv" ?d0] =>
      destruct (rmtree "temp_venv" d0) end; done.
Qed.

(** X4: the packaging command runs only on a configuration that this run
    has written.  However the script ends: if it has started
    [python -m nsist pynsist.cfg], that was the last process it started,
    the platform is Windows, [find_metadata] has returned, [pip freeze]
    has printed text, and [pynsist.cfg] holds the three sections
    Application, Python and Include, made of the version that
    [find_metadata] gives and of the lines that [pip freeze] printed,
    without those of porcupine itself. *)
Theorem pynsist_runs_on_written_cfg (w : World) (d : Dir) :
  exists evs,
    spawned (state_of (script w d)) = spawned d ++ evs
    /\ (Spawn (nsist_argv w) ∈ evs ->
        platform_system w = "Windows"
        /\ last evs = Some (Spawn (nsist_argv w))
        /\ exists metadata version out,
             find_metadata w d = Returned metadata d
             /\ metadata !! "version" = Some version
             /\ pip_freeze_output w = Some out
             /\ files (state_of (script w d)) !! "pynsist.cfg"
                = Some (render
                          (pynsist_config w version
                             (filter (fun requirement =>
                                        startswith "porcupine=="
                                                   (lower requirement)
                                        = false)
                                     (splitlines (strip out)))))).
Proof.
  unfold script, bind, assert. case_bool_decide as Hwin; unfold ret, raise.
  2: { exists []. split; [simpl; by rewrite app_nil_r|].
       intros Hin. destruct (not_elem_of_nil _ Hin). }
  unfold main, bind.
  destruct (create_pynsist_cfg w d) as [[] d1|e d1] eqn:Hcfg.
  - apply create_pynsist_cfg_returned in Hcfg
      as (metadata & version & frozen & d2 & Hmeta & Hversion & Hfrozen & ->).
    pose proof (frozen_requirements_outcome _ _ _ _ Hfrozen)
      as (_ & _ & Hspawned).
    destruct (frozen_requirements_value _ _ _ _ Hfrozen) as (out & Hout & ->).
    rewrite run_pynsist_outcome.
    exists [Spawn (venv_argv w); Spawn pip_install_argv;
            Spawn pip_freeze_argv; Spawn (nsist_argv w)].
    split.
    + destruct (nsist_exit w =? 0)%Z; simpl; rewrite Hspawned;
        by rewrite <- !app_assoc.
    + intros _. split; [done|]. split; [done|].
      exists metadata, version, out.
      split; [done|]. split; [done|]. split; [done|].
      destruct (nsist_exit w =? 0)%Z; simpl; apply lookup_insert_eq.
  - pose proof (frozen_requirements_spawned w d) as (evs & Hspawned & Hprefix).
    assert (Hevs : exists evs,
      spawned d1 = spawned d ++ evs
      /\ evs `prefix_of` [Spawn (venv_argv w); Spawn pip_install_argv;
                          Spawn pip_freeze_argv]).
    { assert (Hstop : spawned d = spawned d ++ []) by by rewrite app_nil_r.
      revert Hcfg. unfold create_pynsist_cfg. unfold bind at 1.
      pose proof (find_metadata_state w d) as Hmeta.
      destruct (find_metadata w d) as [metadata d0|e0 d0]; simpl in Hmeta;
        subst d0; [|intros [= _ <-]; exists []; split; [done|apply prefix_nil]].
      unfold bind at 1.
      destruct (metadata !! "version") as [version|];
        [|intros [= _ <-]; exists []; split; [done|apply prefix_nil]].
      unfold ret at 1. unfold bind at 1.
      match goal with |- context [set_section w ?a ?b ?c d] =>
        pose proof (set_section_state w a b c d) as Hset;
        destruct (set_section w a b c d) as [parser1 d0|e0 d0];
        simpl in Hset; subst d0;
        [|intros [= _ <-]; exists []; split; [done|apply prefix_nil]] end.
      unfold bind at 1.
      match goal with |- context [set_section w ?a ?b ?c d] =>
        pose proof (set_section_state w a b c d) as Hset;
        destruct (set_section w a b c d) as [parser2 d0|e0 d0];
        simpl in Hset; subst d0;
        [|intros [= _ <-]; exists []; split; [done|apply prefix_nil]] end.
      unfold bind at 1.
      destruct (get_frozen_requirements_in_a_crazy_way w d)
        as [frozen d2|e0 d2]; simpl in Hspawned;
        [|intros [= _ <-]; by exists evs].
      unfold bind at 1.
      match goal with |- context [set_section w ?a ?b ?c d2] =>
        pose proof (set_section_state w a b c d2) as Hset;
        destruct (set_section w a b c d2) as [parser3 d0|e0 d0];
        simpl in Hset; subst d0; [|intros [= _ <-]; by exists evs] end.
      unfold write_file. case_bool_decide; [|done].
      intros [= _ <-]. by exists evs. }
    destruct Hevs as (evs' & Hspawned' & Hprefix').
    exists evs'. split; [done|]. intros Hin.
    eapply elem_of_prefix in Hin; [|exact Hprefix'].
    rewrite !elem_of_cons in Hin. unfold nsist_argv, venv_argv in Hin.
    destruct Hin as [Heq|[Heq|[Heq|Hin]]]; try discriminate Heq.
    destruct (not_elem_of_nil _ Hin).
Qed.

Lemma pynsist_runs_in_sample :
  exists evs,
    spawned (state_of (script Sample.world Sample.checkout_with_temp_venv))
    = spawned Sample.checkout_with_temp_venv ++ evs
    /\ (Spawn (nsist_argv Sample.world) ∈ evs)
    /\ exists metadata version out,
         find_metadata Sample.world Sample.checkout_with_temp_venv
         = Returned metadata Sample.checkout_with_temp_venv
         /\ metadata !! "version" = Some version
         /\ pip_freeze_output Sample.world = Some out
         /\ files (state_of (script Sample.world
                               Sample.checkout_with_temp_venv))
              !! "pynsist.cfg"
            = Some (render
                      (pynsist_config Sample.world version
                         (filter (fun requirement =>
                                    startswith "porcupine=="
                                               (lower requirement)
                                    = false)
                                 (splitlines (strip out))))).
Proof.
  destruct (pynsist_runs_on_written_cfg Sample.world
              Sample.checkout_with_temp_venv) as (evs & Hspawned & Hcfg).
  exists evs. split; [exact Hspawned|].
  assert (Hin : Spawn (nsist_argv Sample.world) ∈ evs).
  { vm_compute in Hspawned. rewrite <- Hspawned. rewrite !elem_of_cons.
    right. right. right. left. reflexivity. }
  split; [exact Hin|].
  destruct (Hcfg Hin) as (_ & _ & Hwritten). exact Hwritten.
Defined.

(** The configuration that the sample run has written. *)
Example pynsist_cfg_of_the_sample :
  files (state_of (script Sample.world Sample.checkout_with_temp_venv))
    !! "pynsist.cfg"
  = Some (render (pynsist_config Sample.world "0.3.0" ["Pygments==2.2.0"])).
Proof. vm_compute. reflexivity. Qed.

(** ** [get_requirements] *)

Lemma rstrip_cons c rest :
  is_space c = false -> rstrip (String c rest) = String c (rstrip rest).
Proof. intros Hc. simpl. rewrite Hc. by destruct (rstrip rest). Qed.

Lemma rstrip_unfold c s :
  rstrip (String c s)
  = match rstrip s with
    | EmptyString => if is_space c then EmptyString else String c EmptyString
    | r => String c r
    end.
Proof. reflexivity. Qed.

Lemma rstrip_idem s : rstrip (rstrip s) = rstrip s.
Proof.
  induction s as [|c rest IH]; [done|].
  rewrite rstrip_unfold. destruct (rstrip rest) as [|c' r] eqn:Hrest.
  - destruct (is_space c) eqn:Hc; [done|].
    rewrite rstrip_unfold. simpl rstrip. by rewrite Hc.
  - rewrite rstrip_unfold. by rewrite IH.
Qed.

Lemma lstrip_head s :
  lstrip s = EmptyString
  \/ exists c rest, lstrip s = String c rest /\ is_space c = false.
Proof.
  induction s as [|c rest IH]; [by left|].
  simpl. destruct (is_space c) eqn:Hc; [exact IH|].
  right. by exists c, rest.
Qed.

(** [strip] leaves a stripped string as it is. *)
Lemma strip_idem s : strip (strip s) = strip s.
Proof.
  unfold strip. destruct (lstrip_head s) as [->|(c & rest & -> & Hc)];
    [done|].
  rewrite (rstrip_cons _ _ Hc). simpl lstrip. rewrite Hc.
  rewrite (rstrip_cons _ _ Hc). by rewrite rstrip_idem.
Qed.

(** X5: the requirements of [get_requirements].  They are the lines of
    [requirements.txt], as iterating over the file gives them (a line
    ends at a line feed, a carriage return, or both), each with the
    white space around it removed, in the order of the file and as often
    as they are there, without the empty ones and without those that
    then start with [#] (so a comment after leading spaces is dropped
    too).  No requirement has white space at either end.  The directory
    is not changed. *)
Theorem get_requirements_lines (d d' : Dir) (requirements : list string) :
  get_requirements d = Returned requirements d' ->
  d' = d
  /\ exists content,
       files d !! "requirements.txt" = Some content
       /\ requirements
          = filter (fun r => startswith "#" r = false ∧ r ≠ EmptyString)
                   (strip <$> file_lines content)
       /\ forall r, r ∈ requirements -> strip r = r.
Proof.
  unfold get_requirements, bind, ret.
  destruct (read_file "requirements.txt" d) as [content d1|e d1] eqn:Hread;
    [|done].
  intros [= <- <-]. pose proof (read_file_state _ _ _ _ Hread) as ->.
  split; [done|]. exists content.
  unfold read_file in Hread.
  destruct (files d !! "requirements.txt") as [content'|];
    [|by case_bool_decide].
  injection Hread as ->. split_and!; [done..|].
  intros r [_ Hin]%list_elem_of_filter.
  apply list_elem_of_fmap in Hin as (line & -> & _). apply strip_idem.
Qed.

Lemma get_requirements_with_comments :
  get_requirements checkout_with_comments
  = Returned ["pygments"; "docutils"; "pygments"] checkout_with_comments
  /\ exists content,
       files checkout_with_comments !! "requirements.txt" = Some content
       /\ ["pygments"; "docutils"; "pygments"]
          = filter (fun r => startswith "#" r = false ∧ r ≠ EmptyString)
                   (strip <$> file_lines content)
       /\ forall r, r ∈ ["pygments"; "docutils"; "pygments"] -> strip r = r.
Proof.
  assert (Hrun : get_requirements checkout_with_comments
                 = Returned ["pygments"; "docutils"; "pygments"]
                            checkout_with_comments).
  { vm_compute. reflexivity. }
  split; [exact Hrun|].
  destruct (get_requirements_lines _ _ _ Hrun) as (_ & Hlines).
  exact Hlines.
Defined.


(** ** The processes of the script *)

Lemma frozen_requirements_processes w d :
  spawned (state_of (get_frozen_requirements_in_a_crazy_way w d))
  = spawned d ++ pip_processes w.
Proof.
  assert (Hrm : forall d0, spawned (state_of (rmtree "temp_venv" d0))
                           = spawned d0).
  { intros d0. destruct (rmtree "temp_venv" d0) as [[] d1|e d1] eqn:Hrm.
    - by apply rmtree_returned in Hrm as (_ & _ & _ & Hs).
    - by apply rmtree_raised in Hrm as (_ & -> & _). }
  rewrite frozen_requirements_unfold. unfold pip_processes. cbv zeta.
  destruct (venv_exit w =? 0)%Z; [|done].
  destruct (pip_install_exit w =? 0)%Z.
  - destruct (pip_freeze_exit w =? 0)%Z; [destruct (pip_freeze_output w)|];
      simpl state_of;
      match goal with |- context [rmtree "temp_venv" ?d0] =>
        specialize (Hrm d0); destruct (rmtree "temp_venv" d0) end;
      simpl in *; rewrite Hrm; by rewrite <- !app_assoc.
  - simpl state_of.
    match goal with |- context [rmtree "temp_venv" ?d0] =>
      specialize (Hrm d0); destruct (rmtree "temp_venv" d0) end;
    simpl in *; rewrite Hrm; by rewrite <- !app_assoc.
Qed.

(** The state that [create_pynsist_cfg] leaves is the one it began with,
    or one after the processes of the frozen requirements. *)
Lemma create_pynsist_cfg_cases w d (P : Dir -> Prop) :
  P d ->
  (forall metadata d2,
     find_metadata w d = Returned metadata d ->
     spawned d2 = spawned d ++ pip_processes w -> P d2) ->
  P (state_of (create_pynsist_cfg w d)).
Proof.
  intros Hsame Hpip.
  unfold create_pynsist_cfg. unfold bind at 1.
  pose proof (find_metadata_state w d) as Hmeta.
  destruct (find_metadata w d) as [metadata d0|e0 d0]; simpl in Hmeta;
    subst d0; [|exact Hsame].
  specialize (Hpip metadata). unfold bind at 1.
  destruct (metadata !! "version") as [version|]; [|exact Hsame].
  unfold ret at 1. unfold bind at 1.
  match goal with |- context [set_section w ?a ?b ?c d] =>
    pose proof (set_section_state w a b c d) as Hset;
    destruct (set_section w a b c d) as [parser1 d0|e0 d0];
    simpl in Hset; subst d0; [|exact Hsame] end.
  unfold bind at 1.
  match goal with |- context [set_section w ?a ?b ?c d] =>
    pose proof (set_section_state w a b c d) as Hset;
    destruct (set_section w a b c d) as [parser2 d0|e0 d0];
    simpl in Hset; subst d0; [|exact Hsame] end.
  pose proof (frozen_requirements_processes w d) as Hspawned.
  unfold bind at 1.
  destruct (get_frozen_requirements_in_a_crazy_way w d)
    as [frozen d2|e0 d2]; simpl in Hspawned; [|by apply Hpip].
  unfold bind at 1.
  match goal with |- context [set_section w ?a ?b ?c d2] =>
    pose proof (set_section_state w a b c d2) as Hset;
    destruct (set_section w a b c d2) as [parser3 d0|e0 d0];
    simpl in Hset; subst d0; [|by apply Hpip] end.
  unfold write_file. case_bool_decide; by apply Hpip.
Qed.

Lemma create_pynsist_cfg_processes w d :
  let d1 := state_of (create_pynsist_cfg w d) in
  (spawned d1 = spawned d
   \/ (spawned d1 = spawned d ++ pip_processes w
       /\ exists metadata, find_metadata w d = Returned metadata d))
  /\ (returned (create_pynsist_cfg w d) = true ->
      spawned d1 = spawned d ++ pip_processes w
      /\ (exists metadata, find_metadata w d = Returned metadata d)
      /\ (venv_exit w = 0 /\ pip_install_exit w = 0
          /\ pip_freeze_exit w = 0)%Z
      /\ ("temp_venv" ∈ dirs d)).
Proof.
  intros d1. split.
  - unfold d1. apply create_pynsist_cfg_cases; [by left|].
    intros metadata d2 Hmeta Hspawned. right. split; [done|by exists metadata].
  - unfold d1.
    destruct (create_pynsist_cfg w d) as [[] d2|e d2] eqn:Hcfg; [|done].
    intros _.
    apply create_pynsist_cfg_returned in Hcfg
      as (metadata & version & frozen & d3 & Hmeta & _ & Hfrozen & ->).
    pose proof (frozen_requirements_processes w d) as Hspawned.
    rewrite Hfrozen in Hspawned.
    apply frozen_requirements_outcome in Hfrozen
      as (Hcodes & Htemp & _).
    split; [exact Hspawned|]. split; [by exists metadata|].
    split; [exact Hcodes|exact Htemp].
Qed.

(** X24: the processes of the script, in their order.  However the
    script ends, the processes it has started are none, or those of the
    frozen requirements (venv, then [pip install] if venv exited with 0,
    then [pip freeze] if [pip install] exited with 0), or those three and
    then pynsist.  It starts a process only on Windows and when the
    metadata of [porcupine/__init__.py] could be read; it starts pynsist
    only when the three others have exited with 0 and a directory
    [temp_venv] was there when the script began. *)
Theorem script_processes (w : World) (d : Dir) :
  exists evs,
    spawned (state_of (script w d)) = spawned d ++ evs
    /\ (evs = [] \/ evs = pip_processes w
        \/ evs = pip_processes w ++ [Spawn (nsist_argv w)])
    /\ (evs <> [] ->
        platform_system w = "Windows"
        /\ exists metadata, find_metadata w d = Returned metadata d)
    /\ (Spawn (nsist_argv w) ∈ evs ->
        (venv_exit w = 0 /\ pip_install_exit w = 0 /\ pip_freeze_exit w = 0)%Z
        /\ ("temp_venv" ∈ dirs d)).
Proof.
  assert (Hnot : Spawn (nsist_argv w) ∉ pip_processes w).
  { unfold pip_processes, nsist_argv, venv_argv. intros Hin.
    apply elem_of_cons in Hin as [Heq|Hin]; [discriminate Heq|].
    destruct (venv_exit w =? 0)%Z; [|destruct (not_elem_of_nil _ Hin)].
    apply elem_of_cons in Hin as [Heq|Hin]; [discriminate Heq|].
    destruct (pip_install_exit w =? 0)%Z; [|destruct (not_elem_of_nil _ Hin)].
    apply list_elem_of_singleton in Hin. discriminate Hin. }
  unfold script, bind, assert. case_bool_decide as Hwin; unfold ret, raise.
  2: { exists []. split_and!; [simpl; by rewrite app_nil_r|by left|done|].
       intros Hin. destruct (not_elem_of_nil _ Hin). }
  unfold main, bind.
  destruct (create_pynsist_cfg_processes w d) as [Hspawned Hreturned].
  destruct (create_pynsist_cfg w d) as [[] d1|e d1] eqn:Hcfg; simpl in *.
  - destruct (Hreturned eq_refl) as (Hs & Hmeta & Hcodes & Htemp).
    rewrite run_pynsist_outcome.
    exists (pip_processes w ++ [Spawn (nsist_argv w)]).
    split; [|split; [by right; right|split; [done|done]]].
    destruct (nsist_exit w =? 0)%Z; simpl; rewrite Hs; by rewrite <- app_assoc.
  - destruct Hspawned as [Hs|[Hs Hmeta]].
    + exists []. split_and!; [by rewrite app_nil_r|by left|done|].
      intros Hin. destruct (not_elem_of_nil _ Hin).
    + exists (pip_processes w).
      split_and!; [done|by right; left|done|]. intros Hin. by destruct Hnot.
Qed.

End InstallerExtras.

(* ===================================================================== *)
(** * More properties of the editor *)
(* ===================================================================== *)

Module EditorExtras.
Import Py Editor EditorFacts.
Local Open Scope py_scope.

(** ** The menus and the table [_submenus] *)

Lemma elem_of_insert_at {A} (x y : A) (i : nat) (l : list A) :
  y ∈ take i l ++ x :: drop i l <-> y = x \/ y ∈ l.
Proof.
  rewrite elem_of_app, elem_of_cons.
  assert (Hsplit : y ∈ l <-> y ∈ take i l \/ y ∈ drop i l).
  { rewrite <- elem_of_app. by rewrite take_drop. }
  tauto.
Qed.

(** What [make_submenu] changes, for a parent menu that exists. *)
Lemma make_submenu_effect current_menu label s :
  current_menu < next_menu s ->
  let s' := (make_submenu current_menu label s).2 in
  (make_submenu current_menu label s).1 = next_menu s
  /\ next_menu s' = S (next_menu s)
  /\ menus s'
     = <[current_menu := with_cascade current_menu label (next_menu s)
                           (entries current_menu s)]>
         (<[next_menu s := []]> (menus s))
  /\ _submenus s' = <[(current_menu, label) := next_menu s]> (_submenus s)
  /\ tabmanager s' = tabmanager s /\ key_bindings s' = key_bindings s
  /\ tab_changed_hook s' = tab_changed_hook s
  /\ _tab_context_manager s' = _tab_context_manager s
  /\ next_tab s' = next_tab s /\ destroyed s' = destroyed s
  /\ destroy_callback s' = destroy_callback s /\ trace s' = trace s.
Proof.
  intros Hlt.
  assert (Hentries :
    entries current_menu
            (with_next_menu S (with_menus (insert (next_menu s) []) s))
    = entries current_menu s).
  { unfold entries. simpl. rewrite lookup_insert_ne; [done|lia]. }
  assert (Hindex :
    default 0 (index_end current_menu
                 (with_next_menu S (with_menus (insert (next_menu s) []) s)))
    = length (entries current_menu s) - 1).
  { unfold index_end. rewrite Hentries.
    destruct (entries current_menu s); simpl; lia. }
  unfold make_submenu, with_cascade. cbv zeta. rewrite !Hentries, !Hindex.
  case_bool_decide; split_and!; reflexivity.
Qed.

Lemma elem_of_with_cascade current_menu label submenu es (e : Entry) :
  e ∈ with_cascade current_menu label submenu es
  <-> e = Cascade label submenu \/ e ∈ es.
Proof.
  unfold with_cascade. case_bool_decide.
  - apply elem_of_insert_at.
  - rewrite elem_of_app, list_elem_of_singleton. tauto.
Qed.

(** Making a submenu keeps the table and the menus in agreement. *)
Lemma make_submenu_agree current_menu label s :
  menus_agree s ->
  current_menu < next_menu s ->
  _submenus s !! (current_menu, label) = None ->
  menus_agree (make_submenu current_menu label s).2.
Proof.
  intros (Hbar & Halloc & Htable & Hbounds) Hcur Hnone.
  destruct (make_submenu_effect current_menu label s Hcur)
    as (_ & Hnext & Hmenus & Hsub & _).
  split_and!.
  - rewrite Hnext. lia.
  - intros menu Hsome. rewrite Hmenus in Hsome. rewrite Hnext.
    destruct (decide (menu = current_menu)) as [->|Hne1]; [lia|].
    destruct (decide (menu = next_menu s)) as [->|Hne2]; [lia|].
    rewrite !lookup_insert_ne in Hsome by done.
    apply Halloc in Hsome. lia.
  - intros parent l submenu. rewrite Hsub. unfold entries. rewrite Hmenus.
    destruct (decide (parent = current_menu)) as [->|Hne1].
    + rewrite (lookup_insert_eq (<[next_menu s:=[]]> (menus s))). simpl.
      rewrite elem_of_with_cascade.
      destruct (decide (l = label)) as [->|Hne2].
      * rewrite lookup_insert_eq. split.
        -- intros [= <-]. by left.
        -- intros [[= <-]|Hin]; [done|].
           apply Htable in Hin. congruence.
      * rewrite lookup_insert_ne by congruence. rewrite Htable.
        split; [by right|]. intros [[= ? ?]|Hin]; done.
    + rewrite (lookup_insert_ne (_submenus s)) by congruence.
      rewrite (lookup_insert_ne (<[next_menu s:=[]]> (menus s))) by done.
      destruct (decide (parent = next_menu s)) as [->|Hne2].
      * rewrite lookup_insert_eq. simpl. split.
        -- intros Hl. apply Hbounds in Hl as [Hp _]. lia.
        -- intros Hin. destruct (not_elem_of_nil _ Hin).
      * rewrite lookup_insert_ne by done. apply Htable.
  - intros parent l submenu. rewrite Hsub, Hnext. intros Hl.
    destruct (decide ((parent, l) = (current_menu, label))) as [Heq|Hne].
    + injection Heq as -> ->. rewrite lookup_insert_eq in Hl.
      injection Hl as <-. lia.
    + rewrite lookup_insert_ne in Hl by done.
      apply Hbounds in Hl. lia.
Qed.

(** [get_menu] under a menu that exists: the agreement is kept, and the
    menu returned exists; it is not the menu bar unless no label was
    followed. *)
Lemma get_menu_from_agree labels :
  forall current_menu s,
    menus_agree s ->
    current_menu < next_menu s ->
    exists menu s',
      get_menu_from labels current_menu s = Returned menu s'
      /\ menus_agree s'
      /\ menu < next_menu s'
      /\ next_menu s <= next_menu s'
      /\ (labels <> [] -> menubar < menu).
Proof.
  induction labels as [|label rest IH]; intros current_menu s Hagree Hcur.
  - exists current_menu, s. by split_and!.
  - rewrite get_menu_from_cons.
    destruct (_submenus s !! (current_menu, label)) as [submenu|] eqn:Hlook.
    + pose proof Hagree as (_ & _ & _ & Hbounds).
      destruct (Hbounds _ _ _ Hlook) as (_ & Hpos & Hlt).
      destruct (IH submenu s Hagree Hlt)
        as (menu & s' & Hrun & Hagree' & Hmenu & Hnext & Hnot).
      exists menu, s'. split_and!; [done..|].
      intros _. destruct rest; [|by apply Hnot].
      simpl in Hrun. by injection Hrun as <- _.
    + pose proof (make_submenu_agree _ _ _ Hagree Hcur Hlook) as Hagree1.
      destruct (make_submenu_effect current_menu label s Hcur)
        as (Hret & Hnext1 & _).
      pose proof Hagree as (Hbar & _).
      destruct (IH (make_submenu current_menu label s).1
                   (make_submenu current_menu label s).2 Hagree1)
        as (menu & s' & Hrun & Hagree' & Hmenu & Hnext & Hnot).
      { rewrite Hret, Hnext1. lia. }
      exists menu, s'. split_and!; [done..|lia|].
      intros _. destruct rest; [|by apply Hnot].
      simpl in Hrun. injection Hrun as <- _. rewrite ?Hret. lia.
Qed.

Lemma split_not_nil sep s : split sep s <> [].
Proof.
  destruct s as [|c rest]; [done|]. simpl.
  case_decide; [done|]. by destruct (split sep rest).
Qed.

(** X6: [get_menu] keeps the table [_submenus] and the menus in
    agreement, and never returns the menu bar.  In a state where the
    table lists exactly the cascade entries of the menus, [get_menu]
    returns a menu that is not the menu bar (also for the empty path,
    which names a submenu with the empty label), and in the state it
    leaves the table again lists exactly the cascade entries. *)
Theorem get_menu_keeps_agreement (label_path : string) (s : State) :
  menus_agree s ->
  exists menu s',
    get_menu label_path s = Returned menu s'
    /\ menus_agree s'
    /\ menubar < menu < next_menu s'.
Proof.
  intros Hagree. pose proof Hagree as (Hbar & _).
  destruct (get_menu_from_agree (split "/" label_path) menubar s Hagree Hbar)
    as (menu & s' & Hrun & Hagree' & Hmenu & _ & Hnot).
  exists menu, s'. split_and!; [done..| |done].
  apply Hnot, split_not_nil.
Qed.

Lemma fresh_menus_agree destroy_callback :
  menus_agree (fresh destroy_callback).
Proof.
  split_and!.
  - unfold menubar. simpl. lia.
  - intros menu [es Hes]. simpl in *.
    apply lookup_singleton_Some in Hes as [<- _]. unfold menubar. lia.
  - intros parent label submenu. unfold entries. simpl.
    rewrite lookup_empty. split; [done|].
    destruct (decide (parent = menubar)) as [->|Hne].
    + rewrite lookup_singleton_eq. simpl. intros Hin.
      destruct (not_elem_of_nil _ Hin).
    + rewrite lookup_singleton_ne by done. simpl. intros Hin.
      destruct (not_elem_of_nil _ Hin).
  - intros parent label submenu. simpl. by rewrite lookup_empty.
Qed.

Lemma get_menu_on_a_new_editor :
  menus_agree (fresh None)
  /\ exists menu s',
       get_menu "File/Stuff" (fresh None) = Returned menu s'
       /\ menus_agree s'
       /\ menubar < menu < next_menu s'.
Proof.
  split; [apply fresh_menus_agree|].
  exact (get_menu_keeps_agreement "File/Stuff" (fresh None)
           (fresh_menus_agree None)).
Defined.

(** [get_menu] returns and keeps the agreement. *)
Lemma get_menu_agree label_path s :
  menus_agree s ->
  exists menu s',
    get_menu label_path s = Returned menu s'
    /\ menus_agree s' /\ menubar < menu < next_menu s'
    /\ next_menu s <= next_menu s'.
Proof.
  intros Hagree. pose proof Hagree as (Hbar & _).
  destruct (get_menu_from_agree (split "/" label_path) menubar s Hagree Hbar)
    as (menu & s' & Hrun & Hagree' & Hmenu & Hnext & Hnot).
  exists menu, s'. split_and!; [done..| |done|done].
  apply Hnot, split_not_nil.
Qed.
(** ** [get_menu] only adds *)

Lemma menus_grown_refl s : menus_grown s s.
Proof. split_and!; try done. Qed.

Lemma menus_grown_trans s1 s2 s3 :
  menus_grown s1 s2 -> menus_grown s2 s3 -> menus_grown s1 s3.
Proof.
  intros (He1 & Hl1 & Hs1 & Ht1 & Hk1 & Hh1 & Hd1 & Hr1)
         (He2 & Hl2 & Hs2 & Ht2 & Hk2 & Hh2 & Hd2 & Hr2).
  split_and!; try congruence.
  - intros menu. etrans; [apply He1|apply He2].
  - intros e He. by apply Hl2, Hl1.
  - etrans; [apply Hs1|apply Hs2].
Qed.

Lemma sublist_with_cascade current_menu label submenu es :
  es `sublist_of` with_cascade current_menu label submenu es.
Proof.
  unfold with_cascade. case_bool_decide.
  - rewrite <- (take_drop (length es - 1) es) at 1.
    apply sublist_app; [done|]. by apply sublist_cons.
  - by apply sublist_inserts_r.
Qed.

Lemma last_with_cascade label submenu es e :
  last es = Some e ->
  last (with_cascade menubar label submenu es) = Some e.
Proof.
  intros Hlast. apply last_Some in Hlast as [pre ->].
  unfold with_cascade. rewrite bool_decide_eq_true_2 by done.
  rewrite length_app. simpl.
  replace (length pre + 1 - 1) with (length pre) by lia.
  rewrite take_app_length, drop_app_length.
  change (pre ++ Cascade label submenu :: [e])
    with (pre ++ [Cascade label submenu] ++ [e]).
  by rewrite app_assoc, last_snoc.
Qed.

Lemma make_submenu_grown current_menu label s :
  menus_agree s ->
  current_menu < next_menu s ->
  _submenus s !! (current_menu, label) = None ->
  menus_grown s (make_submenu current_menu label s).2.
Proof.
  intros (Hbar & Halloc & _) Hcur Hnone.
  destruct (make_submenu_effect current_menu label s Hcur)
    as (_ & _ & Hmenus & Hsub & Htm & Hkeys & Hhook & _ & _ & Hd & _ & Htrace).
  assert (Hnew : menus s !! next_menu s = None).
  { destruct (menus s !! next_menu s) eqn:Hl; [|done].
    assert (next_menu s < next_menu s) by (apply Halloc; by eexists). lia. }
  assert (Hentries : forall menu,
    entries menu (make_submenu current_menu label s).2
    = if decide (menu = current_menu)
      then with_cascade current_menu label (next_menu s) (entries menu s)
      else entries menu s).
  { intros menu. unfold entries at 1. rewrite Hmenus. case_decide as Heq.
    - subst menu. by rewrite lookup_insert_eq.
    - rewrite lookup_insert_ne by done.
      destruct (decide (menu = next_menu s)) as [->|Hne].
      + rewrite lookup_insert_eq. unfold entries. by rewrite Hnew.
      + by rewrite lookup_insert_ne. }
  split_and!; try done.
  - intros menu. rewrite Hentries. case_decide; [|done].
    apply sublist_with_cascade.
  - intros e Hlast. rewrite Hentries. case_decide as Heq; [|done].
    rewrite <- Heq. by apply last_with_cascade.
  - rewrite Hsub. by apply insert_subseteq.
Qed.

Lemma get_menu_from_grown labels :
  forall current_menu s,
    menus_agree s ->
    current_menu < next_menu s ->
    menus_grown s (state_of (get_menu_from labels current_menu s)).
Proof.
  induction labels as [|label rest IH]; intros current_menu s Hagree Hcur.
  - apply menus_grown_refl.
  - rewrite get_menu_from_cons.
    destruct (_submenus s !! (current_menu, label)) as [submenu|] eqn:Hlook.
    + apply IH; [done|].
      pose proof Hagree as (_ & _ & _ & Hbounds).
      apply Hbounds in Hlook. lia.
    + eapply menus_grown_trans; [by apply make_submenu_grown|].
      destruct (make_submenu_effect current_menu label s Hcur)
        as (Hret & Hnext & _).
      apply IH; [by apply make_submenu_agree|]. rewrite Hret, Hnext. lia.
Qed.

(** X7: the last menu of the menu bar stays the last.  In a state where
    the table and the menus agree, the entry that is last in the menu
    bar is still the last after [get_menu], whatever menus the call has
    made: a new menu of the menu bar is put before it.  (The first menu
    that [__init__] makes is Help.) *)
Theorem get_menu_keeps_last_of_menubar
    (label_path : string) (s : State) (e : Entry) :
  menus_agree s ->
  last (entries menubar s) = Some e ->
  last (entries menubar (state_of (get_menu label_path s))) = Some e.
Proof.
  intros Hagree Hlast. pose proof Hagree as (Hbar & _).
  destruct (get_menu_from_grown (split "/" label_path) menubar s Hagree Hbar)
    as (_ & Hkeeps & _).
  by apply Hkeeps.
Qed.

Lemma help_stays_last :
  let s := state_of (get_menu "Help" (fresh None)) in
  menus_agree s
  /\ last (entries menubar s) = Some (Cascade "Help" 1)
  /\ entries menubar (state_of (get_menu "File" s))
     = [Cascade "File" 2; Cascade "Help" 1]
  /\ last (entries menubar (state_of (get_menu "File" s)))
     = Some (Cascade "Help" 1).
Proof.
  intros s.
  assert (Hagree : menus_agree s).
  { destruct (get_menu_agree "Help" (fresh None)
                (fresh_menus_agree None)) as (menu & s' & Hrun & Hagree & _).
    unfold s. by rewrite Hrun. }
  assert (Hlast : last (entries menubar s) = Some (Cascade "Help" 1)).
  { vm_compute. reflexivity. }
  split_and!; [exact Hagree|exact Hlast|vm_compute; reflexivity|].
  exact (get_menu_keeps_last_of_menubar "File" s _ Hagree Hlast).
Defined.

(** X8: [get_menu] only adds.  In a state where the table and the menus
    agree, after [get_menu] every menu has the entries it had, in the
    same order (new ones may stand between them), the table has every
    pair it had, and the tabs, the key bindings, the hooks and the calls
    made are what they were: [get_menu] removes nothing and calls
    nothing. *)
Theorem get_menu_only_adds (label_path : string) (s : State) :
  menus_agree s ->
  let s' := state_of (get_menu label_path s) in
  (forall menu, entries menu s `sublist_of` entries menu s')
  /\ _submenus s ⊆ _submenus s'
  /\ tabmanager s' = tabmanager s
  /\ key_bindings s' = key_bindings s
  /\ tab_changed_hook s' = tab_changed_hook s
  /\ trace s' = trace s.
Proof.
  intros Hagree s'. pose proof Hagree as (Hbar & _).
  destruct (get_menu_from_grown (split "/" label_path) menubar s Hagree Hbar)
    as (Hentries & _ & Hsub & Htm & Hkeys & Hhook & _ & Htrace).
  by split_and!.
Qed.

Lemma get_menu_only_adds_to_the_menus :
  let s := state_of (get_menu "Help" (fresh None)) in
  let s' := state_of (get_menu "File/Recent" s) in
  menus_agree s
  /\ entries menubar s = [Cascade "Help" 1]
  /\ entries menubar s' = [Cascade "File" 2; Cascade "Help" 1]
  /\ (forall menu, entries menu s `sublist_of` entries menu s')
  /\ _submenus s ⊆ _submenus s'.
Proof.
  intros s s'.
  assert (Hagree : menus_agree s).
  { destruct (get_menu_agree "Help" (fresh None) (fresh_menus_agree None))
      as (menu & s0 & Hrun & Hagree & _).
    unfold s. by rewrite Hrun. }
  destruct (get_menu_only_adds "File/Recent" s Hagree)
    as (Hentries & Hsub & _).
  split_and!; [exact Hagree|vm_compute; reflexivity|vm_compute; reflexivity
              |exact Hentries|exact Hsub].
Defined.

(** ** [add_action]: the menu path *)

(** [split] on a string without the separator, and on one with it. *)
Lemma split_occurs sep s :
  if occurs sep s
  then exists a b rest, split sep s = a :: b :: rest
  else split sep s = [s].
Proof.
  induction s as [|c s IH]; [done|].
  simpl. case_decide as Hc.
  - rewrite bool_decide_eq_true_2 by done. simpl.
    destruct (split sep s) as [|b rest] eqn:Hs.
    + by destruct (split_not_nil sep s).
    + by exists EmptyString, b, rest.
  - rewrite bool_decide_eq_false_2 by done. simpl.
    destruct (occurs sep s).
    + destruct IH as (a & b & rest & ->). by exists (String c a), b, rest.
    + by rewrite IH.
Qed.

(** No piece of [split] has the separator in it, and joining the pieces
    with the separator gives the string back. *)
Lemma split_pieces sep s :
  Forall (fun piece => occurs sep piece = false) (split sep s).
Proof.
  induction s as [|c s IH]; [by repeat constructor|].
  simpl. case_decide as Hc.
  - by constructor.
  - destruct (split sep s) as [|w ws]; [by repeat constructor; simpl;
      rewrite ?bool_decide_eq_false_2 |].
    apply Forall_cons in IH as [Hw Hws]. constructor; [|done].
    simpl. by rewrite bool_decide_eq_false_2.
Qed.

Lemma join_split sep s : join (String sep EmptyString) (split sep s) = s.
Proof.
  induction s as [|c s IH]; [done|].
  simpl. case_decide as Hc.
  - subst c. destruct (split sep s) as [|w ws] eqn:Hs.
    + by destruct (split_not_nil sep s).
    + change (join (String sep EmptyString) (EmptyString :: w :: ws))
        with (String sep (join (String sep EmptyString) (w :: ws))).
      by rewrite IH.
  - destruct (split sep s) as [|w ws] eqn:Hs.
    + by destruct (split_not_nil sep s).
    + destruct ws as [|w' ws]; simpl in *; by rewrite <- IH.
Qed.

Lemma string_app_assoc (a b c : string) : (a +:+ b) +:+ c = a +:+ b +:+ c.
Proof.
  induction a as [|x a IH]; [done|].
  change (String x ((a +:+ b) +:+ c) = String x (a +:+ b +:+ c)).
  by rewrite IH.
Qed.

Lemma join_snoc sep parts piece :
  parts <> [] ->
  join sep (parts ++ [piece]) = join sep parts +:+ sep +:+ piece.
Proof.
  induction parts as [|p parts IH]; [done|]. intros _.
  destruct parts as [|p' parts]; [done|].
  change (join sep ((p :: p' :: parts) ++ [piece]))
    with (p +:+ sep +:+ join sep ((p' :: parts) ++ [piece])).
  rewrite IH by done.
  change (join sep (p :: p' :: parts))
    with (p +:+ sep +:+ join sep (p' :: parts)).
  by rewrite !string_app_assoc.
Qed.

(** [rsplit('/', 1)]: a list of one element exactly for a path without
    the separator; else the two parts make the path again, and the
    second has no separator. *)
Lemma rsplit1_spec sep s :
  match rsplit1 sep s with
  | None => occurs sep s = false
  | Some (before, last) =>
      occurs sep s = true
      /\ s = before +:+ String sep EmptyString +:+ last
      /\ occurs sep last = false
  end.
Proof.
  unfold rsplit1.
  pose proof (split_occurs sep s) as Hsplit.
  pose proof (join_split sep s) as Hjoin.
  pose proof (split_pieces sep s) as Hpieces.
  destruct (occurs sep s).
  - destruct Hsplit as (a & b & rest & Hs).
    destruct (reverse (split sep s)) as [|last before] eqn:Hrev.
    { apply (f_equal length) in Hrev. rewrite length_reverse, Hs in Hrev.
      discriminate Hrev. }
    destruct before as [|x before].
    { apply (f_equal length) in Hrev. rewrite length_reverse, Hs in Hrev.
      discriminate Hrev. }
    apply (f_equal reverse) in Hrev. rewrite reverse_involutive in Hrev.
    rewrite reverse_cons in Hrev.
    split_and!; [done| |].
    + rewrite <- Hjoin at 1. rewrite Hrev. apply join_snoc.
      rewrite reverse_cons. intros Hnil. apply (f_equal length) in Hnil.
      rewrite length_app in Hnil. simpl in Hnil. lia.
    + rewrite Hrev in Hpieces. apply Forall_app in Hpieces as [_ Hlast].
      by inversion Hlast.
  - by rewrite Hsplit.
Qed.

Lemma entries_insert menu es s :
  entries menu (with_menus (insert menu es) s) = es.
Proof. unfold entries. simpl. by rewrite lookup_insert_eq. Qed.

Lemma with_menus_twice f g s :
  with_menus f (with_menus g s) = with_menus (fun m => f (g m)) s.
Proof. by destruct s. Qed.

Lemma alter_last {A} (f : A -> A) (l : list A) (x : A) :
  alter f (length l) (l ++ [x]) = l ++ [f x].
Proof. induction l as [|y l IH]; [done|]. simpl. f_equal. exact IH. Qed.

(** [add_action], step by step. *)
Lemma add_action_unfold callback menupath accelerator binding tabtypes s :
  add_action callback menupath accelerator binding tabtypes s
  = match menupath with
    | None =>
        Returned tt (binding_added binding callback (to_type <$> tabtypes) s)
    | Some menupath =>
        match rsplit1 "/" menupath with
        | None => Raised (mkExc ValueError "not enough values to unpack") s
        | Some (path, label) =>
            match get_menu path s with
            | Returned menu s2 =>
                Returned tt
                  (binding_added binding callback (to_type <$> tabtypes)
                     (item_added menu label callback accelerator
                                 (to_type <$> tabtypes) s2))
            | Raised e s2 => Raised e s2
            end
        end
    end.
Proof.
  unfold add_action. unfold bind at 1.
  destruct menupath as [menupath|].
  2: { unfold ret. by destruct binding. }
  destruct (rsplit1 "/" menupath) as [[path label]|]; [|done].
  unfold bind at 1.
  destruct (get_menu path s) as [menu s2|e s2]; [|done].
  unfold bind at 1, add_entry, modify. unfold bind at 1, get.
  set (cmd := Command label callback accelerator Normal).
  set (s3 := with_menus (insert menu (entries menu s2 ++ [cmd])) s2).
  assert (Hindex : index_end menu s3 = Some (length (entries menu s2))).
  { unfold index_end, s3. rewrite entries_insert.
    destruct (entries menu s2 ++ [cmd]) as [|x l] eqn:Hl.
    - by destruct (entries menu s2).
    - rewrite <- Hl, length_app. simpl. f_equal. lia. }
  rewrite Hindex. unfold bind at 1, tab_changed.
  assert (Hstate : forall state,
    entryconfig_state menu (length (entries menu s2)) state s3
    = Returned tt
        (with_menus
           (insert menu
              (entries menu s2 ++ [Command label callback accelerator state]))
           s2)).
  { intros state. unfold entryconfig_state, modify, s3.
    rewrite entries_insert, alter_last, with_menus_twice. f_equal.
    destruct s2. unfold with_menus. simpl. f_equal.
    apply insert_insert_eq. }
  assert (Htab : tabmanager s3 = tabmanager s2) by done.
  rewrite Htab.
  destruct (isinstance_tab (current_tab (tabmanager s2)) (to_type <$> tabtypes))
    eqn:Hinst; rewrite Hstate; unfold modify, item_added; rewrite Hinst;
    by destruct binding.
Qed.

(** X9: [add_action] and a menu path without a slash.  With a
    [menupath] in which no [/] occurs the unpacking of [rsplit('/', 1)]
    fails: whatever the other arguments are, [add_action] raises
    ValueError and has changed nothing, no menu and no key binding.
    Without a [binding] that is the only case in which it raises: with
    no [menupath], or one with a [/] (even if what is before or after
    the slash is empty), it returns.  (With a [binding] the call of
    [self.bind] comes last and can raise; see [add_action].) *)
Theorem add_action_raises_without_slash
    (callback : Callback) (menupath accelerator binding : option string)
    (tabtypes : list (option TabClass)) (s : State) :
  match menupath with
  | Some path =>
      if occurs "/" path then
        returned (add_action callback menupath accelerator None tabtypes s)
        = true
      else
        exists e,
          add_action callback menupath accelerator binding tabtypes s
          = Raised e s
          /\ exc_type e = ValueError
  | None => add_action callback None accelerator None tabtypes s = Returned tt s
  end.
Proof.
  destruct menupath as [menupath|]; [|by rewrite add_action_unfold].
  pose proof (rsplit1_spec "/" menupath) as Hsplit.
  destruct (occurs "/" menupath) eqn:Hslash.
  - rewrite add_action_unfold.
    destruct (rsplit1 "/" menupath) as [[path label]|]; [|congruence].
    destruct (get_menu_from_returns (split "/" path) menubar s)
      as (menu & s2 & Hrun).
    unfold get_menu. by rewrite Hrun.
  - rewrite add_action_unfold.
    destruct (rsplit1 "/" menupath) as [[path label]|].
    + destruct Hsplit as [Hyes _]. congruence.
    + by eexists.
Qed.

(** The three cases, on a new editor. *)
Example add_action_without_slash :
  add_action CbNewFile (Some "New File") None (Some "<Control-n>")
             default_tabtypes (fresh None)
  = Raised (mkExc ValueError "not enough values to unpack") (fresh None)
  /\ returned (add_action CbNewFile (Some "/New File") None None
                          default_tabtypes (fresh None)) = true
  /\ add_action CbNewFile None None None default_tabtypes (fresh None)
     = Returned tt (fresh None).
Proof. split_and!; vm_compute; reflexivity. Qed.

(** Other entries than cascades can be put into a menu that exists
    without touching the agreement. *)
Lemma agree_update menu es s :
  menus_agree s ->
  menu < next_menu s ->
  (forall label submenu,
     Cascade label submenu ∈ es <-> Cascade label submenu ∈ entries menu s) ->
  menus_agree (with_menus (insert menu es) s).
Proof.
  intros (Hbar & Halloc & Htable & Hbounds) Hmenu Hsame.
  split_and!; [done| | |done].
  - intros m. simpl. destruct (decide (m = menu)) as [->|Hne]; [done|].
    rewrite lookup_insert_ne by done. apply Halloc.
  - intros parent label submenu. unfold entries. simpl.
    destruct (decide (parent = menu)) as [->|Hne].
    + rewrite lookup_insert_eq. simpl. rewrite Hsame. apply Htable.
    + rewrite lookup_insert_ne by done. apply Htable.
Qed.

Lemma item_added_agree menu label callback accelerator tabtypes s :
  menus_agree s -> menu < next_menu s ->
  menus_agree (item_added menu label callback accelerator tabtypes s).
Proof.
  intros Hagree Hmenu. unfold item_added.
  apply (agree_update menu _ s Hagree Hmenu).
  intros l submenu. rewrite elem_of_app, list_elem_of_singleton.
  split; [|by left]. intros [Hin|Heq]; [done|discriminate Heq].
Qed.

Lemma binding_added_menus binding callback tabtypes s :
  menus (binding_added binding callback tabtypes s) = menus s
  /\ _submenus (binding_added binding callback tabtypes s) = _submenus s
  /\ next_menu (binding_added binding callback tabtypes s) = next_menu s
  /\ tab_changed_hook (binding_added binding callback tabtypes s)
     = tab_changed_hook s
  /\ tabmanager (binding_added binding callback tabtypes s) = tabmanager s
  /\ trace (binding_added binding callback tabtypes s) = trace s.
Proof. by destruct binding. Qed.

Lemma binding_added_agree binding callback tabtypes s :
  menus_agree s -> menus_agree (binding_added binding callback tabtypes s).
Proof. by destruct binding. Qed.

(** X10: the menu item of [add_action].  When [add_action] with a
    [menupath] returns, the path is [path/label] with no slash in
    [label]; the menu of [path] exists, is not the menu bar, and
    [get_menu(path)] now finds it without changing anything; the last
    entry of that menu is the command [label] with the callback and the
    accelerator given, enabled exactly if the current tab is an instance
    of one of [tabtypes]; and the last function connected to the tab
    manager's hook is the one that keeps that entry up to date. *)
Theorem add_action_adds_item
    (callback : Callback) (menupath : string)
    (accelerator binding : option string)
    (tabtypes : list (option TabClass)) (s s1 : State) :
  menus_agree s ->
  add_action callback (Some menupath) accelerator binding tabtypes s
  = Returned tt s1 ->
  exists path label menu,
    menupath = path +:+ "/" +:+ label
    /\ occurs "/" label = false
    /\ get_menu path s1 = Returned menu s1
    /\ menubar < menu
    /\ last (entries menu s1)
       = Some (Command label callback accelerator
                 (if isinstance_tab (current_tab (tabmanager s))
                                    (to_type <$> tabtypes)
                  then Normal else Disabled))
    /\ last (tab_changed_hook s1)
       = Some (HookEntryState menu (length (entries menu s1) - 1)
                              (to_type <$> tabtypes))
    /\ menus_agree s1.
Proof.
  intros Hagree. rewrite add_action_unfold.
  pose proof (rsplit1_spec "/" menupath) as Hsplit.
  destruct (rsplit1 "/" menupath) as [[path label]|]; [|done].
  destruct Hsplit as (_ & Hpath & Hlabel).
  destruct (get_menu_agree path s Hagree)
    as (menu & s2 & Hrun & Hagree2 & [Hpos Hmenu] & _).
  pose proof Hagree as (Hbar & _).
  pose proof (get_menu_from_grown (split "/" path) menubar s Hagree Hbar)
    as (_ & _ & _ & Htm & _).
  rewrite Hrun. fold (get_menu path s) in Htm. rewrite Hrun in Htm.
  simpl in Htm. intros [= <-].
  destruct (binding_added_menus binding callback (to_type <$> tabtypes)
              (item_added menu label callback accelerator
                          (to_type <$> tabtypes) s2))
    as (Hmenus & Hsub & _ & Hhook & _).
  exists path, label, menu. split_and!; [done..| | | | |].
  - unfold get_menu in *. eapply get_menu_from_again; [exact Hrun|].
    by rewrite Hsub.
  - done.
  - unfold entries at 1. rewrite Hmenus. unfold item_added. simpl.
    rewrite lookup_insert_eq. simpl. rewrite last_snoc. by rewrite Htm.
  - rewrite Hhook. unfold item_added at 1. simpl. rewrite last_snoc.
    do 2 f_equal. unfold entries at 2. rewrite Hmenus.
    unfold item_added. simpl. rewrite lookup_insert_eq. simpl.
    rewrite length_app. simpl. lia.
  - by apply binding_added_agree, item_added_agree.
Qed.

Lemma add_action_adds_undo :
  menus_agree (fresh None)
  /\ add_action (CbTextMethod "undo") (Some "Edit/Undo") (Some "Ctrl+Z")
                (Some "<Control-z>") [Some FileTab] (fresh None)
     = Returned tt after_undo_action
  /\ exists path label menu,
       "Edit/Undo" = path +:+ "/" +:+ label
       /\ occurs "/" label = false
       /\ get_menu path after_undo_action = Returned menu after_undo_action
       /\ menubar < menu
       /\ last (entries menu after_undo_action)
          = Some (Command label (CbTextMethod "undo") (Some "Ctrl+Z")
                    (if isinstance_tab (current_tab (tabmanager (fresh None)))
                                       (to_type <$> [Some FileTab])
                     then Normal else Disabled))
       /\ last (tab_changed_hook after_undo_action)
          = Some (HookEntryState menu
                    (length (entries menu after_undo_action) - 1)
                    (to_type <$> [Some FileTab]))
       /\ menus_agree after_undo_action.
Proof.
  assert (Hrun : add_action (CbTextMethod "undo") (Some "Edit/Undo")
                   (Some "Ctrl+Z") (Some "<Control-z>") [Some FileTab]
                   (fresh None) = Returned tt after_undo_action).
  { vm_compute. reflexivity. }
  split; [apply fresh_menus_agree|]. split; [exact Hrun|].
  exact (add_action_adds_item _ _ _ _ _ _ _ (fresh_menus_agree None) Hrun).
Defined.

(** Putting an entry that is no cascade at the end of a menu that is not
    the menu bar. *)
Lemma item_appended menu e s :
  menus_agree s -> menubar < menu < next_menu s -> is_item e = true ->
  let s' := with_menus (insert menu (entries menu s ++ [e])) s in
  menus_agree s'
  /\ (forall m, entries m s `sublist_of` entries m s')
  /\ entries menubar s' = entries menubar s.
Proof.
  intros Hagree [Hpos Hmenu] He s'. split_and!.
  - apply (agree_update menu _ s Hagree Hmenu).
    intros l submenu. rewrite elem_of_app, list_elem_of_singleton.
    split; [|by left]. intros [Hin|Heq]; [done|]. by subst e.
  - intros m. unfold s', entries at 2. simpl.
    destruct (decide (m = menu)) as [->|Hne].
    + rewrite lookup_insert_eq. simpl. by apply sublist_inserts_r.
    + by rewrite lookup_insert_ne.
  - unfold s', entries at 1. simpl. rewrite lookup_insert_ne; [done|lia].
Qed.

(** X11: [add_action] keeps the menus.  In a state where the table and
    the menus agree, whatever [add_action] is given and however it ends:
    the table and the menus agree afterwards, every menu has the entries
    it had, in their order, the last entry of the menu bar is still the
    last, the table has kept its pairs, every key but the one given is
    bound as before, and neither the tabs nor the calls made have
    changed. *)
Theorem add_action_keeps_menus
    (callback : Callback) (menupath accelerator binding : option string)
    (tabtypes : list (option TabClass)) (s : State) :
  menus_agree s ->
  let s1 :=
    state_of (add_action callback menupath accelerator binding tabtypes s) in
  menus_agree s1
  /\ (forall menu, entries menu s `sublist_of` entries menu s1)
  /\ (forall e, last (entries menubar s) = Some e ->
                last (entries menubar s1) = Some e)
  /\ _submenus s ⊆ _submenus s1
  /\ (forall key, binding <> Some key ->
                  key_bindings s1 !! key = key_bindings s !! key)
  /\ tabmanager s1 = tabmanager s
  /\ trace s1 = trace s.
Proof.
  intros Hagree s1. unfold s1. rewrite add_action_unfold.
  assert (Hkeys : forall s0 key, binding <> Some key ->
    key_bindings (binding_added binding callback (to_type <$> tabtypes) s0)
      !! key = key_bindings s0 !! key).
  { intros s0 key Hne. destruct binding as [b|]; [|done].
    simpl. apply lookup_insert_ne. congruence. }
  destruct menupath as [menupath|].
  2: { simpl.
       destruct (binding_added_menus binding callback (to_type <$> tabtypes) s)
         as (Hmenus & Hsub & _ & _ & Htm & Htrace).
       split_and!; [by apply binding_added_agree| | |by rewrite Hsub
                   |by apply Hkeys|done..].
       - intros menu. unfold entries. by rewrite Hmenus.
       - intros e. unfold entries. by rewrite Hmenus. }
  destruct (rsplit1 "/" menupath) as [[path label]|].
  2: { simpl. by split_and!. }
  destruct (get_menu_agree path s Hagree)
    as (menu & s2 & Hrun & Hagree2 & Hmenu & _).
  pose proof Hagree as (Hbar & _).
  pose proof (get_menu_from_grown (split "/" path) menubar s Hagree Hbar)
    as (Hentries & Hlast & Hsub & Htm & Hkeys2 & _ & _ & Htrace).
  fold (get_menu path s) in Hentries, Hlast, Hsub, Htm, Hkeys2, Htrace.
  rewrite Hrun in *. simpl in Hentries, Hlast, Hsub, Htm, Hkeys2, Htrace.
  simpl state_of.
  set (cmd := Command label callback accelerator
                (if isinstance_tab (current_tab (tabmanager s2))
                                   (to_type <$> tabtypes)
                 then Normal else Disabled)).
  destruct (item_appended menu cmd s2 Hagree2 Hmenu eq_refl)
    as (Hagree3 & Hentries3 & Hbar3).
  destruct (binding_added_menus binding callback (to_type <$> tabtypes)
              (item_added menu label callback accelerator
                          (to_type <$> tabtypes) s2))
    as (Hmenus & Hsub4 & _ & _ & Htm4 & Htrace4).
  assert (Hsame : forall m,
    entries m (binding_added binding callback (to_type <$> tabtypes)
                 (item_added menu label callback accelerator
                             (to_type <$> tabtypes) s2))
    = entries m (with_menus (insert menu (entries menu s2 ++ [cmd])) s2)).
  { intros m. unfold entries. by rewrite Hmenus. }
  split_and!.
  - apply binding_added_agree. exact Hagree3.
  - intros m. rewrite Hsame. etrans; [apply Hentries|apply Hentries3].
  - intros e He. rewrite Hsame, Hbar3. by apply Hlast.
  - by rewrite Hsub4.
  - intros key Hne. rewrite Hkeys by done. simpl. by rewrite Hkeys2.
  - by rewrite Htm4.
  - by rewrite Htrace4.
Qed.

Lemma add_action_keeps_help_last :
  let s := state_of (get_menu "Help" (fresh None)) in
  let s1 := state_of (add_action CbNewFile (Some "File/New File")
                        (Some "Ctrl+N") (Some "<Control-n>")
                        default_tabtypes s) in
  menus_agree s
  /\ last (entries menubar s) = Some (Cascade "Help" 1)
  /\ last (entries menubar s1) = Some (Cascade "Help" 1)
  /\ entries menubar s1 = [Cascade "File" 2; Cascade "Help" 1].
Proof.
  intros s s1.
  assert (Hagree : menus_agree s).
  { destruct (get_menu_agree "Help" (fresh None) (fresh_menus_agree None))
      as (menu & s' & Hrun & Hagree & _).
    unfold s. by rewrite Hrun. }
  assert (Hlast : last (entries menubar s) = Some (Cascade "Help" 1)).
  { vm_compute. reflexivity. }
  destruct (add_action_keeps_menus CbNewFile (Some "File/New File")
              (Some "Ctrl+N") (Some "<Control-n>") default_tabtypes s Hagree)
    as (_ & _ & Hkeeps & _).
  split_and!; [exact Hagree|exact Hlast|exact (Hkeeps _ Hlast)|].
  vm_compute. reflexivity.
Defined.

(** ** The menu bar of the editor *)










(** ** Key bindings of the editor *)

(** Every tab, and no tab, is an instance of the default tab types. *)
Lemma default_tabtypes_compatible current :
  isinstance_tab current (to_type <$> default_tabtypes) = true.
Proof.
  destruct current as [tab|]; [|done].
  unfold isinstance_tab, default_tabtypes. simpl.
  assert (Htab : forall c, tab_issubclass c Tab = true).
  { induction c as [| |name base IH more]; [done..|].
    cbn [tab_issubclass]. rewrite IH. by rewrite orb_true_l, orb_true_r. }
  by rewrite Htab.
Qed.

(** X13: an action with the default [tabtypes] is never switched off.
    After [add_action] with a key and without [tabtypes] (the default,
    None and [tabs.Tab]), the key runs the callback and returns 'break'
    whatever the current tab is, also with no tab at all, as long as the
    key is bound as this call bound it. *)
Theorem default_tabtypes_always_run (w : World)
    (callback : Callback) (menupath accelerator : option string)
    (binding : string) (s s1 s2 : State) :
  add_action callback menupath accelerator (Some binding) default_tabtypes s
  = Returned tt s1 ->
  key_bindings s2 !! binding = key_bindings s1 !! binding ->
  trigger w binding s2 = (call w callback ;; ret (Some "break")) s2.
Proof.
  intros Hadd Hbound. apply add_action_key_bindings in Hadd.
  rewrite Hadd, lookup_insert_eq in Hbound.
  rewrite trigger_unfold, Hbound. simpl bound_tabtypes.
  by rewrite default_tabtypes_compatible.
Qed.

Lemma new_file_key_on_any_tab :
  let s1 := state_of (add_action CbNewFile (Some "File/New File")
                        (Some "Ctrl+N") (Some "<Control-n>")
                        default_tabtypes (fresh None)) in
  add_action CbNewFile (Some "File/New File") (Some "Ctrl+N")
             (Some "<Control-n>") default_tabtypes (fresh None)
  = Returned tt s1
  /\ trigger Sample.world "<Control-n>" (with_plugin_tab s1)
     = (call Sample.world CbNewFile ;; ret (Some "break")) (with_plugin_tab s1).
Proof.
  intros s1.
  assert (Hadd : add_action CbNewFile (Some "File/New File") (Some "Ctrl+N")
                   (Some "<Control-n>") default_tabtypes (fresh None)
                 = Returned tt s1).
  { vm_compute. reflexivity. }
  split; [exact Hadd|].
  exact (default_tabtypes_always_run Sample.world _ _ _ _ _ _
           (with_plugin_tab s1) Hadd eq_refl).
Defined.

(** What a property of the key bindings needs of a piece of code. *)
Lemma keeps_key_bindings_foreign w ev (K : gmap string BindCallback) :
  preserves (fun s => key_bindings s = K) (foreign w ev).
Proof. by apply preserves_foreign. Qed.

Lemma add_theme_key_bindings w name (K : gmap string BindCallback) :
  preserves (fun s => key_bindings s = K) (add_theme w name).
Proof.
  unfold add_theme.
  apply preserves_bind; [apply keeps_key_bindings_foreign|intros _].
  intros s Hs. unfold bind, get_menu.
  pose proof (get_menu_from_key_bindings (split "/" "Color Themes") menubar s)
    as Hkeys.
  destruct (get_menu_from _ menubar s) as [menu s1|e s1]; simpl in *;
    congruence.
Qed.

(** The bindings of the tab manager, bound one after the other. *)
Lemma tab_manager_bindings_bound bindings :
  forall s,
    exists s',
      for_each bindings (fun bc =>
        add_action (CbForeign bc.2) None None (Some bc.1) default_tabtypes) s
      = Returned tt s'
      /\ key_bindings s'
         = foldl (fun m bc => <[bc.1 := tab_manager_binding bc]> m)
                 (key_bindings s) bindings.
Proof.
  induction bindings as [|bc bindings IH]; intros s; [by exists s|].
  simpl. unfold bind at 1. rewrite add_action_unfold. simpl.
  destruct (IH (with_key_bindings (insert bc.1 (tab_manager_binding bc)) s))
    as (s' & Hrun & Hkeys).
  exists s'. split; [exact Hrun|]. by rewrite Hkeys.
Qed.

Lemma foldl_insert_lookup key bindings (m : gmap string BindCallback) :
  foldl (fun m bc => <[bc.1 := tab_manager_binding bc]> m) m bindings !! key
  = match last_binding key bindings with
    | Some bc => Some (tab_manager_binding bc)
    | None => m !! key
    end.
Proof.
  unfold last_binding.
  induction bindings as [|[k name] bindings IH] using rev_ind; [done|].
  rewrite foldl_app, filter_app. simpl.
  destruct (decide (k = key)) as [->|Hne].
  - rewrite lookup_insert_eq. rewrite filter_cons_True by done.
    by rewrite filter_nil, last_snoc.
  - rewrite lookup_insert_ne by done. rewrite filter_cons_False by done.
    rewrite filter_nil, app_nil_r. exact IH.
Qed.

(** X14: the key table of the editor.  In an editor that [__init__] has
    built, a key is bound to the last binding that the tab manager has
    for it, if it has one, with the default tab types (it runs on every
    tab and without a tab); otherwise it is bound as [_setup_menus]
    binds it; no other key is bound.  So a binding of the tab manager
    for a key of the menus replaces the menu's. *)
Theorem Editor_key_bindings (w : World) (destroy_callback : option string)
    (s : State) (key : string) :
  Editor w destroy_callback = Returned tt s ->
  key_bindings s !! key
  = match last_binding key (tm_bindings w) with
    | Some bc => Some (tab_manager_binding bc)
    | None => setup_bindings !! key
    end.
Proof.
  unfold Editor. rewrite init_split. unfold bind at 1.
  rewrite with_actions_returned.
  assert (Hsetup : key_bindings (with_actions destroy_callback)
                   = setup_bindings).
  { vm_compute. reflexivity. }
  assert (Hmiddle : preserves (fun s => key_bindings s = setup_bindings)
    (setup_themes w ;;
     modify (with_tab_changed_hook (fun h => h ++ [HookTabChanged])) ;;
     _tab_changed w None)).
  { apply preserves_bind; [|intros _].
    { unfold setup_themes. apply preserves_bind; [|intros _].
      - apply preserves_for_each. intros name. apply add_theme_key_bindings.
      - apply keeps_key_bindings_foreign. }
    apply preserves_bind; [by apply preserves_modify|intros _].
    unfold _tab_changed.
    apply preserves_bind; [apply preserves_get|intros s0].
    apply preserves_bind; [|intros _].
    { destruct (_tab_context_manager s0);
        [apply keeps_key_bindings_foreign|apply preserves_ret]. }
    apply preserves_bind; [apply keeps_key_bindings_foreign|intros _].
    apply preserves_bind; [by apply preserves_modify|intros _].
    apply keeps_key_bindings_foreign. }
  specialize (Hmiddle (with_actions destroy_callback) Hsetup).
  unfold bind in Hmiddle |- *.
  destruct (setup_themes w (with_actions destroy_callback))
    as [[] s1|e s1]; [|done].
  destruct (modify _ s1) as [[] s2|e s2]; [|done].
  destruct (_tab_changed w None s2) as [[] s3|e s3]; [|done].
  simpl in Hmiddle.
  destruct (tab_manager_bindings_bound (tm_bindings w) s3)
    as (s' & Hrun & Hkeys).
  rewrite Hrun. intros [= <-].
  by rewrite Hkeys, foldl_insert_lookup, Hmiddle.
Qed.

Lemma Editor_key_bindings_in_sample_world :
  exists s,
    Editor Sample.world None = Returned tt s
    /\ key_bindings s !! "<Control-Next>"
       = Some (tab_manager_binding ("<Control-Next>", "select_right"))
    /\ key_bindings s !! "<Control-z>"
       = Some (mkBind (CbTextMethod "undo") [TabType FileTab])
    /\ key_bindings s !! "<Control-q>" = None.
Proof.
  assert (Hbuilt : exists s, Editor Sample.world None = Returned tt s).
  { vm_compute. eexists. reflexivity. }
  destruct Hbuilt as [s Hbuilt]. exists s. split; [exact Hbuilt|].
  rewrite !(Editor_key_bindings Sample.world None s _ Hbuilt).
  split_and!; vm_compute; reflexivity.
Defined.

(** ** [open_files]: one tab or one dialog for each file *)

Lemma added_paths_app evs1 evs2 :
  added_paths (evs1 ++ evs2) = added_paths evs1 ++ added_paths evs2.
Proof. apply omap_app. Qed.

Lemma dialogs_app evs1 evs2 :
  dialogs (evs1 ++ evs2) = dialogs evs1 + dialogs evs2.
Proof. unfold dialogs. by rewrite filter_app, length_app. Qed.

(** A round that returns has added the tab of the file or shown one
    dialog. *)
Lemma open_path_returned w path s s1 :
  open_path w path s = Returned tt s1 ->
  exists evs,
    trace s1 = trace s ++ evs
    /\ added_paths evs = (if opens w path then [Some path] else [])
    /\ dialogs evs = (if opens w path then 0 else 1).
Proof.
  assert (Hfailed : forall (evs : list Event) s',
    trace s' = trace s ++ evs ->
    opens w path = false -> added_paths evs = [] -> dialogs evs = 1 ->
    exists evs, trace s' = trace s ++ evs
      /\ added_paths evs = (if opens w path then [Some path] else [])
      /\ dialogs evs = (if opens w path then 0 else 1)).
  { intros evs s' Ht Hopens Hadded Hdialogs. exists evs. by rewrite Hopens. }
  unfold open_path, try_except, open_one, opening_failed, new_FileTab,
    add_tab, open_and_read, bind, foreign, modify, get, ret.
  unfold opens.
  destruct (fails w (EvConfigGet "Files" "encoding")) as [e|] eqn:Hcfg;
    cbv beta iota.
  { destruct (isinstance e _); cbv beta iota; [|done].
    destruct (fails w (EvLogException _)); cbv beta iota; [done|].
    destruct (fails w (EvErrorDialog _ _ _)); cbv beta iota; [done|].
    intros [= <-]. eexists [_; _; _].
    split_and!; [simpl; by rewrite <- !app_assoc|done..]. }
  destruct (open_read w path (config_files_encoding w)) as [content|e];
    cbv beta iota.
  2: { destruct (isinstance e _); cbv beta iota; [|done].
       destruct (fails w (EvLogException _)); cbv beta iota; [done|].
       destruct (fails w (EvErrorDialog _ _ _)); cbv beta iota; [done|].
       intros [= <-]. eexists [_; _; _; _].
       split_and!; [simpl; by rewrite <- !app_assoc|done..]. }
  destruct (fails w (EvNewFileTab _ _)) as [e|] eqn:Htab; cbv beta iota.
  { rewrite bool_decide_eq_false_2 by done.
    destruct (isinstance e _); cbv beta iota; [|done].
    destruct (fails w (EvLogException _)); cbv beta iota; [done|].
    destruct (fails w (EvErrorDialog _ _ _)); cbv beta iota; [done|].
    intros [= <-]. eexists [_; _; _; _; _].
    split_and!; [simpl; by rewrite <- !app_assoc|done..]. }
  rewrite bool_decide_eq_true_2 by done.
  destruct (fails w (EvCopyBindings _)); cbv beta iota; [done|].
  destruct (fails w (EvAddTab _ _)); cbv beta iota; [done|].
  intros [= <-]. eexists [_; _; _; _; _].
  split_and!; [simpl; by rewrite <- !app_assoc|done..].
Qed.

Lemma open_paths_returned w paths :
  forall s s1,
    for_each paths (open_path w) s = Returned tt s1 ->
    exists evs,
      trace s1 = trace s ++ evs
      /\ added_paths evs = Some <$> filter (fun p => opens w p = true) paths
      /\ dialogs evs = length (filter (fun p => opens w p = false) paths).
Proof.
  induction paths as [|path paths IH]; intros s s1.
  - intros [= <-]. exists []. by rewrite app_nil_r.
  - simpl for_each. unfold bind.
    destruct (open_path w path s) as [[] s0|e s0] eqn:Hround; [|done].
    intros Hrest.
    destruct (open_path_returned _ _ _ _ Hround)
      as (evs1 & Ht1 & Hadded1 & Hdialogs1).
    destruct (IH _ _ Hrest) as (evs2 & Ht2 & Hadded2 & Hdialogs2).
    exists (evs1 ++ evs2).
    rewrite added_paths_app, dialogs_app, Hadded1, Hadded2, Hdialogs1,
      Hdialogs2, Ht2, Ht1, app_assoc.
    split; [done|]. rewrite !filter_cons.
    destruct (opens w path); simpl; by rewrite ?decide_True, ?decide_False.
Qed.

(** X15: every chosen file gets a tab or an error dialog.  When
    [open_files] returns, the tabs that it has given to [add_tab] are, in
    the order of the calls, those of the chosen files for which the
    encoding was found, the file was read and the tab was made, each
    once; and it has shown as many error dialogs as there are other
    chosen files. *)
Theorem open_files_tab_or_dialog (w : World) (s s' : State) :
  open_files w s = Returned tt s' ->
  let chosen := chosen_files w (default_directory w s) in
  exists evs,
    trace s' = trace s ++ evs
    /\ added_paths evs = Some <$> filter (fun p => opens w p = true) chosen
    /\ dialogs evs = length (filter (fun p => opens w p = false) chosen)
    /\ length (added_paths evs) + dialogs evs = length chosen.
Proof.
  intros Hrun chosen. revert Hrun.
  unfold open_files. unfold bind at 1, get. unfold bind at 1, foreign.
  destruct (fails w (EvOpenFilesDialog _)); [done|].
  intros Hloop.
  destruct (open_paths_returned _ _ _ _ Hloop) as (evs & Ht & Hadded & Hdialogs).
  exists (EvOpenFilesDialog (default_directory w s) :: evs).
  split_and!.
  - rewrite Ht. simpl. by rewrite <- app_assoc.
  - exact Hadded.
  - exact Hdialogs.
  - change (added_paths (EvOpenFilesDialog (default_directory w s) :: evs))
      with (added_paths evs).
    change (dialogs (EvOpenFilesDialog (default_directory w s) :: evs))
      with (dialogs evs).
    rewrite Hadded, Hdialogs, length_fmap. fold chosen.
    clear. induction chosen as [|p l IH]; [done|].
    rewrite !filter_cons. destruct (opens w p); simpl;
      rewrite ?decide_True, ?decide_False by done; simpl; lia.
Qed.

Lemma open_files_tabs_in_sample_world :
  exists s' evs,
    open_files Sample.world (fresh None) = Returned tt s'
    /\ trace s' = trace (fresh None) ++ evs
    /\ added_paths evs = [Some "hello.py"]
    /\ dialogs evs = 2.
Proof.
  assert (Hrun : exists s', open_files Sample.world (fresh None)
                            = Returned tt s').
  { vm_compute. eexists. reflexivity. }
  destruct Hrun as [s' Hrun].
  destruct (open_files_tab_or_dialog Sample.world _ _ Hrun)
    as (evs & Ht & Hadded & Hdialogs & _).
  exists s', evs. split_and!; [exact Hrun|exact Ht|..].
  - rewrite Hadded. vm_compute. reflexivity.
  - rewrite Hdialogs. vm_compute. reflexivity.
Defined.


(** ** The functions connected to the hook of the tab manager *)

Lemma entryconfig_lookup menu index state s menu' index' :
  entries menu'
    (with_menus (insert menu (alter (set_state state) index
                                    (entries menu s))) s) !! index'
  = if decide ((menu', index') = (menu, index))
    then set_state state <$> entries menu s !! index
    else entries menu' s !! index'.
Proof.
  unfold entries at 1. simpl.
  destruct (decide (menu' = menu)) as [->|Hmenu].
  - rewrite lookup_insert_eq. simpl.
    destruct (decide (index' = index)) as [->|Hindex].
    + rewrite decide_True by done. apply list_lookup_alter_eq.
    + rewrite decide_False by congruence. by apply list_lookup_alter_ne.
  - rewrite lookup_insert_ne by done. by rewrite decide_False by congruence.
Qed.

Lemma _tab_changed_keeps_menus w new_tab (ms : gmap nat (list Entry)) hs :
  preserves (fun s => menus s = ms /\ tab_changed_hook s = hs)
            (_tab_changed w new_tab).
Proof.
  unfold _tab_changed.
  apply preserves_bind; [apply preserves_get|intros s0].
  apply preserves_bind; [|intros _].
  { destruct (_tab_context_manager s0);
      [by apply preserves_foreign|apply preserves_ret]. }
  apply preserves_bind; [by apply preserves_foreign|intros _].
  apply preserves_bind; [by apply preserves_modify|intros _].
  by apply preserves_foreign.
Qed.

(** One round of the hook. *)
Lemma run_hook_entries w h new_tab s s1 :
  run_hook w h new_tab s = Returned tt s1 ->
  tab_changed_hook s1 = tab_changed_hook s
  /\ forall menu index,
       entries menu s1 !! index
       = match h with
         | HookEntryState m i tabtypes =>
             if decide ((menu, index) = (m, i))
             then set_state (state_for new_tab tabtypes) <$> entries m s !! i
             else entries menu s !! index
         | HookTabChanged => entries menu s !! index
         end.
Proof.
  destruct h as [m i tabtypes|]; simpl run_hook.
  - unfold tab_changed, state_for.
    destruct (isinstance_tab new_tab tabtypes);
      unfold entryconfig_state, modify; intros [= <-];
      (split; [done|]); intros menu index; apply entryconfig_lookup.
  - intros Hrun.
    pose proof (_tab_changed_keeps_menus w new_tab (menus s)
                  (tab_changed_hook s) s (conj eq_refl eq_refl)) as Hkeeps.
    rewrite Hrun in Hkeeps. destruct Hkeeps as [Hmenus Hhooks].
    split; [done|]. intros menu index. unfold entries. simpl in Hmenus.
    by rewrite Hmenus.
Qed.

Lemma run_hooks_entries w new_tab hs :
  NoDup (omap hook_target hs) ->
  forall s s',
    for_each hs (fun h => run_hook w h new_tab) s = Returned tt s' ->
    tab_changed_hook s' = tab_changed_hook s
    /\ (forall menu index tabtypes,
          HookEntryState menu index tabtypes ∈ hs ->
          entries menu s' !! index
          = set_state (state_for new_tab tabtypes) <$> entries menu s !! index)
    /\ (forall menu index,
          (menu, index) ∉ omap hook_target hs ->
          entries menu s' !! index = entries menu s !! index).
Proof.
  induction hs as [|h hs IH]; intros Hnodup s s'.
  - intros [= <-]. split_and!; [done| |done].
    intros menu index tabtypes Hin. destruct (not_elem_of_nil _ Hin).
  - simpl for_each. unfold bind.
    destruct (run_hook w h new_tab s) as [[] s1|e s1] eqn:Hround; [|done].
    intros Hrest.
    destruct (run_hook_entries _ _ _ _ _ Hround) as [Hhooks1 Hentries1].
    assert (Hnodup' : NoDup (omap hook_target hs)).
    { destruct h; simpl in Hnodup; [by apply NoDup_cons in Hnodup as [_ ?]|done]. }
    destruct (IH Hnodup' s1 s' Hrest) as (Hhooks & Hset & Hkept).
    split_and!; [congruence|..].
    + intros menu index tabtypes Hin.
      apply elem_of_cons in Hin as [<-|Hin].
      * simpl in Hnodup. apply NoDup_cons in Hnodup as [Hnew _].
        rewrite (Hkept _ _ Hnew), Hentries1. by rewrite decide_True.
      * rewrite (Hset _ _ _ Hin), Hentries1.
        destruct h as [m i tabtypes'|]; [|done].
        rewrite decide_False; [done|]. intros [= -> ->].
        simpl in Hnodup. apply NoDup_cons in Hnodup as [Hnew _].
        apply Hnew. apply list_elem_of_omap.
        by exists (HookEntryState m i tabtypes).
    + intros menu index Hnot. rewrite Hkept, Hentries1.
      * destruct h as [m i tabtypes'|]; [|done].
        rewrite decide_False; [done|]. intros Heq. apply Hnot.
        simpl. rewrite Heq. by left.
      * intros Hin. apply Hnot. destruct h; simpl; [by right|done].
Qed.

(** X16: when the current tab changes, every [tab_changed] function sets
    its own menu item, and nothing else changes in the menus.  When no two
    of the functions connected to the hook of the tab manager have the
    same menu and index, and running the hook for [new_tab] returns: the
    entry of each [tab_changed] is afterwards what it was before, with
    the state normal if [new_tab] is an instance of the tab types of its
    [add_action] call and disabled if not; every other entry of every
    menu is as before. *)
Theorem tab_changed_hook_sets_items (w : World) (new_tab : option TabObj)
    (s s' : State) :
  NoDup (targets s) ->
  run_tab_changed_hook w new_tab s = Returned tt s' ->
  (forall menu index tabtypes,
     HookEntryState menu index tabtypes ∈ tab_changed_hook s ->
     entries menu s' !! index
     = set_state (state_for new_tab tabtypes) <$> entries menu s !! index)
  /\ (forall menu index,
        (menu, index) ∉ targets s ->
        entries menu s' !! index = entries menu s !! index).
Proof.
  intros Hnodup Hrun. unfold run_tab_changed_hook, bind, get in Hrun.
  destruct (run_hooks_entries w new_tab (tab_changed_hook s) Hnodup s s' Hrun)
    as (_ & Hset & Hkept).
  by split.
Qed.


(** ** Every command of the menus has its [tab_changed] *)

Lemma is_command_with_cascade current_menu label submenu es index :
  (current_menu = menubar -> forall i, is_command (es !! i) = false) ->
  is_command (with_cascade current_menu label submenu es !! index)
  = is_command (es !! index).
Proof.
  intros Hbar. unfold with_cascade. case_bool_decide as Hcur.
  - rewrite (Hbar Hcur index).
    destruct ((take (length es - 1) es
               ++ Cascade label submenu :: drop (length es - 1) es) !! index)
      as [e|] eqn:Hl; [|done].
    apply list_elem_of_lookup_2, elem_of_insert_at in Hl as [->|Hin]; [done|].
    apply list_elem_of_lookup_1 in Hin as [i Hi].
    specialize (Hbar Hcur i). by rewrite Hi in Hbar.
  - destruct (decide (index < length es)) as [Hlt|Hge].
    + by rewrite lookup_app_l.
    + rewrite lookup_app_r by lia.
      rewrite (lookup_ge_None_2 es index) by lia.
      by destruct (index - length es) as [|[|k]].
Qed.

Lemma make_submenu_commands current_menu label s :
  menus_agree s ->
  current_menu < next_menu s ->
  (forall index, command_at s menubar index = false) ->
  forall menu index,
    command_at (make_submenu current_menu label s).2 menu index
    = command_at s menu index.
Proof.
  intros (Hbar & Halloc & _) Hcur Hnone menu index.
  destruct (make_submenu_effect current_menu label s Hcur)
    as (_ & _ & Hmenus & _).
  assert (Hnew : menus s !! next_menu s = None).
  { destruct (menus s !! next_menu s) eqn:Hl; [|done].
    assert (next_menu s < next_menu s) by (apply Halloc; by eexists). lia. }
  unfold command_at. unfold entries at 1. rewrite Hmenus.
  destruct (decide (menu = current_menu)) as [->|Hne1].
  - rewrite lookup_insert_eq. simpl. apply is_command_with_cascade.
    intros ->. exact Hnone.
  - rewrite lookup_insert_ne by done.
    destruct (decide (menu = next_menu s)) as [->|Hne2].
    + rewrite lookup_insert_eq. unfold entries. by rewrite Hnew.
    + by rewrite lookup_insert_ne.
Qed.

Lemma get_menu_from_commands labels :
  forall current_menu s,
    menus_agree s ->
    current_menu < next_menu s ->
    (forall index, command_at s menubar index = false) ->
    forall menu index,
      command_at (state_of (get_menu_from labels current_menu s)) menu index
      = command_at s menu index.
Proof.
  induction labels as [|label rest IH];
    intros current_menu s Hagree Hcur Hnone menu index.
  - done.
  - rewrite get_menu_from_cons.
    destruct (_submenus s !! (current_menu, label)) as [submenu|] eqn:Hlook.
    + apply IH; [done| |done].
      pose proof Hagree as (_ & _ & _ & Hbounds).
      apply Hbounds in Hlook. lia.
    + destruct (make_submenu_effect current_menu label s Hcur)
        as (Hret & Hnext & _).
      pose proof (make_submenu_commands _ label _ Hagree Hcur Hnone) as Hsame.
      rewrite IH; [apply Hsame|by apply make_submenu_agree| |].
      * rewrite Hret, Hnext. lia.
      * intros i. by rewrite Hsame.
Qed.

(** The property depends on the commands and the targets only. *)
Lemma commands_connected_same s s' :
  (forall menu index, command_at s' menu index = command_at s menu index) ->
  targets s' = targets s ->
  commands_connected s -> commands_connected s'.
Proof.
  intros Hsame Htargets (Hnodup & Hiff & Hbar). unfold commands_connected.
  rewrite Htargets. split_and!; [done| |].
  - intros menu index. rewrite Hsame. apply Hiff.
  - intros index. by rewrite Hsame.
Qed.

Lemma get_menu_connected label_path :
  preserves menus_connected (get_menu label_path).
Proof.
  intros s [Hagree Hconn].
  destruct (get_menu_agree label_path s Hagree)
    as (menu & s' & Hrun & Hagree' & _).
  pose proof Hagree as (Hbar & _). pose proof Hconn as (_ & _ & Hnone).
  pose proof (get_menu_from_grown (split "/" label_path) menubar s Hagree Hbar)
    as (_ & _ & _ & _ & _ & Hhooks & _).
  pose proof (get_menu_from_commands (split "/" label_path) menubar s
                Hagree Hbar Hnone) as Hsame.
  fold (get_menu label_path s) in Hhooks, Hsame. rewrite Hrun in *.
  split; [done|]. apply (commands_connected_same s); [done| |done].
  unfold targets. by rewrite Hhooks.
Qed.

(** An entry that is no command, at the end of a menu. *)
Lemma item_appended_connected menu e s :
  menus_connected s -> menubar < menu < next_menu s ->
  is_item e = true -> is_command (Some e) = false ->
  menus_connected (with_menus (insert menu (entries menu s ++ [e])) s).
Proof.
  intros [Hagree Hconn] Hmenu Hitem Hcmd.
  destruct (item_appended menu e s Hagree Hmenu Hitem) as (Hagree' & _).
  split; [done|]. apply (commands_connected_same s); [|done|done].
  intros m index. unfold command_at. unfold entries at 1. simpl.
  destruct (decide (m = menu)) as [->|Hne].
  - rewrite lookup_insert_eq. simpl.
    destruct (decide (index < length (entries menu s))) as [Hlt|Hge].
    + by rewrite lookup_app_l.
    + rewrite lookup_app_r by lia.
      rewrite (lookup_ge_None_2 (entries menu s) index) by lia.
      destruct (index - length (entries menu s)) as [|[|k]]; [|done..].
      exact Hcmd.
  - by rewrite lookup_insert_ne.
Qed.

Lemma add_entry_connected label_path e :
  is_item e = true -> is_command (Some e) = false ->
  preserves menus_connected (menu <- get_menu label_path ;; add_entry menu e).
Proof.
  intros Hitem Hcmd s Hs. unfold bind.
  pose proof (get_menu_connected label_path s Hs) as Hs2.
  destruct Hs as [Hagree _].
  destruct (get_menu_agree label_path s Hagree)
    as (menu & s2 & Hrun & _ & Hmenu & _).
  rewrite Hrun in *. simpl in Hs2.
  exact (item_appended_connected menu e s2 Hs2 Hmenu Hitem Hcmd).
Qed.

(** The menu part of [add_action] connects the command that it adds. *)
Lemma item_added_connected menu label callback accelerator tabtypes s :
  menus_connected s -> menubar < menu < next_menu s ->
  menus_connected (item_added menu label callback accelerator tabtypes s).
Proof.
  intros [Hagree (Hnodup & Hiff & Hbar)] Hmenu.
  split; [apply item_added_agree; [done|lia]|].
  set (state := if isinstance_tab (current_tab (tabmanager s)) tabtypes
                then Normal else Disabled).
  set (s' := item_added menu label callback accelerator tabtypes s).
  assert (Htargets :
    targets s' = targets s ++ [(menu, length (entries menu s))]).
  { unfold targets, s', item_added. simpl. by rewrite omap_app. }
  assert (Hcommands : forall m index,
    command_at s' m index
    = command_at s m index
      || bool_decide ((m, index) = (menu, length (entries menu s)))).
  { intros m index. unfold command_at, s', item_added.
    unfold entries at 1. simpl.
    destruct (decide (m = menu)) as [->|Hne].
    - rewrite lookup_insert_eq. simpl.
      destruct (decide (index < length (entries menu s))) as [Hlt|Hge].
      + rewrite lookup_app_l by done.
        rewrite bool_decide_eq_false_2; [by rewrite orb_false_r|].
        intros [= ?]. lia.
      + rewrite lookup_app_r by lia.
        rewrite (lookup_ge_None_2 (entries menu s) index) by lia.
        destruct (decide (index = length (entries menu s))) as [->|Hne].
        * rewrite Nat.sub_diag. by rewrite bool_decide_eq_true_2.
        * rewrite bool_decide_eq_false_2 by congruence.
          destruct (index - length (entries menu s)) as [|[|k]] eqn:Hk;
            [lia|done..].
    - rewrite lookup_insert_ne by done.
      rewrite bool_decide_eq_false_2; [by rewrite orb_false_r|]. congruence. }
  assert (Hfresh : (menu, length (entries menu s)) ∉ targets s).
  { rewrite Hiff. unfold command_at.
    by rewrite (lookup_ge_None_2 (entries menu s)) by lia. }
  unfold commands_connected. fold s'. rewrite Htargets. split_and!.
  - apply NoDup_app. split_and!; [done| |apply NoDup_singleton].
    intros x Hx Hin. apply list_elem_of_singleton in Hin. by subst x.
  - intros m index. rewrite Hcommands, elem_of_app, list_elem_of_singleton.
    rewrite orb_true_iff, bool_decide_eq_true. by rewrite Hiff.
  - intros index. rewrite Hcommands, Hbar.
    rewrite bool_decide_eq_false_2; [done|]. intros [= ? ?]. lia.
Qed.

Lemma binding_added_connected binding callback tabtypes s :
  menus_connected s ->
  menus_connected (binding_added binding callback tabtypes s).
Proof. intros Hs. by destruct binding. Qed.

Lemma add_action_connected callback menupath accelerator binding tabtypes :
  preserves menus_connected
    (add_action callback menupath accelerator binding tabtypes).
Proof.
  intros s Hs. rewrite add_action_unfold.
  destruct menupath as [menupath|]; [|by apply binding_added_connected].
  destruct (rsplit1 "/" menupath) as [[path label]|]; [|done].
  pose proof (get_menu_connected path s Hs) as Hs2.
  destruct Hs as [Hagree _].
  destruct (get_menu_agree path s Hagree)
    as (menu & s2 & Hrun & _ & Hmenu & _).
  rewrite Hrun in *. simpl in Hs2. simpl state_of.
  by apply binding_added_connected, item_added_connected.
Qed.

Lemma menus_connected_trace f s :
  menus_connected s -> menus_connected (with_trace f s).
Proof. done. Qed.

Lemma fresh_connected destroy_callback :
  menus_connected (fresh destroy_callback).
Proof.
  split; [apply fresh_menus_agree|].
  assert (Hnone : forall menu index,
    command_at (fresh destroy_callback) menu index = false).
  { intros menu index. unfold command_at, entries. simpl.
    destruct (decide (menu = menubar)) as [->|Hne].
    - by rewrite lookup_singleton_eq.
    - by rewrite lookup_singleton_ne. }
  split_and!.
  - apply NoDup_nil_2.
  - intros menu index. rewrite Hnone. split; [|done].
    intros Hin. destruct (not_elem_of_nil _ Hin).
  - intros index. apply Hnone.
Qed.

Ltac connected_step :=
  first [apply add_action_connected
        |apply add_entry_connected; reflexivity
        |apply get_menu_connected].

Lemma setup_actions_connected : preserves menus_connected setup_actions.
Proof.
  unfold setup_actions, link, add_separator. cbv beta zeta.
  repeat (lazymatch goal with
          | |- preserves _ (bind (bind _ _) _) =>
              apply preserves_bind; [connected_step|intros _]
          | |- preserves _ (bind _ _) =>
              first [connected_step
                    |apply preserves_bind; [connected_step|intros _]]
          end).
  connected_step.
Qed.

Lemma rest_of_init_connected w :
  preserves menus_connected
    (setup_themes w ;;
     modify (with_tab_changed_hook (fun h => h ++ [HookTabChanged])) ;;
     _tab_changed w None ;;
     for_each (tm_bindings w) (fun bc =>
       add_action (CbForeign bc.2) None None (Some bc.1) default_tabtypes)).
Proof.
  apply preserves_bind; [|intros _].
  { unfold setup_themes. apply preserves_bind; [|intros _].
    - apply preserves_for_each. intros name. unfold add_theme.
      apply preserves_bind;
        [apply preserves_foreign, menus_connected_trace|intros _].
      by apply add_entry_connected.
    - apply preserves_foreign, menus_connected_trace. }
  apply preserves_bind; [|intros _].
  { apply preserves_modify. intros s [Hagree Hconn]. split; [done|].
    apply (commands_connected_same s); [done| |done].
    unfold targets. simpl. by rewrite omap_app, app_nil_r. }
  apply preserves_bind; [|intros _].
  { unfold _tab_changed.
    apply preserves_bind; [apply preserves_get|intros s0].
    apply preserves_bind; [|intros _].
    { destruct (_tab_context_manager s0);
        [apply preserves_foreign, menus_connected_trace|apply preserves_ret]. }
    apply preserves_bind;
      [apply preserves_foreign, menus_connected_trace|intros _].
    apply preserves_bind; [by apply preserves_modify|intros _].
    apply preserves_foreign, menus_connected_trace. }
  apply preserves_for_each. intros bc. apply add_action_connected.
Qed.


Lemma tab_change_in_sample_world :
  let s := state_of (Editor Sample.world None) in
  exists s',
    NoDup (targets s)
    /\ run_tab_changed_hook Sample.world (Some Sample.a_file_tab) s
       = Returned tt s'
    /\ entries edit_menu s !! 0
       = Some (Command "Undo" (CbTextMethod "undo") (Some "Ctrl+Z") Disabled)
    /\ entries edit_menu s' !! 0
       = Some (Command "Undo" (CbTextMethod "undo") (Some "Ctrl+Z") Normal)
    /\ entries menubar s' = entries menubar s.
Proof.
  intros s.
  assert (Hnodup : NoDup (targets s)).
  { apply (bool_decide_unpack _). vm_compute. exact I. }
  assert (Hrun : exists s',
    run_tab_changed_hook Sample.world (Some Sample.a_file_tab) s
    = Returned tt s').
  { vm_compute. eexists. reflexivity. }
  destruct Hrun as [s' Hrun]. exists s'.
  destruct (tab_changed_hook_sets_items Sample.world (Some Sample.a_file_tab)
              s s' Hnodup Hrun) as [Hset Hkept].
  assert (Hundo : entries edit_menu s !! 0
    = Some (Command "Undo" (CbTextMethod "undo") (Some "Ctrl+Z") Disabled)).
  { vm_compute. reflexivity. }
  split_and!; [exact Hnodup|exact Hrun|exact Hundo| |].
  - rewrite (Hset edit_menu 0 [TabType FileTab]).
    + rewrite Hundo. vm_compute. reflexivity.
    + apply (list_elem_of_lookup_2 _ 5). vm_compute. reflexivity.
  - apply list_eq. intros index. apply Hkept. intros Hin.
    apply list_elem_of_omap in Hin as (h & Hh & Htarget).
    unfold s in Hh. vm_compute in Hh.
    repeat (apply elem_of_cons in Hh as [->|Hh]; [by simpl in Htarget|]).
    destruct (not_elem_of_nil _ Hh).
Defined.

(** X17: in a new editor every command of the menus has its
    [tab_changed].  Whatever the pygments styles and the bindings of the
    tab manager are, and wherever [__init__] stops: in the state that it
    leaves, the functions that [add_action] has connected to the hook of
    the tab manager configure different entries, each of them a command;
    every command of every menu is configured by one of them; and the
    menu bar, where [get_menu] moves entries, holds no command. *)
Theorem Editor_commands_connected (w : World)
    (destroy_callback : option string) :
  let s := state_of (Editor w destroy_callback) in
  NoDup (targets s)
  /\ (forall menu index,
        (menu, index) ∈ targets s <-> command_at s menu index = true)
  /\ (forall index, command_at s menubar index = false).
Proof.
  intros s. change (commands_connected s).
  assert (Hs : menus_connected s); [|by destruct Hs].
  unfold s, Editor. rewrite init_split.
  pose proof (get_menu_connected "Help" _ (fresh_connected destroy_callback))
    as Hs1.
  unfold bind at 1. unfold bind at 1.
  destruct (get_menu "Help" (fresh destroy_callback)) as [menu s1|e s1];
    [|exact Hs1].
  pose proof (setup_actions_connected s1 Hs1) as Hs2.
  destruct (setup_actions s1) as [[] s2|e s2]; [|exact Hs2].
  exact (rest_of_init_connected w s2 Hs2).
Qed.

(** X18: [add_action] keeps every command connected.  In a state where
    the table and the menus agree and every command of the menus has its
    [tab_changed], as in a new editor, the state after any call of
    [add_action] is such a state again: the function that the call
    connects configures the command that the call has added, which is no
    entry that another function configures, and no entry has moved. *)
Theorem add_action_keeps_connected
    (callback : Callback) (menupath accelerator binding : option string)
    (tabtypes : list (option TabClass)) (s : State) :
  menus_agree s ->
  commands_connected s ->
  let s1 :=
    state_of (add_action callback menupath accelerator binding tabtypes s) in
  menus_agree s1 /\ commands_connected s1.
Proof.
  intros Hagree Hconn.
  exact (add_action_connected callback menupath accelerator binding tabtypes
           s (conj Hagree Hconn)).
Qed.

Lemma add_action_connects_undo :
  let s1 :=
    state_of (add_action (CbTextMethod "undo") (Some "Edit/Undo")
                (Some "Ctrl+Z") (Some "<Control-z>") [Some FileTab]
                (fresh None)) in
  menus_agree (fresh None)
  /\ commands_connected (fresh None)
  /\ menus_agree s1
  /\ commands_connected s1
  /\ targets s1 = [(1, 0)].
Proof.
  intros s1.
  destruct (fresh_connected None) as [Hagree Hconn].
  destruct (add_action_keeps_connected (CbTextMethod "undo")
              (Some "Edit/Undo") (Some "Ctrl+Z") (Some "<Control-z>")
              [Some FileTab] (fresh None) Hagree Hconn) as [Hagree1 Hconn1].
  split_and!; [exact Hagree|exact Hconn|exact Hagree1|exact Hconn1|].
  vm_compute. reflexivity.
Defined.

(** ** The commands of a new editor follow the current tab *)

Lemma keeps_actions_trace s0 f s :
  keeps_actions s0 s -> keeps_actions s0 (with_trace f s).
Proof. done. Qed.

Lemma add_theme_keeps_actions w s0 name :
  preserves (keeps_actions s0) (add_theme w name).
Proof.
  unfold add_theme.
  apply preserves_bind;
    [apply preserves_foreign, keeps_actions_trace|intros _].
  intros s (Hthemes & Hcommands & Hhooks).
  unfold bind, get_menu.
  change (split "/" "Color Themes") with ["Color Themes"].
  rewrite get_menu_from_cons, Hthemes. simpl state_of.
  split_and!; [done| |done].
  intros menu index e He. rewrite <- Hcommands by done.
  unfold add_entry, modify. simpl state_of. unfold entries at 1. simpl.
  destruct (decide (menu = color_themes_menu)) as [->|Hne].
  - rewrite lookup_insert_eq. simpl.
    destruct (decide (index < length (entries color_themes_menu s)))
      as [Hlt|Hge].
    + by rewrite lookup_app_l.
    + rewrite lookup_app_r by lia.
      rewrite (lookup_ge_None_2 (entries color_themes_menu s) index) by lia.
      destruct (index - length (entries color_themes_menu s)) as [|[|k]];
        simpl; split; try done.
      intros [= <-]. done.
  - by rewrite lookup_insert_ne.
Qed.

Lemma rest_of_init_keeps_actions w s0 :
  preserves (keeps_actions s0)
    (setup_themes w ;;
     modify (with_tab_changed_hook (fun h => h ++ [HookTabChanged])) ;;
     _tab_changed w None ;;
     for_each (tm_bindings w) (fun bc =>
       add_action (CbForeign bc.2) None None (Some bc.1) default_tabtypes)).
Proof.
  apply preserves_bind; [|intros _].
  { unfold setup_themes. apply preserves_bind; [|intros _].
    - apply preserves_for_each. intros name. apply add_theme_keeps_actions.
    - apply preserves_foreign, keeps_actions_trace. }
  apply preserves_bind; [|intros _].
  { apply preserves_modify. intros s (Hthemes & Hcommands & Hhooks).
    split_and!; [done..|].
    intros menu index tabtypes. rewrite <- Hhooks. simpl.
    rewrite elem_of_app, list_elem_of_singleton. split; [|by left].
    by intros [?|?]. }
  apply preserves_bind; [|intros _].
  { unfold _tab_changed.
    apply preserves_bind; [apply preserves_get|intros s1].
    apply preserves_bind; [|intros _].
    { destruct (_tab_context_manager s1);
        [apply preserves_foreign, keeps_actions_trace|apply preserves_ret]. }
    apply preserves_bind;
      [apply preserves_foreign, keeps_actions_trace|intros _].
    apply preserves_bind; [by apply preserves_modify|intros _].
    apply preserves_foreign, keeps_actions_trace. }
  apply preserves_for_each. intros bc s Hs. rewrite add_action_unfold.
  done.
Qed.

Lemma with_actions_hooks_match destroy_callback :
  forallb (hook_matches (with_actions destroy_callback))
          (tab_changed_hook (with_actions destroy_callback)) = true.
Proof. vm_compute. reflexivity. Qed.

Lemma set_state_command state e label command accelerator state' :
  set_state state e = Command label command accelerator state' ->
  state' = state /\ exists state0, e = Command label command accelerator state0.
Proof. destruct e; try done. simpl. intros [= -> -> -> ->]. eauto. Qed.

(** X19: the commands of a new editor follow the current tab.  When the
    constructor has returned and the tab manager runs its hook for
    [new_tab], then afterwards, in every menu, a command that uses the
    current tab (Save, Save As, the commands of the Edit menu but the
    settings, the font sizes) is enabled if [new_tab] is a file tab and
    disabled if it is another tab or none; every other command is
    enabled. *)
Theorem Editor_commands_follow_tab (w : World)
    (destroy_callback : option string) (new_tab : option TabObj)
    (s s' : State) (menu index : nat) (label : string) (command : Callback)
    (accelerator : option string) (state : EntryState) :
  Editor w destroy_callback = Returned tt s ->
  run_tab_changed_hook w new_tab s = Returned tt s' ->
  entries menu s' !! index = Some (Command label command accelerator state) ->
  state = if needs_file_tab command
          then state_for new_tab [TabType FileTab]
          else Normal.
Proof.
  intros Hinit Hrun Hentry.
  assert (Hstate : state = state_for new_tab (tabtypes_of command)).
  2: { rewrite Hstate. unfold tabtypes_of.
       destruct (needs_file_tab command); [done|].
       unfold state_for. by rewrite default_tabtypes_compatible. }
  set (s0 := with_actions destroy_callback).
  pose proof (with_actions_hooks_match destroy_callback) as Hmatch.
  fold s0 in Hmatch. rewrite forallb_forall in Hmatch.
  assert (Hs : menus_connected s /\ keeps_actions s0 s).
  { unfold Editor in Hinit. rewrite init_split in Hinit.
    unfold bind at 1 in Hinit. rewrite with_actions_returned in Hinit.
    fold s0 in Hinit.
    assert (Hs0 : menus_connected s0).
    { exact (preserves_bind menus_connected (get_menu "Help")
               (fun _ => setup_actions) (get_menu_connected "Help")
               (fun _ => setup_actions_connected) _
               (fresh_connected destroy_callback)). }
    assert (Hk0 : keeps_actions s0 s0).
    { split_and!; [vm_compute; reflexivity|done..]. }
    pose proof (rest_of_init_connected w s0 Hs0) as Hconn.
    pose proof (rest_of_init_keeps_actions w s0 s0 Hk0) as Hkeeps.
    rewrite Hinit in Hconn, Hkeeps. by split. }
  clearbody s0.
  destruct Hs as [[_ (Hnodup & Hiff & _)] (_ & Hcommands & Hhooks)].
  unfold run_tab_changed_hook, bind, get in Hrun.
  destruct (run_hooks_entries w new_tab (tab_changed_hook s) Hnodup s s' Hrun)
    as (_ & Hset & Hkept).
  destruct (decide ((menu, index) ∈ targets s)) as [Hin|Hnot].
  - apply list_elem_of_omap in Hin as (h & Hh & Htarget).
    destruct h as [m i tabtypes|]; [|done]. injection Htarget as -> ->.
    rewrite (Hset _ _ _ Hh) in Hentry.
    destruct (entries menu s !! index) as [e|] eqn:He; [|done].
    injection Hentry as Hentry.
    apply set_state_command in Hentry as [-> [state0 ->]].
    pose proof (proj1 (Hcommands menu index
                         (Command label command accelerator state0)
                         eq_refl) He) as He0.
    pose proof (proj1 (Hhooks menu index tabtypes) Hh) as Hh0.
    apply list_elem_of_In, Hmatch in Hh0. unfold hook_matches in Hh0.
    rewrite He0 in Hh0. apply bool_decide_eq_true in Hh0. by rewrite Hh0.
  - rewrite (Hkept _ _ Hnot) in Hentry.
    destruct Hnot. apply Hiff. unfold command_at. by rewrite Hentry.
Qed.

(** A tab of a class that derives from [FileTab] enables the commands
    of the file tabs. *)
Example undo_follows_a_subclass_tab :
  let s := state_of (Editor Sample.world None) in
  let s' := state_of (run_tab_changed_hook Sample.world
                        (Some Sample.a_subclass_tab) s) in
  entries edit_menu s !! 0
  = Some (Command "Undo" (CbTextMethod "undo") (Some "Ctrl+Z") Disabled)
  /\ entries edit_menu s' !! 0
     = Some (Command "Undo" (CbTextMethod "undo") (Some "Ctrl+Z") Normal).
Proof. split; vm_compute; reflexivity. Qed.

Lemma undo_follows_the_tab :
  let s := state_of (Editor Sample.world None) in
  let s' := state_of (run_tab_changed_hook Sample.world
                        (Some Sample.a_file_tab) s) in
  Editor Sample.world None = Returned tt s
  /\ run_tab_changed_hook Sample.world (Some Sample.a_file_tab) s
     = Returned tt s'
  /\ entries edit_menu s' !! 0
     = Some (Command "Undo" (CbTextMethod "undo") (Some "Ctrl+Z") Normal)
  /\ Normal = (if needs_file_tab (CbTextMethod "undo")
               then state_for (Some Sample.a_file_tab) [TabType FileTab]
               else Normal).
Proof.
  intros s s'.
  assert (Hinit : Editor Sample.world None = Returned tt s).
  { vm_compute. reflexivity. }
  assert (Hrun : run_tab_changed_hook Sample.world (Some Sample.a_file_tab) s
                 = Returned tt s').
  { vm_compute. reflexivity. }
  assert (Hentry : entries edit_menu s' !! 0
    = Some (Command "Undo" (CbTextMethod "undo") (Some "Ctrl+Z") Normal)).
  { vm_compute. reflexivity. }
  split_and!; [exact Hinit|exact Hrun|exact Hentry|].
  exact (Editor_commands_follow_tab Sample.world None
           (Some Sample.a_file_tab) s s' edit_menu 0 "Undo"
           (CbTextMethod "undo") (Some "Ctrl+Z") Normal Hinit Hrun Hentry).
Defined.


(** ** [_tab_changed]: the contexts of the hook *)

Lemma _tab_changed_returned w new_tab s s1 :
  _tab_changed w new_tab s = Returned tt s1 ->
  _tab_context_manager s1 = Some new_tab
  /\ trace s1
     = trace s
       ++ match _tab_context_manager s with
          | Some previous => [EvContextExit previous]
          | None => []
          end
       ++ [EvHookRun new_tab; EvContextEnter new_tab].
Proof.
  unfold _tab_changed, bind, get, foreign, modify.
  destruct (_tab_context_manager s) as [previous|].
  - destruct (fails w (EvContextExit previous)); [done|].
    destruct (fails w (EvHookRun new_tab)); [done|].
    destruct (fails w (EvContextEnter new_tab)); [done|].
    intros [= <-]. split; [done|]. simpl. by rewrite <- !app_assoc.
  - unfold ret.
    destruct (fails w (EvHookRun new_tab)); [done|].
    destruct (fails w (EvContextEnter new_tab)); [done|].
    intros [= <-]. split; [done|]. simpl. by rewrite <- !app_assoc.
Qed.

Lemma paired_app open evs1 evs2 :
  paired open (evs1 ++ evs2)
  = match paired open evs1 with
    | Some open' => paired open' evs2
    | None => None
    end.
Proof.
  revert open. induction evs1 as [|ev evs1 IH]; intros open; [done|].
  destruct ev; simpl; try apply IH.
  - destruct open; [done|apply IH].
  - destruct open; [done|apply IH].
  - case_decide; [apply IH|done].
Qed.

(** X20: the contexts of the editor's [tab_changed_hook] are entered and
    exited in turn.  Over any number of tab changes, each a call of
    [_tab_changed] that returns: the hook is run and a context is entered
    only when the context before has been exited, the context exited is
    always the one entered last, and at the end the context of the last
    new tab is the open one and is what [_tab_context_manager] holds. *)
Theorem tab_changes_paired (w : World) (new_tabs : list (option TabObj))
    (s s' : State) :
  for_each new_tabs (_tab_changed w) s = Returned tt s' ->
  exists evs,
    trace s' = trace s ++ evs
    /\ paired (_tab_context_manager s) evs = Some (_tab_context_manager s')
    /\ _tab_context_manager s'
       = match last new_tabs with
         | Some new_tab => Some new_tab
         | None => _tab_context_manager s
         end.
Proof.
  revert s. induction new_tabs as [|new_tab rest IH]; intros s.
  - intros [= <-]. exists []. by rewrite app_nil_r.
  - simpl for_each. unfold bind.
    destruct (_tab_changed w new_tab s) as [[] s1|e s1] eqn:Hcall; [|done].
    intros Hrest.
    destruct (_tab_changed_returned _ _ _ _ Hcall) as [Hctx1 Htrace1].
    destruct (IH s1 Hrest) as (evs & Htrace & Hpaired & Hctx).
    eexists. split_and!.
    + rewrite Htrace, Htrace1, <- app_assoc. reflexivity.
    + rewrite paired_app. rewrite Hctx1 in Hpaired.
      destruct (_tab_context_manager s) as [previous|]; simpl.
      * rewrite decide_True by done. exact Hpaired.
      * exact Hpaired.
    + rewrite Hctx, Hctx1, (last_cons new_tab rest).
      by destruct (last rest).
Qed.

Lemma tab_changes_in_sample_world :
  let new_tabs := [None; Some Sample.a_file_tab; Some Sample.a_plugin_tab] in
  let s' := state_of (for_each new_tabs (_tab_changed Sample.world)
                        (fresh None)) in
  for_each new_tabs (_tab_changed Sample.world) (fresh None) = Returned tt s'
  /\ exists evs,
       trace s' = trace (fresh None) ++ evs
       /\ paired (_tab_context_manager (fresh None)) evs
          = Some (_tab_context_manager s')
       /\ _tab_context_manager s'
          = match last new_tabs with
            | Some new_tab => Some new_tab
            | None => _tab_context_manager (fresh None)
            end.
Proof.
  intros new_tabs s'.
  assert (Hrun : for_each new_tabs (_tab_changed Sample.world) (fresh None)
                 = Returned tt s').
  { vm_compute. reflexivity. }
  split; [exact Hrun|].
  exact (tab_changes_paired Sample.world new_tabs (fresh None) s' Hrun).
Defined.

(** X21: after a hook run that raised, the old context is exited twice.
    When [_tab_changed] has exited the context of the tab before and
    [tab_changed_hook.run] raises, the exception goes to the caller and
    [_tab_context_manager] still holds the context that is exited
    already; the next call of [_tab_changed] starts by exiting it a
    second time. *)
Theorem failed_hook_run_keeps_exited_context (w : World)
    (previous new_tab next_tab : option TabObj) (e : Exc) (s : State) :
  _tab_context_manager s = Some previous ->
  fails w (EvContextExit previous) = None ->
  fails w (EvHookRun new_tab) = Some e ->
  let s1 := state_of (_tab_changed w new_tab s) in
  _tab_changed w new_tab s = Raised e s1
  /\ trace s1 = trace s ++ [EvContextExit previous; EvHookRun new_tab]
  /\ _tab_context_manager s1 = Some previous
  /\ exists evs,
       trace (state_of (_tab_changed w next_tab s1))
       = trace s1 ++ EvContextExit previous :: evs.
Proof.
  intros Hctx Hexit Hrun.
  assert (Hcall : _tab_changed w new_tab s
    = Raised e (with_trace
                  (fun t => t ++ [EvContextExit previous; EvHookRun new_tab])
                  s)).
  { unfold _tab_changed, bind, get, foreign. rewrite Hctx, Hexit, Hrun.
    f_equal. unfold with_trace. simpl. by rewrite <- app_assoc. }
  rewrite Hcall. simpl. split_and!; [done..|].
  unfold _tab_changed, bind, get. simpl. rewrite Hctx.
  unfold foreign at 1. rewrite Hexit.
  destruct (fails w (EvHookRun next_tab)) as [e'|] eqn:Hnext.
  - unfold foreign. rewrite Hnext. simpl. eexists.
    rewrite <- !app_assoc. reflexivity.
  - unfold foreign at 1. rewrite Hnext. unfold modify.
    unfold foreign.
    destruct (fails w (EvContextEnter next_tab)); simpl; eexists;
      rewrite <- !app_assoc; reflexivity.
Qed.

Lemma exited_twice_in_a_failing_world :
  let w := world_failing (EvHookRun (Some Sample.a_plugin_tab))
                         (mkExc KeyError "plugin") in
  let s := state_of (_tab_changed w (Some Sample.a_file_tab) (fresh None)) in
  let s1 := state_of (_tab_changed w (Some Sample.a_plugin_tab) s) in
  _tab_context_manager s = Some (Some Sample.a_file_tab)
  /\ _tab_changed w (Some Sample.a_plugin_tab) s
     = Raised (mkExc KeyError "plugin") s1
  /\ _tab_context_manager s1 = Some (Some Sample.a_file_tab)
  /\ exists evs,
       trace (state_of (_tab_changed w None s1))
       = trace s1 ++ EvContextExit (Some Sample.a_file_tab) :: evs.
Proof.
  intros w s s1.
  assert (Hctx : _tab_context_manager s = Some (Some Sample.a_file_tab)).
  { vm_compute. reflexivity. }
  destruct (failed_hook_run_keeps_exited_context w
              (Some Sample.a_file_tab) (Some Sample.a_plugin_tab) None
              (mkExc KeyError "plugin") s Hctx)
    as (Hraised & _ & Hctx1 & Hnext).
  { vm_compute. reflexivity. }
  { vm_compute. reflexivity. }
  split_and!; [exact Hctx|exact Hraised|exact Hctx1|exact Hnext].
Defined.


(** ** [_close_tab_or_quit] *)






(** ** The Color Themes menu *)

Lemma insort_perm x l : insort x l ≡ₚ x :: l.
Proof.
  induction l as [|y l IH]; [done|]. simpl.
  destruct (String.leb x y); [done|].
  rewrite IH. apply Permutation_swap.
Qed.

Lemma sorted_perm names : sorted names ≡ₚ names.
Proof.
  induction names as [|x names IH]; [done|].
  unfold sorted. simpl. fold (sorted names).
  by rewrite insort_perm, IH.
Qed.

Lemma insort_Sorted x l :
  Sorted (fun a b => String.leb a b = true) l ->
  Sorted (fun a b => String.leb a b = true) (insort x l).
Proof.
  induction l as [|y l IH]; intros Hl; simpl.
  - by repeat constructor.
  - destruct (String.leb x y) eqn:Hxy.
    + constructor; [done|by constructor].
    + apply Sorted_inv in Hl as [Hl Hhd]. constructor; [by apply IH|].
      assert (Hyx : String.leb y x = true).
      { destruct (String.leb_total x y) as [H|H]; [congruence|done]. }
      destruct l as [|z l]; simpl.
      * by constructor.
      * destruct (String.leb x z); constructor; [done|].
        by apply HdRel_inv in Hhd.
Qed.

Lemma sorted_Sorted names :
  Sorted (fun a b => String.leb a b = true) (sorted names).
Proof.
  induction names as [|x names IH]; [constructor|].
  unfold sorted. simpl. by apply insort_Sorted.
Qed.

(** The loop over the styles, when no call raises. *)
Lemma themes_added w names :
  forall s s',
    _submenus s !! (menubar, "Color Themes") = Some color_themes_menu ->
    for_each names (add_theme w) s = Returned tt s' ->
    entries color_themes_menu s'
    = entries color_themes_menu s ++ (theme_entry w <$> names).
Proof.
  induction names as [|name names IH]; intros s s' Hthemes.
  - intros [= <-]. by rewrite app_nil_r.
  - simpl for_each. unfold bind at 1.
    assert (Hround : add_theme w name s
      = match fails w (EvGetStyle name) with
        | Some e => Raised e (with_trace (fun t => t ++ [EvGetStyle name]) s)
        | None =>
            Returned tt
              (with_menus
                 (insert color_themes_menu
                    (entries color_themes_menu s ++ [theme_entry w name]))
                 (with_trace (fun t => t ++ [EvGetStyle name]) s))
        end).
    { unfold add_theme. unfold bind at 1, foreign.
      destruct (fails w (EvGetStyle name)); [done|].
      unfold bind, get_menu.
      change (split "/" "Color Themes") with ["Color Themes"].
      rewrite get_menu_from_cons. simpl _submenus. by rewrite Hthemes. }
    rewrite Hround. destruct (fails w (EvGetStyle name)); [done|].
    intros Hrest. apply IH in Hrest; [|done].
    rewrite Hrest, entries_insert, <- app_assoc. done.
Qed.

Lemma rest_of_init_keeps_themes w (es : list Entry) :
  preserves (fun s => entries color_themes_menu s = es)
    (modify (with_tab_changed_hook (fun h => h ++ [HookTabChanged])) ;;
     _tab_changed w None ;;
     for_each (tm_bindings w) (fun bc =>
       add_action (CbForeign bc.2) None None (Some bc.1) default_tabtypes)).
Proof.
  apply preserves_bind; [by apply preserves_modify|intros _].
  apply preserves_bind; [|intros _].
  { unfold _tab_changed.
    apply preserves_bind; [apply preserves_get|intros s1].
    apply preserves_bind; [|intros _].
    { destruct (_tab_context_manager s1);
        [by apply preserves_foreign|apply preserves_ret]. }
    apply preserves_bind; [by apply preserves_foreign|intros _].
    apply preserves_bind; [by apply preserves_modify|intros _].
    by apply preserves_foreign. }
  apply preserves_for_each. intros bc s Hs. rewrite add_action_unfold.
  done.
Qed.

(** X23: the Color Themes menu of a new editor has one radio button for
    each pygments style, in the order of the names.  When the constructor
    has returned, the entries of the Color Themes menu are the radio
    buttons of a list of names that has the names of
    [pygments.styles.get_all_styles()], each as often as it is there,
    and in which every name is less than or equal to the next; the
    button of a name has that name as its value and sets the option
    [pygments_style] to it. *)
Theorem Editor_color_themes (w : World) (destroy_callback : option string)
    (s : State) :
  Editor w destroy_callback = Returned tt s ->
  exists names,
    entries color_themes_menu s = theme_entry w <$> names
    /\ names ≡ₚ all_styles w
    /\ Sorted (fun a b => String.leb a b = true) names.
Proof.
  intros Hinit. exists (sorted (all_styles w)).
  split; [|split; [apply sorted_perm|apply sorted_Sorted]].
  unfold Editor in Hinit. rewrite init_split in Hinit.
  unfold bind at 1 in Hinit. rewrite with_actions_returned in Hinit.
  assert (Hthemes : _submenus (with_actions destroy_callback)
                      !! (menubar, "Color Themes") = Some color_themes_menu).
  { vm_compute. reflexivity. }
  assert (Hnone : entries color_themes_menu (with_actions destroy_callback)
                  = []).
  { vm_compute. reflexivity. }
  revert Hinit Hthemes Hnone.
  generalize (with_actions destroy_callback). intros s0 Hinit Hthemes Hnone.
  unfold bind at 1 in Hinit.
  destruct (setup_themes w s0) as [[] s1|e s1] eqn:Hsetup; [|done].
  assert (Hs1 : entries color_themes_menu s1
                = theme_entry w <$> sorted (all_styles w)).
  { unfold setup_themes, bind in Hsetup.
    destruct (for_each (sorted (all_styles w)) (add_theme w) s0)
      as [[] s2|e s2] eqn:Hloop; [|done].
    pose proof (themes_added w _ s0 s2 Hthemes Hloop) as Hadded.
    rewrite Hnone in Hadded. unfold foreign in Hsetup.
    destruct (fails w (EvConfigConnect "Editing" "pygments_style")); [done|].
    injection Hsetup as <-. exact Hadded. }
  pose proof (rest_of_init_keeps_themes w _ s1 Hs1) as Hkeeps.
  rewrite Hinit in Hkeeps. exact Hkeeps.
Qed.

Lemma color_themes_in_sample_world :
  let s := state_of (Editor Sample.world None) in
  Editor Sample.world None = Returned tt s
  /\ exists names,
       entries color_themes_menu s = theme_entry Sample.world <$> names
       /\ names ≡ₚ ["monokai"; "default"]
       /\ Sorted (fun a b => String.leb a b = true) names.
Proof.
  intros s.
  assert (Hinit : Editor Sample.world None = Returned tt s).
  { vm_compute. reflexivity. }
  split; [exact Hinit|].
  exact (Editor_color_themes Sample.world None s Hinit).
Defined.


(** ** The description of the welcome message *)

Lemma words_spaceless s :
  Forall (fun w => w <> EmptyString /\ spaceless w = true) (words s).
Proof.
  induction s as [|c rest IH]; [constructor|]. simpl.
  destruct (is_space c) eqn:Hc; [done|].
  destruct rest as [|c' rest']; [by repeat constructor; simpl; rewrite ?Hc|].
  destruct (is_space c') eqn:Hc'.
  - constructor; [|done]. split; [done|]. simpl. by rewrite Hc.
  - destruct (words (String c' rest')) as [|w ws].
    + repeat constructor; [done|]. simpl. by rewrite Hc.
    + apply Forall_cons in IH as [[Hne Hw] Hws]. constructor; [|done].
      split; [done|]. simpl. by rewrite Hc, Hw.
Qed.

Lemma words_single w :
  w <> EmptyString -> spaceless w = true -> words w = [w].
Proof.
  induction w as [|c rest IH]; [done|]. intros _ Hw. simpl in Hw.
  apply andb_true_iff in Hw as [Hc Hrest]. apply negb_true_iff in Hc.
  simpl. rewrite Hc. destruct rest as [|c' rest']; [done|].
  rewrite IH by done. simpl in Hrest.
  apply andb_true_iff in Hrest as [Hc' _]. apply negb_true_iff in Hc'.
  by rewrite Hc'.
Qed.

Lemma words_unfold c rest :
  words (String c rest)
  = if is_space c then words rest
    else match rest with
         | EmptyString => [String c EmptyString]
         | String c' _ =>
             if is_space c' then String c EmptyString :: words rest
             else match words rest with
                  | w :: ws => String c w :: ws
                  | [] => [String c EmptyString]
                  end
         end.
Proof. by destruct rest. Qed.

Lemma words_app_space w s :
  w <> EmptyString -> spaceless w = true ->
  words (w +:+ String " " s) = w :: words s.
Proof.
  induction w as [|c rest IH]; [done|]. intros _ Hw. simpl in Hw.
  apply andb_true_iff in Hw as [Hc Hrest]. apply negb_true_iff in Hc.
  change (String c rest +:+ String " " s)
    with (String c (rest +:+ String " " s)).
  rewrite words_unfold, Hc.
  destruct rest as [|c' rest'].
  - change (EmptyString +:+ String " " s) with (String " " s).
    cbv beta iota. change (is_space " ") with true. cbv iota.
    by rewrite (words_unfold " " s).
  - specialize (IH ltac:(done) Hrest). simpl in Hrest.
    apply andb_true_iff in Hrest as [Hc' _]. apply negb_true_iff in Hc'.
    change (String c' rest' +:+ String " " s)
      with (String c' (rest' +:+ String " " s)) in *.
    cbv beta iota. by rewrite Hc', IH.
Qed.

(** Joining words with single spaces and splitting again gives the
    words. *)
Lemma words_join ws :
  Forall (fun w => w <> EmptyString /\ spaceless w = true) ws ->
  words (join " " ws) = ws.
Proof.
  induction ws as [|w ws IH]; [done|]. intros Hws.
  apply Forall_cons in Hws as [[Hne Hw] Hws].
  destruct ws as [|w' ws]; [by apply words_single|].
  change (join " " (w :: w' :: ws))
    with (w +:+ String " " (join " " (w' :: ws))).
  rewrite words_app_space by done. by rewrite IH.
Qed.

Lemma spaceless_app a b :
  spaceless (a +:+ b) = spaceless a && spaceless b.
Proof.
  induction a as [|c a IH]; [done|].
  change (String c a +:+ b) with (String c (a +:+ b)). simpl.
  by rewrite IH, andb_assoc.
Qed.

Lemma spaceless_no_newline w :
  spaceless w = true -> occurs "010" w = false.
Proof.
  induction w as [|c w IH]; [done|]. simpl. intros Hw.
  apply andb_true_iff in Hw as [Hc Hw]. rewrite (IH Hw), orb_false_r.
  apply bool_decide_eq_false_2. intros ->. done.
Qed.

Lemma occurs_app c a b : occurs c (a +:+ b) = occurs c a || occurs c b.
Proof.
  induction a as [|c' a IH]; [done|].
  change (String c' a +:+ b) with (String c' (a +:+ b)). simpl.
  by rewrite IH, orb_assoc.
Qed.

Lemma join_words_no_newline ws :
  Forall (fun w => w <> EmptyString /\ spaceless w = true) ws ->
  occurs "010" (join " " ws) = false.
Proof.
  induction ws as [|w ws IH]; [done|]. intros Hws.
  apply Forall_cons in Hws as [[Hne Hw] Hws].
  destruct ws as [|w' ws]; [by apply spaceless_no_newline|].
  change (join " " (w :: w' :: ws))
    with (w +:+ String " " (join " " (w' :: ws))).
  rewrite occurs_app, (spaceless_no_newline w Hw). simpl.
  by apply IH.
Qed.

Lemma paragraphs_not_nil s : paragraphs s <> [].
Proof.
  destruct s as [|c rest]; [done|]. simpl.
  destruct rest as [|c' rest'].
  - by destruct (paragraphs EmptyString).
  - destruct (bool_decide (c = "010"%char) && bool_decide (c' = "010"%char));
      [done|]. by destruct (paragraphs (String c' rest')).
Qed.

Lemma paragraphs_unfold c rest :
  paragraphs (String c rest)
  = match rest with
    | String c' rest' =>
        if bool_decide (c = "010"%char) && bool_decide (c' = "010"%char)
        then EmptyString :: paragraphs rest'
        else match paragraphs rest with
             | p :: ps => String c p :: ps
             | [] => [String c EmptyString]
             end
    | EmptyString => [String c EmptyString]
    end.
Proof. by destruct rest. Qed.

Lemma paragraphs_single l :
  occurs "010" l = false -> paragraphs l = [l].
Proof.
  induction l as [|c rest IH]; [done|]. simpl occurs. intros Hl.
  apply orb_false_iff in Hl as [Hc Hrest].
  rewrite paragraphs_unfold. destruct rest as [|c' rest']; [done|].
  rewrite Hc. simpl andb. cbv iota. by rewrite (IH Hrest).
Qed.

Lemma paragraphs_app l s :
  occurs "010" l = false ->
  paragraphs (l +:+ newline +:+ newline +:+ s) = l :: paragraphs s.
Proof.
  induction l as [|c rest IH]; [done|]. simpl occurs. intros Hl.
  apply orb_false_iff in Hl as [Hc Hrest].
  change (String c rest +:+ newline +:+ newline +:+ s)
    with (String c (rest +:+ newline +:+ newline +:+ s)).
  specialize (IH Hrest). rewrite paragraphs_unfold.
  destruct (rest +:+ newline +:+ newline +:+ s) as [|c' rest'] eqn:Heq.
  - by destruct rest.
  - rewrite Hc. simpl andb. cbv iota. by rewrite IH.
Qed.

Lemma paragraphs_join ls :
  ls <> [] ->
  Forall (fun l => occurs "010" l = false) ls ->
  paragraphs (join (newline +:+ newline) ls) = ls.
Proof.
  induction ls as [|l ls IH]; [done|]. intros _ Hls.
  apply Forall_cons in Hls as [Hl Hls].
  destruct ls as [|l' ls]; [by apply paragraphs_single|].
  change (join (newline +:+ newline) (l :: l' :: ls))
    with (l +:+ (newline +:+ newline)
            +:+ join (newline +:+ newline) (l' :: ls)).
  change (l +:+ (newline +:+ newline)
            +:+ join (newline +:+ newline) (l' :: ls))
    with (l +:+ ((newline +:+ newline)
                   +:+ join (newline +:+ newline) (l' :: ls))).
  change ((newline +:+ newline) +:+ join (newline +:+ newline) (l' :: ls))
    with (newline +:+ newline +:+ join (newline +:+ newline) (l' :: ls)).
  rewrite paragraphs_app by done. by rewrite IH.
Qed.

(** X25: the description of the welcome message keeps the words and the
    paragraphs of the docstring.  Each element of [description_lines]
    has the words of its paragraph of the docstring, with one space
    between two words and nothing else: splitting it and joining it
    again gives the same text, and it has no line feed, so the label
    breaks its lines where the window wants.  The text of the label has
    these elements as its paragraphs, as many as the docstring has. *)
Theorem welcome_description_keeps_words (init_docstring : string) :
  Forall2 (fun line paragraph =>
             words line = words paragraph
             /\ join " " (words line) = line
             /\ occurs "010" line = false)
          (description_lines init_docstring) (paragraphs init_docstring)
  /\ paragraphs (desclabel_text init_docstring)
     = description_lines init_docstring.
Proof.
  assert (Hlines : Forall2 (fun line paragraph =>
             words line = words paragraph
             /\ join " " (words line) = line
             /\ occurs "010" line = false)
          (description_lines init_docstring) (paragraphs init_docstring)).
  { unfold description_lines. apply Forall2_fmap_l, Forall_Forall2_diag.
    apply Forall_forall. intros paragraph _.
    pose proof (words_spaceless paragraph) as Hwords.
    unfold compose. cbv beta.
    rewrite (words_join _ Hwords). split_and!; [done..|].
    by apply join_words_no_newline. }
  split; [exact Hlines|].
  unfold desclabel_text. apply paragraphs_join.
  - unfold description_lines. intros Hnil.
    apply fmap_nil_inv in Hnil. by apply paragraphs_not_nil in Hnil.
  - unfold description_lines. apply Forall_fmap, Forall_forall.
    intros paragraph _. apply join_words_no_newline, words_spaceless.
Qed.


(** ** No tab without the key bindings of the editor *)

Lemma bound_before_added_nil : bound_before_added [].
Proof. intros i tab mc Hi. by rewrite lookup_nil in Hi. Qed.

Lemma bound_before_added_app evs1 evs2 :
  bound_before_added evs1 -> bound_before_added evs2 ->
  bound_before_added (evs1 ++ evs2).
Proof.
  intros H1 H2 i tab mc Hi.
  destruct (decide (i < length evs1)) as [Hlt|Hge].
  - rewrite lookup_app_l in Hi by done.
    destruct (H1 _ _ _ Hi) as (j & -> & Hj). exists j. split; [done|].
    rewrite lookup_app_l by lia. exact Hj.
  - rewrite lookup_app_r in Hi by lia.
    destruct (H2 _ _ _ Hi) as (j & Heq & Hj).
    exists (length evs1 + j). split; [lia|].
    rewrite lookup_app_r by lia.
    by replace (length evs1 + j - length evs1) with j by lia.
Qed.

Lemma bound_before_added_other ev :
  (forall tab mc, ev <> EvAddTab tab mc) -> bound_before_added [ev].
Proof.
  intros Hev i tab mc Hi. destruct i as [|i]; [|done].
  injection Hi as ->. by destruct (Hev tab mc).
Qed.

Lemma emits_ret {A} (a : A) : emits bound_before_added (ret a).
Proof.
  intros s. exists []. split; [by rewrite app_nil_r|].
  apply bound_before_added_nil.
Qed.

Lemma emits_bind {A B} (m : M State A) (k : A -> M State B) :
  emits bound_before_added m ->
  (forall a, emits bound_before_added (k a)) ->
  emits bound_before_added (bind m k).
Proof.
  intros Hm Hk s. unfold bind. destruct (Hm s) as (evs1 & Ht1 & H1).
  destruct (m s) as [a s1|e s1]; simpl in Ht1.
  - destruct (Hk a s1) as (evs2 & Ht2 & H2). exists (evs1 ++ evs2).
    split; [by rewrite Ht2, Ht1, app_assoc|].
    by apply bound_before_added_app.
  - by exists evs1.
Qed.

Lemma emits_for_each {A} (xs : list A) (body : A -> M State unit) :
  (forall x, emits bound_before_added (body x)) ->
  emits bound_before_added (for_each xs body).
Proof.
  intros Hbody. induction xs as [|x rest IH]; simpl.
  - apply emits_ret.
  - apply emits_bind; [apply Hbody|by intros _].
Qed.

Lemma emits_try {A} (body : M State A) classes (handler : Exc -> M State A) :
  emits bound_before_added body -> (forall e, emits bound_before_added (handler e)) ->
  emits bound_before_added (try_except body classes handler).
Proof.
  intros Hbody Hhandler s. unfold try_except.
  destruct (Hbody s) as (evs1 & Ht1 & H1).
  destruct (body s) as [a s1|e s1]; simpl in Ht1; [by exists evs1|].
  destruct (isinstance e classes); [|by exists evs1].
  destruct (Hhandler e s1) as (evs2 & Ht2 & H2). exists (evs1 ++ evs2).
  split; [by rewrite Ht2, Ht1, app_assoc|].
  by apply bound_before_added_app.
Qed.

Lemma emits_foreign w ev :
  (forall tab mc, ev <> EvAddTab tab mc) -> emits bound_before_added (foreign w ev).
Proof.
  intros Hev s. exists [ev]. split.
  - unfold foreign. by destruct (fails w ev).
  - by apply bound_before_added_other.
Qed.

Lemma emits_modify (f : State -> State) :
  (forall s, trace (f s) = trace s) -> emits bound_before_added (modify f).
Proof.
  intros Hf s. exists []. split; [by rewrite app_nil_r; apply Hf|].
  apply bound_before_added_nil.
Qed.

Lemma emits_get : emits bound_before_added get.
Proof.
  intros s. exists []. split; [by rewrite app_nil_r|].
  apply bound_before_added_nil.
Qed.

Lemma emits_new_FileTab w content path :
  emits bound_before_added (new_FileTab w content path).
Proof.
  unfold new_FileTab.
  apply emits_bind; [by apply emits_foreign|intros _].
  apply emits_bind; [apply emits_get|intros s0].
  apply emits_bind; [by apply emits_modify|intros _].
  apply emits_ret.
Qed.

(** The two calls that [new_file] and [open_files] make for a tab. *)
Lemma emits_copy_and_add w tab make_current :
  emits bound_before_added (foreign w (EvCopyBindings (tab_textwidget tab)) ;;
           add_tab w tab make_current).
Proof.
  intros s. unfold bind, add_tab, foreign, modify.
  destruct (fails w (EvCopyBindings (tab_textwidget tab))).
  { exists [EvCopyBindings (tab_textwidget tab)]. split; [done|].
    by apply bound_before_added_other. }
  exists [EvCopyBindings (tab_textwidget tab); EvAddTab tab make_current].
  split.
  - destruct (fails w (EvAddTab tab make_current)); simpl;
      by rewrite <- app_assoc.
  - intros i tab' mc Hi. destruct i as [|[|i]]; [done| |done].
    injection Hi as -> ->. by exists 0.
Qed.

Lemma emits_new_file w : emits bound_before_added (new_file w).
Proof.
  unfold new_file.
  apply emits_bind; [apply emits_new_FileTab|intros tab].
  apply emits_copy_and_add.
Qed.

Lemma emits_open_files w : emits bound_before_added (open_files w).
Proof.
  unfold open_files.
  apply emits_bind; [apply emits_get|intros s0].
  apply emits_bind; [by apply emits_foreign|intros _].
  apply emits_for_each. intros path. unfold open_path.
  apply emits_bind.
  - apply emits_try.
    + apply emits_bind; [|intros tab; apply emits_ret].
      unfold open_one.
      apply emits_bind; [by apply emits_foreign|intros _].
      apply emits_bind; [|intros content; apply emits_new_FileTab].
      intros s. exists [EvOpen path (config_files_encoding w)]. split.
      * unfold open_and_read. by destruct (open_read w path _).
      * by apply bound_before_added_other.
    + intros e. apply emits_bind; [|intros _; apply emits_ret].
      unfold opening_failed.
      apply emits_bind; [by apply emits_foreign|intros _].
      by apply emits_foreign.
  - intros [tab|]; [apply emits_copy_and_add|apply emits_ret].
Qed.

(** X26: no tab without the key bindings of the editor.  Among the
    calls of [new_file] and among those of [open_files], however they
    end, every [tabmanager.add_tab] comes right after the
    [utils.copy_bindings] for the text widget of the tab that is
    added. *)
Theorem tabs_are_bound_before_added (w : World) (s : State) :
  (exists evs,
     trace (state_of (new_file w s)) = trace s ++ evs
     /\ bound_before_added evs)
  /\ (exists evs,
        trace (state_of (open_files w s)) = trace s ++ evs
        /\ bound_before_added evs).
Proof.
  split; [apply emits_new_file|apply emits_open_files].
Qed.

End EditorExtras.
